(** * VLP v1.1: message construction, validation and session sequencing

    A shallow embedding of [vlp/runtime.py] and [vlp/sessions.py].

    Python values are modelled by the inductive [pyval]; a Python [str] is a
    Rocq [string] whose characters are read as the code points U+0000 to
    U+00FF; a Python [float] is a binary64 [PrimFloat.float]; a [dict] is an
    association list in insertion order.  Exceptions are values of [exn]
    carried by [result].  The mutable [AgentSession] objects live in a store
    addressed by handles, and the registry maps session ids to handles.

    Two parts of the code are read a second time, where a statement depends
    on what the first reading leaves out.  [make_message] changes the
    [safety] dict and its list of issues in place; module [Obj] has the
    lists and dicts of a call as objects with an identity, so that one
    object passed under two names is changed under both.  [to_ndjson] and
    [from_ndjson] meet line boundaries beyond U+00FF; module [UJson] has
    them over texts that are lists of code points. *)

From Stdlib Require Import ZArith NArith String Ascii List Bool Lia.
From Stdlib Require Import DecimalString.
From Stdlib Require Import PrimFloat SpecFloat FloatOps FloatAxioms.
From Stdlib Require DecimalPos.
From stdpp Require Import gmap strings.

Set Warnings "-register-all,-inexact-float,-notation-for-abbreviation".

Open Scope string_scope.
Open Scope Z_scope.

(* ===================================================================== *)
(** * Python [str] *)
(* ===================================================================== *)

Module PyStr.

(** [ord(c)] *)
Definition ord (c : ascii) : N := N_of_ascii c.

(** The double quote, U+0022, and the backslash, U+005C. *)
Definition dquote : ascii := ascii_of_N 34.
Definition backslash : ascii := ascii_of_N 92.

(** The line boundaries of [str.splitlines] below U+0100: LF, CR, VT, FF,
    FS, GS, RS and NEL (U+0085). *)
Definition is_linebreak (c : ascii) : bool :=
  let n := ord c in
  ((10 <=? n) && (n <=? 13) || (28 <=? n) && (n <=? 30) || (n =? 133))%N.

(** [c.isspace()] below U+0100: TAB..CR, FS..US, SPACE, NEL, NBSP. *)
Definition isspace (c : ascii) : bool :=
  let n := ord c in
  ((9 <=? n) && (n <=? 13) || (28 <=? n) && (n <=? 32)
   || (n =? 133) || (n =? 160))%N.

(** [c.lower()] below U+0100: A-Z, and U+00C0..U+00DE except the
    multiplication sign U+00D7, move up by 32. *)
Definition lower_char (c : ascii) : ascii :=
  let n := ord c in
  if ((65 <=? n) && (n <=? 90)
      || (192 <=? n) && (n <=? 222) && negb (n =? 215))%N
  then ascii_of_N (n + 32) else c.

(** [s.lower()] *)
Fixpoint lower (s : string) : string :=
  match s with
  | EmptyString => EmptyString
  | String c s' => String (lower_char c) (lower s')
  end.

Definition is_empty (s : string) : bool :=
  match s with EmptyString => true | _ => false end.

(** [s.lstrip()] *)
Fixpoint lstrip (s : string) : string :=
  match s with
  | EmptyString => EmptyString
  | String c s' => if isspace c then lstrip s' else s
  end.

(** [s.rstrip()] *)
Fixpoint rstrip (s : string) : string :=
  match s with
  | EmptyString => EmptyString
  | String c s' =>
      let r := rstrip s' in
      if is_empty r && isspace c then EmptyString else String c r
  end.

(** [s.strip()] *)
Definition strip (s : string) : string := rstrip (lstrip s).

(** [sep.join(l)] *)
Fixpoint join (sep : string) (l : list string) : string :=
  match l with
  | [] => ""
  | [x] => x
  | x :: rest => x +:+ sep +:+ join sep rest
  end.

(** [s.splitlines()]: [cur] is the line read so far.  A line ends at a line
    boundary, CR LF counts as one boundary, and a boundary at the very end of
    the text opens no further line. *)
Fixpoint splitlines_from (cur : string) (s : string) : list string :=
  match s with
  | EmptyString => if is_empty cur then [] else [cur]
  | String c s' =>
      if is_linebreak c then
        match s' with
        | String c' s'' =>
            if ((ord c =? 13) && (ord c' =? 10))%N
            then cur :: splitlines_from "" s''
            else cur :: splitlines_from "" s'
        | EmptyString => [cur]
        end
      else splitlines_from (cur +:+ String c "") s'
  end.

Definition splitlines (s : string) : list string := splitlines_from "" s.

(** [s[:n]] *)
Fixpoint take (n : nat) (s : string) : string :=
  match n, s with
  | S n', String c s' => String c (take n' s')
  | _, _ => EmptyString
  end.

(** [s[n:]] *)
Fixpoint drop (n : nat) (s : string) : string :=
  match n, s with
  | S n', String _ s' => drop n' s'
  | _, _ => s
  end.

(** [s[-n:]] for [n > 0] *)
Definition last_n (n : nat) (s : string) : string :=
  drop (String.length s - n)%nat s.

(** [s.startswith(p)] *)
Fixpoint startswith (p s : string) : bool :=
  match p, s with
  | EmptyString, _ => true
  | String a p', String b s' => Ascii.eqb a b && startswith p' s'
  | String _ _, EmptyString => false
  end.

(** [s.replace(old, new)] for a non-empty [old]: occurrences are replaced
    from the left and do not overlap; [skip] counts the characters of a
    matched occurrence still to pass over. *)
Fixpoint replace_from (skip : nat) (old new s : string) : string :=
  match s with
  | EmptyString => EmptyString
  | String c s' =>
      match skip with
      | S k => replace_from k old new s'
      | O =>
          if startswith old s
          then new +:+ replace_from (String.length old - 1)%nat old new s'
          else String c (replace_from O old new s')
      end
  end.

(** [s.replace(old, new)]; with an empty [old], [new] goes before every
    character and at the end. *)
Fixpoint intersperse (new s : string) : string :=
  match s with
  | EmptyString => new
  | String c s' => new +:+ String c (intersperse new s')
  end.

Definition replace (old new s : string) : string :=
  if is_empty old then intersperse new s else replace_from O old new s.

(** [str(z)] for an [int] *)
Definition of_Z (z : Z) : string := NilZero.string_of_int (Z.to_int z).

(** [n] copies of ["0"] *)
Fixpoint zeros (n : nat) : string :=
  match n with O => "" | S k => String "0" (zeros k) end.

(** [f"{z:0{w}d}"]: the sign, then the digits padded with zeros to [w]
    characters in all. *)
Definition format_0d (w : nat) (z : Z) : string :=
  let digits := of_Z (Z.abs z) in
  if z <? 0
  then "-" +:+ zeros (w - 1 - String.length digits) +:+ digits
  else zeros (w - String.length digits) +:+ digits.

(** [sub in s] *)
Fixpoint contains (sub s : string) : bool :=
  startswith sub s
  || match s with
     | EmptyString => false
     | String _ s' => contains sub s'
     end.

(** [s.split(sep)] for a one-character [sep]; [cur] is the field read so
    far. *)
Fixpoint split_from (cur : string) (sep : ascii) (s : string) : list string :=
  match s with
  | EmptyString => [cur]
  | String c s' =>
      if Ascii.eqb c sep then cur :: split_from "" sep s'
      else split_from (cur +:+ String c "") sep s'
  end.

Definition split (sep : ascii) (s : string) : list string := split_from "" sep s.

End PyStr.

(* ===================================================================== *)
(** * Python values, exceptions and builtins *)
(* ===================================================================== *)

(** The JSON-shaped Python values a message is made of. *)
Inductive pyval : Type :=
| VNone
| VBool (b : bool)
| VInt (z : Z)
| VFloat (f : float)
| VStr (s : string)
| VList (l : list pyval)
| VDict (d : list (string * pyval)).

(** A [dict] with [str] keys, in insertion order; no key occurs twice. *)
Notation dict := (list (string * pyval)).

(** The exceptions that the code can raise.  [BadHandle] is not a Python
    exception: it is what a computation gives for a handle with no object
    behind it, which a reference held by a Python caller never is. *)
Inductive exn : Type :=
| ValueError (msg : string)
| TypeError (msg : string)
| OverflowError (msg : string)
| JSONDecodeError
| BadHandle.

Inductive result (A : Type) : Type :=
| Ok (a : A)
| Raise (e : exn).
Arguments Ok {A} a.
Arguments Raise {A} e.

(** What the code calls from outside the repository's Python sources:
    CPython's conversions between [float] and text, and the [jsonschema]
    check of a message against the schema document [vlp-1.1.json], which is
    loaded from a file that is not among the sources.  The code is embedded
    over any such host, and the theorems hold for every host. *)
Class Host : Type := {
  (** [float(s)] for a [str]; [None] when it raises [ValueError] *)
  float_of_str : string -> option float;
  (** [repr(x)] for a [float] *)
  float_repr : float -> string;
  (** [validate(instance=msg, schema=vlp_1_1)]: [None] when it returns,
      [Some (str e)] when it raises *)
  jsonschema_validate : pyval -> option string
}.

Module Py.

(** [d.get(k)] as an option *)
Fixpoint lookup (k : string) (d : dict) : option pyval :=
  match d with
  | [] => None
  | (k', v) :: d' => if String.eqb k k' then Some v else lookup k d'
  end.

(** [k in d] *)
Definition has (k : string) (d : dict) : bool :=
  match lookup k d with Some _ => true | None => false end.

(** [d.get(k, dflt)] *)
Definition get_or (d : dict) (k : string) (dflt : pyval) : pyval :=
  match lookup k d with Some v => v | None => dflt end.

(** [d.get(k)] *)
Definition get (d : dict) (k : string) : pyval := get_or d k VNone.

(** [d[k] = v]: an existing key keeps its place, a new one goes last. *)
Fixpoint set (k : string) (v : pyval) (d : dict) : dict :=
  match d with
  | [] => [(k, v)]
  | (k', v') :: d' =>
      if String.eqb k k' then (k, v) :: d' else (k', v') :: set k v d'
  end.

(** [list(d)] *)
Definition keys (d : dict) : list string := map fst d.

(** [d] without the key [k] *)
Definition remove (k : string) (d : dict) : dict :=
  List.filter (fun kv => negb (String.eqb k (fst kv))) d.

(** [dict.fromkeys(ks)] *)
Definition fromkeys (ks : list string) : dict :=
  fold_left (fun d k => set k VNone d) ks [].

(** [bool(v)] *)
Definition truthy (v : pyval) : bool :=
  match v with
  | VNone => false
  | VBool b => b
  | VInt z => negb (z =? 0)
  | VFloat f => negb (f =? 0)%float
  | VStr s => negb (PyStr.is_empty s)
  | VList l => match l with [] => false | _ => true end
  | VDict d => match d with [] => false | _ => true end
  end.

(** [a or b] *)
Definition or_ (a b : pyval) : pyval := if truthy a then a else b.

(** [isinstance(v, list)], [isinstance(v, dict)] *)
Definition is_list (v : pyval) : bool :=
  match v with VList _ => true | _ => false end.
Definition is_dict (v : pyval) : bool :=
  match v with VDict _ => true | _ => false end.

(** Two lower-case hexadecimal digits. *)
Definition hex_digit (n : N) : ascii :=
  if (n <? 10)%N then ascii_of_N (48 + n) else ascii_of_N (87 + n).
Definition hex2 (n : N) : string :=
  String (hex_digit (n / 16)) (String (hex_digit (n mod 16)) "").

(** [c.isprintable()] below U+0100 *)
Definition isprintable (c : ascii) : bool :=
  let n := PyStr.ord c in
  ((32 <=? n) && (n <=? 126) || (161 <=? n) && negb (n =? 173))%N.

(** [repr(s)] for a [str]: single quotes unless the text has a single quote
    and no double quote. *)
Definition repr_char (quote : ascii) (c : ascii) : string :=
  let n := PyStr.ord c in
  if Ascii.eqb c quote || (n =? 92)%N then String PyStr.backslash (String c "")
  else if (n =? 9)%N then String PyStr.backslash "t"
  else if (n =? 10)%N then String PyStr.backslash "n"
  else if (n =? 13)%N then String PyStr.backslash "r"
  else if isprintable c then String c ""
  else String PyStr.backslash ("x" +:+ hex2 n).

Fixpoint repr_chars (quote : ascii) (s : string) : string :=
  match s with
  | EmptyString => EmptyString
  | String c s' => repr_char quote c +:+ repr_chars quote s'
  end.

Definition repr_str (s : string) : string :=
  let quote :=
    if PyStr.contains "'" s && negb (PyStr.contains (String PyStr.dquote "") s)
    then PyStr.dquote else "'"%char in
  String quote (repr_chars quote s +:+ String quote "").

(** [type(v).__name__] *)
Definition type_name (v : pyval) : string :=
  match v with
  | VNone => "NoneType"
  | VBool _ => "bool"
  | VInt _ => "int"
  | VFloat _ => "float"
  | VStr _ => "str"
  | VList _ => "list"
  | VDict _ => "dict"
  end.

Section WithHost.
Context {H : Host}.

(** [repr(v)] *)
Fixpoint repr (v : pyval) : string :=
  match v with
  | VNone => "None"
  | VBool true => "True"
  | VBool false => "False"
  | VInt z => PyStr.of_Z z
  | VFloat f => float_repr f
  | VStr s => repr_str s
  | VList l => "[" +:+ PyStr.join ", " (map repr l) +:+ "]"
  | VDict d =>
      "{" +:+ PyStr.join ", "
                (map (fun kv => repr_str (fst kv) +:+ ": " +:+ repr (snd kv)) d)
          +:+ "}"
  end.

(** [str(v)] *)
Definition str (v : pyval) : string :=
  match v with
  | VStr s => s
  | _ => repr v
  end.

(** [int.__float__]: the nearest binary64, ties to even; [None] when the
    [int] is too large. *)
Definition float_of_Z (z : Z) : option float :=
  match binary_normalize 53 1024 z 0 false with
  | S754_infinity _ => None
  | sf => Some (SF2Prim sf)
  end.

(** [float(v)] *)
Definition float_ (v : pyval) : result float :=
  match v with
  | VFloat f => Ok f
  | VInt z =>
      match float_of_Z z with
      | Some f => Ok f
      | None => Raise (OverflowError "int too large to convert to float")
      end
  | VBool b => Ok (if b then 1 else 0)%float
  | VStr s =>
      match float_of_str s with
      | Some f => Ok f
      | None => Raise (ValueError ("could not convert string to float: " +:+ repr_str s))
      end
  | _ => Raise (TypeError ("float() argument must be a string or a real number, not '"
                             +:+ type_name v +:+ "'"))
  end.

End WithHost.
End Py.

(* ===================================================================== *)
(** * [vlp/runtime.py] *)
(* ===================================================================== *)

(** A reading of the clock, [datetime.datetime.now(datetime.timezone.utc)]. *)
Record datetime : Type := {
  year : Z; month : Z; day : Z;
  hour : Z; minute : Z; second : Z; microsecond : Z
}.

(** What one call of [make_message] may draw from outside: [uuid.uuid4().hex]
    and the clock. *)
Record Env : Type := {
  uuid_hex : string;
  clock : datetime
}.

Module Clock.

(** [d.strftime("%Y-%m-%d")], for the years of four digits that the clock
    gives *)
Definition strftime_Ymd (d : datetime) : string :=
  PyStr.format_0d 4 (year d) +:+ "-" +:+ PyStr.format_0d 2 (month d)
    +:+ "-" +:+ PyStr.format_0d 2 (day d).

(** [d.isoformat()] for a reading in UTC: the fraction is left out when the
    microseconds are zero. *)
Definition isoformat (d : datetime) : string :=
  strftime_Ymd d +:+ "T" +:+ PyStr.format_0d 2 (hour d)
    +:+ ":" +:+ PyStr.format_0d 2 (minute d)
    +:+ ":" +:+ PyStr.format_0d 2 (second d)
    +:+ (if microsecond d =? 0 then "" else "." +:+ PyStr.format_0d 6 (microsecond d))
    +:+ "+00:00".

(** [d.replace(microsecond=0)] *)
Definition replace_microsecond_0 (d : datetime) : datetime :=
  {| year := year d; month := month d; day := day d;
     hour := hour d; minute := minute d; second := second d;
     microsecond := 0 |}.

(** [d.isoformat().replace("+00:00", "Z")] *)
Definition iso_z (d : datetime) : string :=
  PyStr.replace "+00:00" "Z" (isoformat d).

End Clock.

Module Runtime.
Import Py.

Section WithHost.
Context {H : Host}.

(** [new_id(prefix)] *)
Definition new_id (e : Env) (prefix : string) : string :=
  prefix +:+ PyStr.take 8 (uuid_hex e).

(** [now_iso()] *)
Definition now_iso (e : Env) : string :=
  Clock.iso_z (Clock.replace_microsecond_0 (clock e)).

(** [_as_list(v)] *)
Definition _as_list (v : pyval) : list pyval :=
  match v with
  | VNone => []
  | VList l => l
  | _ => [v]
  end.

Definition default_safety : dict :=
  [("level", VStr "safe"); ("issues", VList [])].

(** [conf_f >= 0.9] *)
Definition high_confidence (conf : float) : bool := (0.9 <=? conf)%float.

Definition is_nil (l : list pyval) : bool :=
  match l with [] => true | _ => false end.

(** Lines 42, 55-56 and 57-58 of [_semantic_validate]: the type, the
    provenance and the safety level as the validator reads them. *)
Definition msg_type (msg : dict) : string :=
  PyStr.strip (str (or_ (get msg "type") (VStr ""))).

Definition msg_prov_list (msg : dict) : list pyval :=
  let prov := get_or msg "provenance" (VList []) in
  match prov with VList l => l | _ => [] end.

Definition msg_safety_level (msg : dict) : string :=
  let safety :=
    if is_dict (get msg "safety") then get msg "safety"
    else VDict default_safety in
  str (or_ (match or_ safety (VDict []) with
            | VDict d => get d "level"
            | _ => VNone
            end) (VStr "safe")).

(** Lines 62-67: the evidence rule; [Some err] is the early return. *)
Definition evidence_rule (t : string) (refers_to : pyval)
    (prov_list : list pyval) : option string :=
  if String.eqb t "evidence" then
    if negb (truthy refers_to)
    then Some "evidence messages must include refers_to"
    else if is_nil prov_list
    then Some "evidence messages must include non-empty provenance"
    else None
  else None.

(** Lines 69-72: the response and correction rule. *)
Definition reference_rule (t : string) (refers_to : pyval) : option string :=
  if String.eqb t "response" || String.eqb t "correction" then
    if negb (truthy refers_to)
    then Some (t +:+ " messages must include refers_to")
    else None
  else None.

(** The text of the error of lines 75-76. *)
Definition unearned_confidence : string :=
  "confidence >= 0.9 requires provenance or safety.level=review".

(** [_semantic_validate(msg)] *)
Definition _semantic_validate (msg : dict) : bool * option string :=
  let t := msg_type msg in
  if negb (String.eqb t (PyStr.lower t)) then (false, Some "type must be lowercase")
  else
    let conf := get_or msg "confidence" VNone in
    match conf with
    | VNone => (false, Some "confidence is required")
    | _ =>
        match float_ conf with
        | Raise _ => (false, Some "confidence must be a number")
        | Ok conf_f =>
            let prov_list := msg_prov_list msg in
            let safety_level := msg_safety_level msg in
            let refers_to := get msg "refers_to" in
            match evidence_rule t refers_to prov_list with
            | Some err => (false, Some err)
            | None =>
                match reference_rule t refers_to with
                | Some err => (false, Some err)
                | None =>
                    if high_confidence conf_f && is_nil prov_list
                       && negb (String.eqb safety_level "review")
                    then (false, Some unearned_confidence)
                    else (true, None)
                end
            end
        end
    end.

(** [validate_vlp(msg)] *)
Definition validate_vlp (msg : dict) : bool * option string :=
  match jsonschema_validate (VDict msg) with
  | Some e => (false, Some e)
  | None => _semantic_validate msg
  end.

(** The issue that the escalation appends. *)
Definition escalation_issue : pyval :=
  VDict [("code", VStr "missing_provenance_high_confidence");
         ("detail", VStr "confidence >= 0.9 without provenance")].

(** Lines 126-132 of [make_message]: the [safety] option brought to a dict
    that has a list under ["issues"] and some value under ["level"]. *)
Definition normalize_safety (kw : dict) : dict :=
  let safety := get_or kw "safety" (VDict default_safety) in
  let safety := match safety with VDict d => d | _ => default_safety end in
  let safety :=
    if negb (has "issues" safety) || negb (is_list (get safety "issues"))
    then set "issues" (VList []) safety else safety in
  if negb (has "level" safety) then set "level" (VStr "safe") safety else safety.

(** [safety["issues"].append(x)]; the value under ["issues"] is a list
    after lines 129-130. *)
Definition append_issue (x : pyval) (safety : dict) : dict :=
  match get safety "issues" with
  | VList l => set "issues" (VList (l ++ [x])) safety
  | _ => safety
  end.

(** Lines 134-140: the escalation to review. *)
Definition escalate (confidence : float) (provenance_list : list pyval)
    (safety : dict) : dict :=
  if high_confidence confidence && is_nil provenance_list
     && negb (String.eqb (str (get safety "level")) "review")
  then append_issue escalation_issue (set "level" (VStr "review") safety)
  else safety.

(** The keywords that the generator of lines 146-148 yields. *)
Fixpoint keyword_stream (l : list pyval) : list string :=
  match l with
  | [] => []
  | VStr k :: rest =>
      if negb (PyStr.is_empty (PyStr.strip k))
      then PyStr.strip (PyStr.lower k) :: keyword_stream rest
      else keyword_stream rest
  | _ :: rest => keyword_stream rest
  end.

(** [X if isinstance(X, list) else _as_list(X)] *)
Definition list_of (v : pyval) : list pyval :=
  match v with VList l => l | _ => _as_list v end.

(** Lines 143-148: the normalized keywords. *)
Definition normalize_keywords (keywords : pyval) : list string :=
  let keywords_list := list_of keywords in
  keys (fromkeys (keyword_stream keywords_list)).

(** Lines 121-169 of [make_message]: the message assembled once the
    confidence is a float. *)
Definition assemble (e : Env) (type_ sender content : pyval) (kw : dict)
    (confidence : float) : dict :=
  let t := PyStr.lower (PyStr.strip (str type_)) in
  let provenance_list := list_of (get_or kw "provenance" (VList [])) in
  let constraints_list := list_of (get_or kw "constraints" (VList [])) in
  let safety := escalate confidence provenance_list (normalize_safety kw) in
  let keywords_list := normalize_keywords (get_or kw "keywords" (VList [])) in
  [("id", or_ (get kw "id") (VStr (new_id e "MSG")));
   ("protocol", VStr "VLP/1.1");
   ("type", VStr t);
   ("timestamp", or_ (get kw "timestamp") (VStr (now_iso e)));
   ("session_id", get kw "session_id");
   ("seq", get kw "seq");
   ("sender", sender);
   ("receiver", get kw "receiver");
   ("topic", get kw "topic");
   ("content", content);
   ("confidence", VFloat confidence);
   ("provenance", VList provenance_list);
   ("constraints", VList constraints_list);
   ("safety", VDict safety);
   ("refers_to", get kw "refers_to");
   ("keywords", VList (map VStr keywords_list));
   ("payload", get kw "payload");
   ("_extras", get_or kw "_extras" (VDict []))].

(** Lines 119-169: the message before it is validated; only [float(...)]
    of line 120 can raise here. *)
Definition build_message (e : Env) (type_ sender content : pyval) (kw : dict)
    : result dict :=
  match float_ (get_or kw "confidence" (VFloat 1)) with
  | Raise err => Raise err
  | Ok confidence => Ok (assemble e type_ sender content kw confidence)
  end.

(** Lines 171-174: validate, then return the message or raise. *)
Definition checked (msg : dict) : result dict :=
  match validate_vlp msg with
  | (true, _) => Ok msg
  | (false, err) =>
      Raise (ValueError ("VLP validation failed: "
                           +:+ match err with Some s => s | None => "None" end))
  end.

(** [make_message(type_, sender, content, **kw)] *)
Definition make_message (e : Env) (type_ sender content : pyval) (kw : dict)
    : result dict :=
  match build_message e type_ sender content kw with
  | Raise err => Raise err
  | Ok msg => checked msg
  end.

End WithHost.
End Runtime.

(* ===================================================================== *)
(** * [make_message] on objects: what it changes in place *)
(* ===================================================================== *)

(** [make_message] writes into the [safety] dict that the caller passed
    ([safety["issues"] = []], [safety["level"] = ...]) and appends to the
    list under ["issues"].  A caller who passed that dict or that list a
    second time, as [provenance] or as [refers_to] say, sees the change
    there too, and so does the validator at the end of [make_message].
    [Runtime.make_message] above works on values, and is the code for the
    calls that pass these two objects once ([make_message_on_values]
    below).  The model here follows the objects.

    A Python value with the identity of its lists and dicts: two lists with
    one address are one list object, and so for dicts.  A change in place is
    made at every occurrence of the address. *)
Inductive obj : Type :=
| ONone
| OBool (b : bool)
| OInt (z : Z)
| OFloat (f : float)
| OStr (s : string)
| OList (a : nat) (l : list obj)
| ODict (a : nat) (d : list (string * obj)).

(** The keyword arguments of a call, and a message, as objects. *)
Notation odict := (list (string * obj)).

Module Obj.

(** The value of an object. *)
Fixpoint erase (o : obj) : pyval :=
  match o with
  | ONone => VNone
  | OBool b => VBool b
  | OInt z => VInt z
  | OFloat f => VFloat f
  | OStr s => VStr s
  | OList _ l => VList (map erase l)
  | ODict _ d => VDict (map (fun kv => (fst kv, erase (snd kv))) d)
  end.

Definition erase_dict (d : odict) : dict :=
  map (fun kv => (fst kv, erase (snd kv))) d.

(** [d.get(k)] as an option, [k in d], [d.get(k, dflt)], [d.get(k)] and
    [d[k] = v] on the entries of a dict object. *)
Fixpoint lookup (k : string) (d : odict) : option obj :=
  match d with
  | [] => None
  | (k', v) :: d' => if String.eqb k k' then Some v else lookup k d'
  end.

Definition has (k : string) (d : odict) : bool :=
  match lookup k d with Some _ => true | None => false end.

Definition get_or (d : odict) (k : string) (dflt : obj) : obj :=
  match lookup k d with Some v => v | None => dflt end.

Definition get (d : odict) (k : string) : obj := get_or d k ONone.

Fixpoint set (k : string) (v : obj) (d : odict) : odict :=
  match d with
  | [] => [(k, v)]
  | (k', v') :: d' =>
      if String.eqb k k' then (k, v) :: d' else (k', v') :: set k v d'
  end.

Definition is_list (o : obj) : bool :=
  match o with OList _ _ => true | _ => false end.

Definition is_dict (o : obj) : bool :=
  match o with ODict _ _ => true | _ => false end.

(** The items of a list object, the entries of a dict object, and the
    address of either. *)
Definition items (o : obj) : list obj :=
  match o with OList _ l => l | _ => [] end.

Definition entries (o : obj) : odict :=
  match o with ODict _ d => d | _ => [] end.

Definition addr (o : obj) : nat :=
  match o with OList a _ | ODict a _ => a | _ => O end.

(** [not x] for a list object [x]. *)
Definition empty (o : obj) : bool :=
  match items o with [] => true | _ => false end.

(** [o] is the list object, or the dict object, at the address [a]. *)
Definition list_at (a : nat) (o : obj) : bool :=
  match o with OList b _ => Nat.eqb b a | _ => false end.

Definition dict_at (a : nat) (o : obj) : bool :=
  match o with ODict b _ => Nat.eqb b a | _ => false end.

(** [o is p] for a list or a dict [p]. *)
Definition same (p o : obj) : bool :=
  match p with
  | OList a _ => list_at a o
  | ODict a _ => dict_at a o
  | _ => false
  end.

(** The largest address in an object. *)
Fixpoint max_addr (o : obj) : nat :=
  match o with
  | OList a l => fold_right (fun x m => Nat.max (max_addr x) m) a l
  | ODict a d => fold_right (fun kv m => Nat.max (max_addr (snd kv)) m) a d
  | _ => O
  end.

(** [x.append(v)] for the list object [x] at address [a], seen from [o]. *)
Fixpoint append_at (a : nat) (v : obj) (o : obj) : obj :=
  match o with
  | OList b l =>
      OList b (map (append_at a v) l ++ (if Nat.eqb b a then [v] else []))
  | ODict b d => ODict b (map (fun kv => (fst kv, append_at a v (snd kv))) d)
  | _ => o
  end.

(** [x[k] = v] for the dict object [x] at address [a], seen from [o]. *)
Fixpoint setitem_at (a : nat) (k : string) (v : obj) (o : obj) : obj :=
  match o with
  | OList b l => OList b (map (setitem_at a k v) l)
  | ODict b d =>
      let d' := map (fun kv => (fst kv, setitem_at a k v (snd kv))) d in
      ODict b (if Nat.eqb b a then set k v d' else d')
  | _ => o
  end.

(** [a or b] *)
Definition or_ (a b : obj) : obj := if Py.truthy (erase a) then a else b.

(** [X if isinstance(X, list) else _as_list(X)]: the list object itself, or
    a new list at the address [a]. *)
Definition list_object (a : nat) (v : obj) : obj :=
  match v with
  | OList _ _ => v
  | ONone => OList a []
  | _ => OList a [v]
  end.

Section WithHost.
Context {H : Host}.

(** An address above every address of the call: the objects that
    [make_message] makes get the addresses from there on. *)
Definition fresh_addr (type_ sender content : obj) (kw : odict) : nat :=
  S (max_addr (OList O (type_ :: sender :: content :: map snd kw))).

(** The safety dict that lines 126-128 take: the one of the caller if that
    is a dict, a new one otherwise. *)
Definition safety_of (kw : odict) (a0 : nat) : obj :=
  let default :=
    ODict (a0 + 2) [("level", OStr "safe"); ("issues", OList (a0 + 3) [])] in
  let safety := get_or kw "safety" default in
  if is_dict safety then safety else default.

(** Lines 129-130, 131-132 and 134-140 of [make_message], each as the
    change that it makes to an object in reach: [safety] and
    [provenance_list] are the objects as they are when the line runs. *)
Definition set_issues (a0 : nat) (safety : obj) : obj -> obj :=
  if negb (has "issues" (entries safety))
     || negb (is_list (get (entries safety) "issues"))
  then setitem_at (addr safety) "issues" (OList (a0 + 4) [])
  else fun o => o.

Definition set_level (safety : obj) : obj -> obj :=
  if negb (has "level" (entries safety))
  then setitem_at (addr safety) "level" (OStr "safe")
  else fun o => o.

Definition escalation_issue (a0 : nat) : obj :=
  ODict (a0 + 5)
    [("code", OStr "missing_provenance_high_confidence");
     ("detail", OStr "confidence >= 0.9 without provenance")].

Definition escalates (confidence : float) (provenance_list safety : obj) : bool :=
  Runtime.high_confidence confidence && empty provenance_list
  && negb (String.eqb (Py.str (erase (get (entries safety) "level"))) "review").

Definition escalate (a0 : nat) (confidence : float) (provenance_list safety : obj)
    : obj -> obj :=
  if escalates confidence provenance_list safety
  then fun o =>
         append_at (addr (get (entries safety) "issues")) (escalation_issue a0)
           (setitem_at (addr safety) "level" (OStr "review") o)
  else fun o => o.

(** All the changes in place of one call, in their order. *)
Definition changes (type_ sender content : obj) (kw : odict) (confidence : float)
    : obj -> obj :=
  let a0 := fresh_addr type_ sender content kw in
  let provenance_list := list_object a0 (get_or kw "provenance" (OList a0 [])) in
  let safety := safety_of kw a0 in
  let g1 := set_issues a0 safety in
  let g2 := set_level (g1 safety) in
  let g3 := escalate a0 confidence (g2 (g1 provenance_list)) (g2 (g1 safety)) in
  fun o => g3 (g2 (g1 o)).

(** Lines 121-169 of [make_message]: the message, whose entries are the
    objects of the call as they are after the changes. *)
Definition assemble (e : Env) (type_ sender content : obj) (kw : odict)
    (confidence : float) : odict :=
  let t := PyStr.lower (PyStr.strip (Py.str (erase type_))) in
  let a0 := fresh_addr type_ sender content kw in
  let now := changes type_ sender content kw confidence in
  let provenance_list := list_object a0 (get_or kw "provenance" (OList a0 [])) in
  let constraints_list :=
    list_object (a0 + 1) (get_or kw "constraints" (OList (a0 + 1) [])) in
  let keywords_list :=
    Runtime.normalize_keywords (erase (now (get_or kw "keywords" (OList (a0 + 6) [])))) in
  [("id", or_ (now (get kw "id")) (OStr (Runtime.new_id e "MSG")));
   ("protocol", OStr "VLP/1.1");
   ("type", OStr t);
   ("timestamp", or_ (now (get kw "timestamp")) (OStr (Runtime.now_iso e)));
   ("session_id", now (get kw "session_id"));
   ("seq", now (get kw "seq"));
   ("sender", now sender);
   ("receiver", now (get kw "receiver"));
   ("topic", now (get kw "topic"));
   ("content", now content);
   ("confidence", OFloat confidence);
   ("provenance", now provenance_list);
   ("constraints", now constraints_list);
   ("safety", now (safety_of kw a0));
   ("refers_to", now (get kw "refers_to"));
   ("keywords", OList (a0 + 7) (map OStr keywords_list));
   ("payload", now (get kw "payload"));
   ("_extras", now (get_or kw "_extras" (ODict (a0 + 8) [])))].

(** [make_message(type_, sender, content, **kw)] on objects: the validator
    reads the message as it is after the changes. *)
Definition make_message (e : Env) (type_ sender content : obj) (kw : odict)
    : result odict :=
  match Py.float_ (erase (get_or kw "confidence" (OFloat 1))) with
  | Raise err => Raise err
  | Ok confidence =>
      let msg := assemble e type_ sender content kw confidence in
      match Runtime.validate_vlp (erase_dict msg) with
      | (true, _) => Ok msg
      | (false, err) =>
          Raise (ValueError ("VLP validation failed: "
                               +:+ match err with Some s => s | None => "None" end))
      end
  end.

(** An argument of the call is the safety dict of the call, or the list
    under its ["issues"]. *)
Definition shared (kw : odict) (o : obj) : bool :=
  match get kw "safety" with
  | ODict b d => same (ODict b d) o || same (get d "issues") o
  | _ => false
  end.

(** The argument [k] of the call is one of these two objects. *)
Definition passes_shared (kw : odict) (k : string) : bool :=
  match lookup k kw with
  | Some o => shared kw o
  | None => false
  end.

End WithHost.
End Obj.

(* ===================================================================== *)
(** * NDJSON framing ([to_ndjson], [from_ndjson]) *)
(* ===================================================================== *)

(** [json.loads(line)], not defined here; [None] when it raises
    [JSONDecodeError]. *)
Class JsonDecoder : Type := {
  json_loads : string -> option pyval
}.

Module Json.

(** One character of a string under [json.dumps(..., ensure_ascii=False)]:
    the double quote, the backslash and the controls below U+0020 are
    escaped, every other character is written as it is. *)
Definition escape_char (c : ascii) : string :=
  let n := PyStr.ord c in
  if (n =? 34)%N then String PyStr.backslash (String PyStr.dquote "")
  else if (n =? 92)%N then String PyStr.backslash (String PyStr.backslash "")
  else if (n =? 10)%N then String PyStr.backslash "n"
  else if (n =? 13)%N then String PyStr.backslash "r"
  else if (n =? 9)%N then String PyStr.backslash "t"
  else if (n =? 8)%N then String PyStr.backslash "b"
  else if (n =? 12)%N then String PyStr.backslash "f"
  else if (n <? 32)%N then String PyStr.backslash ("u00" +:+ Py.hex2 n)
  else String c "".

Fixpoint escape (s : string) : string :=
  match s with
  | EmptyString => EmptyString
  | String c s' => escape_char c +:+ escape s'
  end.

Definition dumps_str (s : string) : string :=
  String PyStr.dquote (escape s +:+ String PyStr.dquote "").

Section WithHost.
Context {H : Host}.

(** A [float] under [json.dumps]. *)
Definition dumps_float (f : float) : string :=
  if PrimFloat.is_nan f then "NaN"
  else if (f =? infinity)%float then "Infinity"
  else if (f =? neg_infinity)%float then "-Infinity"
  else float_repr f.

(** [json.dumps(v, ensure_ascii=False)] *)
Fixpoint dumps (v : pyval) : string :=
  match v with
  | VNone => "null"
  | VBool true => "true"
  | VBool false => "false"
  | VInt z => PyStr.of_Z z
  | VFloat f => dumps_float f
  | VStr s => dumps_str s
  | VList l => "[" +:+ PyStr.join ", " (map dumps l) +:+ "]"
  | VDict d =>
      "{" +:+ PyStr.join ", "
                (map (fun kv => dumps_str (fst kv) +:+ ": " +:+ dumps (snd kv)) d)
          +:+ "}"
  end.

(** The line feed, U+000A. *)
Definition LF : string := String (ascii_of_N 10) "".

(** [to_ndjson(messages)] *)
Definition to_ndjson (messages : list dict) : string :=
  PyStr.join LF (map (fun m => dumps (VDict m)) messages).

Context {D : JsonDecoder}.

(** The loop of [from_ndjson] over the lines. *)
Fixpoint from_lines (lines : list string) : result (list pyval) :=
  match lines with
  | [] => Ok []
  | line :: rest =>
      if PyStr.is_empty (PyStr.strip line) then from_lines rest
      else
        match json_loads line with
        | None => Raise JSONDecodeError
        | Some v =>
            match from_lines rest with
            | Ok out => Ok (v :: out)
            | Raise e => Raise e
            end
        end
  end.

(** [from_ndjson(text)] *)
Definition from_ndjson (text : string) : result (list pyval) :=
  from_lines (PyStr.splitlines text).

End WithHost.
End Json.

(* ===================================================================== *)
(** * [vlp/sessions.py] *)
(* ===================================================================== *)

(** The fields of an [AgentSession] object (its lock apart). *)
Record AgentSession : Type := {
  agent_name : string;
  agent_number : Z;
  session_id : string;
  started_at : string;
  seq : Z
}.

(** The objects in memory: the [AgentSession] objects by handle, and the
    [_sessions] dict of the registry, from a session id to the handle of the
    session object. *)
Record World : Type := {
  store : gmap nat AgentSession;
  _sessions : gmap string nat
}.

(** Computations that read and write the world and may raise; what was
    written before an exception stays written. *)
Definition M (A : Type) : Type := World -> result A * World.

Definition ret {A : Type} (a : A) : M A := fun w => (Ok a, w).

Definition bind {A B : Type} (m : M A) (k : A -> M B) : M B :=
  fun w =>
    match m w with
    | (Ok a, w') => k a w'
    | (Raise e, w') => (Raise e, w')
    end.

Definition lift {A : Type} (r : result A) : M A := fun w => (r, w).

#[export] Instance M_ret : MRet M := @ret.
#[export] Instance M_bind : MBind M := fun A B k m => bind m k.

Module Sessions.

(** The session object behind a handle. *)
Definition read (h : nat) : M AgentSession :=
  fun w =>
    match store w !! h with
    | Some s => (Ok s, w)
    | None => (Raise BadHandle, w)
    end.

(** The world in which the object behind [h] is [s]. *)
Definition put (h : nat) (s : AgentSession) (w : World) : World :=
  {| store := <[h := s]> (store w); _sessions := _sessions w |}.

Definition write (h : nat) (s : AgentSession) : M unit :=
  fun w => (Ok tt, put h s w).

Definition set_seq (n : Z) (s : AgentSession) : AgentSession :=
  {| agent_name := agent_name s; agent_number := agent_number s;
     session_id := session_id s; started_at := started_at s; seq := n |}.

(** [AgentSession._generate_session_id(agent_name)] *)
Definition _generate_session_id (e : Env) (agent_name : string) : string :=
  let date := Clock.strftime_Ymd (clock e) in
  let slug :=
    PyStr.take 12
      (PyStr.replace " " "-" (PyStr.replace "the " "" (PyStr.lower agent_name))) in
  let short_id := PyStr.take 6 (uuid_hex e) in
  "S-" +:+ date +:+ "-" +:+ slug +:+ "-" +:+ short_id.

(** [AgentSession(agent_name, agent_number)]: [e] is read for the session id,
    [started] is the later clock reading of line 38; the new object gets a
    handle that is not in use. *)
Definition new_session (e : Env) (started : datetime)
    (agent_name : string) (agent_number : Z) : M nat :=
  fun w =>
    let h := fresh (dom (store w)) in
    let s := {| agent_name := agent_name; agent_number := agent_number;
                session_id := _generate_session_id e agent_name;
                started_at := Clock.iso_z started;
                seq := 0 |} in
    (Ok h, put h s w).

(** [session.next_seq()]; the body runs under the lock of the session, so
    a call is one step. *)
Definition next_seq (h : nat) : M Z :=
  s ← read h;
  _ ← write h (set_seq (seq s + 1) s);
  s' ← read h;
  mret (seq s').

(** Calls of [next_seq] on one session from several threads, one after the
    other as the lock lets them in: [callers] names the thread of each call,
    and the result pairs each caller with the number it was given. *)
Fixpoint next_seq_calls (h : nat) (callers : list nat) : M (list (nat * Z)) :=
  match callers with
  | [] => mret []
  | t :: rest =>
      n ← next_seq h;
      out ← next_seq_calls h rest;
      mret ((t, n) :: out)
  end.

(** [session.message_id(prefix)] *)
Definition message_id (h : nat) (prefix : string) : M string :=
  s ← read h;
  n ← next_seq h;
  mret (prefix +:+ "-" +:+ PyStr.last_n 6 (session_id s) +:+ "-" +:+ PyStr.format_0d 4 n).

(** [self._sessions[sid] = session] *)
Definition register (sid : string) (h : nat) : M unit :=
  fun w => (Ok tt, {| store := store w; _sessions := <[sid := h]> (_sessions w) |}).

(** [registry.start_session(agent_name, agent_number)] *)
Definition start_session (e : Env) (started : datetime)
    (agent_name : string) (agent_number : Z) : M nat :=
  h ← new_session e started agent_name agent_number;
  s ← read h;
  _ ← register (session_id s) h;
  mret h.

(** [registry.get_session(session_id)] *)
Definition get_session (sid : string) : M (option nat) :=
  fun w => (Ok (_sessions w !! sid), w).

(** [self._sessions.pop(sid, None)] *)
Definition pop_session (sid : string) : M unit :=
  fun w => (Ok tt, {| store := store w; _sessions := delete sid (_sessions w) |}).

Section WithHost.
Context {H : Host}.

(** Lines 107-118 of [end_session]: the content and the keyword arguments
    passed to [make_message]; [s] is the session as it is once [id] and
    [seq] have been drawn. *)
Definition session_context_content (summary : string) (s : AgentSession) : pyval :=
  Py.or_ (VStr summary) (VStr ("Session ended for " +:+ agent_name s)).

Definition session_context_kw (id : string) (n : Z) (ended : datetime)
    (s : AgentSession) : dict :=
  [("session_id", VStr (session_id s));
   ("id", VStr id);
   ("seq", VInt n);
   ("confidence", VFloat 1);
   ("provenance", VList [VStr "agent_session";
                         VStr ("agent_" +:+ PyStr.of_Z (agent_number s))]);
   ("payload", VDict [("agent_number", VInt (agent_number s));
                      ("started_at", VStr (started_at s));
                      ("ended_at", VStr (Clock.iso_z ended));
                      ("total_messages", VInt (seq s))])].

(** [registry.end_session(session, summary)]: [ended] is the clock reading
    for [ended_at], [e] is what [make_message] reads afterwards.  The
    arguments are evaluated in the order written, so [session.seq] is read
    for the payload after both advances. *)
Definition end_session (e : Env) (ended : datetime) (h : nat) (summary : string)
    : M dict :=
  id ← message_id h "CTX";
  n ← next_seq h;
  s ← read h;
  msg ← lift (Runtime.make_message e (VStr "session_context")
                (VStr (agent_name s)) (session_context_content summary s)
                (session_context_kw id n ended s));
  s' ← read h;
  _ ← pop_session (session_id s');
  mret msg.

(** The parameters of [create_claim]: a keyword of the call with such a
    name is bound to the parameter and is no part of [**kw]. *)
Definition create_claim_params : list string :=
  ["self"; "session"; "content"; "confidence"].

(** The binding of a call [registry.create_claim(session, content,
    **kwargs)], or of one that gives [confidence] by position too: a
    keyword that names [self] or a parameter given by position is a
    [TypeError]; [confidence] may come by keyword and is 0.9 when it is left
    out; the other keywords are [**kw]. *)
Definition bind_create_claim (confidence : option pyval) (kwargs : dict)
    : result (pyval * dict) :=
  if Py.has "self" kwargs || Py.has "session" kwargs || Py.has "content" kwargs
     || match confidence with
        | Some _ => Py.has "confidence" kwargs
        | None => false
        end
  then Raise (TypeError "create_claim() got multiple values for argument")
  else Ok (match confidence with
           | Some c => c
           | None => Py.get_or kwargs "confidence" (VFloat 0.9)
           end,
           Py.remove "confidence" kwargs).

(** The arguments that [create_claim] itself passes to [make_message] and
    that [**kw] can hold: a key of [**kw] among them is a [TypeError] at
    that call, once its arguments are evaluated. *)
Definition create_claim_passes : list string :=
  ["type_"; "sender"; "session_id"; "id"; "seq"].

(** Lines 138-141 of [create_claim]. *)
Definition claim_kw (id : string) (n : Z) (confidence : pyval)
    (s : AgentSession) : dict :=
  [("session_id", VStr (session_id s));
   ("id", VStr id);
   ("seq", VInt n);
   ("confidence", confidence)].

(** [registry.create_claim(session, content, **kwargs)]; [confidence] is
    the third positional argument, [None] when the call has none.  The call
    is bound first; then the arguments of [make_message] are evaluated in
    the order written. *)
Definition create_claim (e : Env) (h : nat) (content : pyval)
    (confidence : option pyval) (kwargs : dict) : M dict :=
  bound ← lift (bind_create_claim confidence kwargs);
  let confidence := fst bound in
  let kw := snd bound in
  id ← message_id h "CLM";
  n ← next_seq h;
  s ← read h;
  if existsb (fun k => Py.has k kw) create_claim_passes
  then lift (Raise (TypeError "make_message() got multiple values for keyword argument"))
  else
    lift (Runtime.make_message e (VStr "claim") (VStr (agent_name s)) content
            (claim_kw id n confidence s ++ kw)).

End WithHost.
End Sessions.

(* ===================================================================== *)
(** * A reference host *)
(* ===================================================================== *)

(** Definitions for the three operations of [Host], so that the code can be
    run on concrete calls.  The theorems below hold for every host. *)
Module Reference.

Definition is_digit (c : ascii) : bool :=
  let n := PyStr.ord c in ((48 <=? n) && (n <=? 57))%N.

Definition digit_val (c : ascii) : Z := Z.of_N (PyStr.ord c) - 48.

(** A run of digits in which single underscores may stand between two
    digits: the value read (continuing [acc]), how many digits, the rest. *)
Fixpoint read_digits (acc : Z) (cnt : nat) (s : string) : Z * nat * string :=
  match s with
  | String c s' =>
      if is_digit c then read_digits (10 * acc + digit_val c) (S cnt) s'
      else if Ascii.eqb c "_" then
        match cnt, s' with
        | S _, String c' _ =>
            if is_digit c' then read_digits acc cnt s' else (acc, cnt, s)
        | _, _ => (acc, cnt, s)
        end
      else (acc, cnt, s)
  | EmptyString => (acc, cnt, s)
  end.

(** [e] or [E], an optional sign and digits up to the end of the text: the
    exponent; no exponent part is exponent 0. *)
Definition read_exponent (s : string) : option Z :=
  match s with
  | EmptyString => Some 0
  | String c s' =>
      if Ascii.eqb (PyStr.lower_char c) "e" then
        let '(neg, body) :=
          match s' with
          | String "-" r => (true, r)
          | String "+" r => (false, r)
          | _ => (false, s')
          end in
        match read_digits 0 0 body with
        | (v, S _, EmptyString) => Some (if neg then - v else v)
        | _ => None
        end
      else None
  end.

(** The binary64 nearest to [m * 10^e] for [m >= 0], ties to even. *)
Definition sf_of_decimal (m e : Z) : spec_float :=
  if m =? 0 then S754_zero false
  else if 0 <=? e then binary_normalize 53 1024 (m * 10 ^ e) 0 false
  else SFdiv 53 1024 (S754_finite false (Z.to_pos m) 0)
                     (S754_finite false (Z.to_pos (10 ^ (- e))) 0).

(** The unsigned part of a float literal. *)
Definition read_abs (s : string) : option spec_float :=
  let l := PyStr.lower s in
  if String.eqb l "inf" || String.eqb l "infinity" then Some (S754_infinity false)
  else if String.eqb l "nan" then Some S754_nan
  else
    let '(ip, n1, r1) := read_digits 0 0 s in
    let '(m, n2, r2) :=
      match r1 with
      | String "." r => read_digits ip 0 r
      | _ => (ip, O, r1)
      end in
    match (n1 + n2)%nat with
    | O => None
    | S _ =>
        match read_exponent r2 with
        | Some ex => Some (sf_of_decimal m (ex - Z.of_nat n2))
        | None => None
        end
    end.

(** [float(s)] for a [str]: surrounding white space is dropped, then a sign
    and the unsigned part are read. *)
Definition float_of_str (s : string) : option float :=
  let s := PyStr.strip s in
  let '(neg, body) :=
    match s with
    | String "-" r => (true, r)
    | String "+" r => (false, r)
    | _ => (false, s)
    end in
  match read_abs body with
  | Some sf => Some (SF2Prim (if neg then SFopp sf else sf))
  | None => None
  end.

(** [floor(m * 2^e / 10^j)] and whether the division left a remainder. *)
Definition scaled (m e j : Z) : Z * bool :=
  let num := m * 2 ^ (Z.max e 0) * 10 ^ (Z.max (- j) 0) in
  let den := 2 ^ (Z.max (- e) 0) * 10 ^ (Z.max j 0) in
  (num / den, negb (num mod den =? 0)).

(** Twice the remainder of that division against the divisor: is the value
    nearer to the lower neighbour ([Lt]), the upper ([Gt]) or in the middle. *)
Definition nearer (m e j : Z) : comparison :=
  let num := m * 2 ^ (Z.max e 0) * 10 ^ (Z.max (- j) 0) in
  let den := 2 ^ (Z.max (- e) 0) * 10 ^ (Z.max j 0) in
  2 * (num mod den) ?= den.

(** [k] with [10^(k-1) <= m * 2^e < 10^k]: from an estimate by the binary
    logarithm, corrected by at most two steps. *)
Definition decimal_point (m e : Z) : Z :=
  let k0 := (Z.log2 m + e) * 30103 / 100000 in
  let ge (k : Z) := 1 <=? fst (scaled m e k) in
  if ge (k0 + 1) then k0 + 2 else if ge k0 then k0 + 1 else k0.

Definition round_trips (f : float) (c j : Z) : bool :=
  match Prim2SF f, sf_of_decimal c j with
  | S754_finite _ m e, S754_finite _ m' e' => Pos.eqb m m' && (e =? e')
  | _, _ => false
  end.

(** The shortest decimal [c * 10^j] that reads back as [f = m * 2^e], taking
    the nearer one when both neighbours do; [n] digits are tried, then one
    more, [fuel] times. *)
Fixpoint shortest (fuel : nat) (f : float) (m e k n : Z) : Z * Z :=
  let j := k - n in
  let '(lo, inexact) := scaled m e j in
  let hi := if inexact then lo + 1 else lo in
  let ok_lo := round_trips f lo j in
  let ok_hi := round_trips f hi j in
  match fuel with
  | O => (lo, j)
  | S fuel' =>
      if ok_lo && ok_hi then
        match nearer m e j with Gt => (hi, j) | _ => (lo, j) end
      else if ok_lo then (lo, j)
      else if ok_hi then (hi, j)
      else shortest fuel' f m e k (n + 1)
  end.

(** Trailing zeros off a digit string. *)
Definition rstrip_zeros (s : string) : string :=
  let fix go (s : string) : string :=
    match s with
    | EmptyString => EmptyString
    | String c s' =>
        let r := go s' in
        if PyStr.is_empty r && Ascii.eqb c "0" then EmptyString else String c r
    end in
  go s.

(** The digits [ds] with the decimal point after [decpt] of them, as
    [repr] writes a float: exponent form when [decpt] is above 16 or below
    -3. *)
Definition format_short (ds : string) (decpt : Z) : string :=
  let len := Z.of_nat (String.length ds) in
  if (16 <? decpt) || (decpt <? -3) then
    let ex := decpt - 1 in
    PyStr.take 1 ds
      +:+ (if 1 <? len then "." +:+ PyStr.drop 1 ds else "")
      +:+ "e" +:+ (if ex <? 0 then "-" else "+")
      +:+ PyStr.format_0d 2 (Z.abs ex)
  else if decpt <=? 0 then
    "0." +:+ PyStr.zeros (Z.to_nat (- decpt)) +:+ ds
  else if decpt <? len then
    PyStr.take (Z.to_nat decpt) ds +:+ "." +:+ PyStr.drop (Z.to_nat decpt) ds
  else ds +:+ PyStr.zeros (Z.to_nat (decpt - len)) +:+ ".0".

(** [repr(f)] for a [float] *)
Definition float_repr (f : float) : string :=
  match Prim2SF f with
  | S754_nan => "nan"
  | S754_infinity s => if s then "-inf" else "inf"
  | S754_zero s => if s then "-0.0" else "0.0"
  | S754_finite s m e =>
      let k := decimal_point (Z.pos m) e in
      let '(c, j) := shortest 17 f (Z.pos m) e k 1 in
      let ds := PyStr.of_Z c in
      (if s then "-" else "")
        +:+ format_short (rstrip_zeros ds) (Z.of_nat (String.length ds) + j)
  end.

End Reference.

(** The structural check of a message, in place of the schema document
    [vlp-1.1.json], which is not among the sources. *)
Module Schema.

(** Modelled from the spec: the schema document is missing; these are the
    values that the data model of the spec enumerates for [type]. *)
Definition message_types : list string :=
  ["claim"; "evidence"; "query"; "response"; "correction"; "notice";
   "session_context"].

(** Modelled from the spec: the schema document is missing; these are the
    fields that the data model of the spec does not mark optional. *)
Definition required : list string :=
  ["id"; "protocol"; "type"; "timestamp"; "sender"; "content"; "confidence"].

(** Modelled from the spec: the schema document is missing; the spec has
    the structural check look at required-field presence, field types and
    enumerated-value membership.  The instance is an object with the required
    fields, [type] is a string of the enumeration and [confidence] is a
    number.  The error texts stand for what [str(e)] gives. *)
Definition vlp_1_1 (instance : pyval) : option string :=
  match instance with
  | VDict msg =>
      match find (fun k => negb (Py.has k msg)) required with
      | Some k => Some ("'" +:+ k +:+ "' is a required property")
      | None =>
          match Py.get msg "type" with
          | VStr t =>
              if existsb (String.eqb t) message_types then
                match Py.get msg "confidence" with
                | VInt _ | VFloat _ => None
                | _ => Some "the value of 'confidence' is not of type 'number'"
                end
              else Some ("'" +:+ t +:+ "' is not one of the message types")
          | _ => Some "the value of 'type' is not of type 'string'"
          end
      end
  | _ => Some "the instance is not of type 'object'"
  end.

End Schema.

(** The reference host: the conversions of [Reference] and the schema check
    of [Schema]. *)
Definition reference_host : Host :=
  {| float_of_str := Reference.float_of_str;
     float_repr := Reference.float_repr;
     jsonschema_validate := Schema.vlp_1_1 |}.

(** A clock reading and an environment for concrete runs. *)
Definition noon : datetime :=
  {| year := 2025; month := 1; day := 4;
     hour := 12; minute := 0; second := 0; microsecond := 250000 |}.

Definition env0 : Env :=
  {| uuid_hex := "1a2b3c4d5e6f40718293a4b5c6d7e8f9"; clock := noon |}.

(* ===================================================================== *)
(** * Facts about dicts *)
(* ===================================================================== *)

Lemma lookup_set_eq (k : string) (v : pyval) (d : dict) :
  Py.lookup k (Py.set k v d) = Some v.
Proof.
  induction d as [|[k' v'] d IH]; simpl.
  - now rewrite String.eqb_refl.
  - destruct (String.eqb k k') eqn:E; simpl; rewrite ?String.eqb_refl, ?E; auto.
Qed.

Lemma lookup_set_ne (k k' : string) (v : pyval) (d : dict) :
  k <> k' -> Py.lookup k' (Py.set k v d) = Py.lookup k' d.
Proof.
  intros Hne. induction d as [|[k0 v0] d IH]; simpl.
  - destruct (String.eqb k' k) eqn:E; auto.
    apply String.eqb_eq in E. congruence.
  - destruct (String.eqb k k0) eqn:E; simpl.
    + apply String.eqb_eq in E. subst k0.
      destruct (String.eqb k' k) eqn:E'; auto.
      apply String.eqb_eq in E'. congruence.
    + now rewrite IH.
Qed.

Lemma get_set_ne (k k' : string) (v : pyval) (d : dict) :
  k <> k' -> Py.get (Py.set k v d) k' = Py.get d k'.
Proof. intros. unfold Py.get, Py.get_or. now rewrite lookup_set_ne. Qed.

Lemma get_or_set_ne (k k' : string) (v dflt : pyval) (d : dict) :
  k <> k' -> Py.get_or (Py.set k v d) k' dflt = Py.get_or d k' dflt.
Proof. intros. unfold Py.get_or. now rewrite lookup_set_ne. Qed.

Lemma has_set (k : string) (v : pyval) (d : dict) : Py.has k (Py.set k v d) = true.
Proof. unfold Py.has. now rewrite lookup_set_eq. Qed.

Lemma has_set_ne (k k' : string) (v : pyval) (d : dict) :
  k <> k' -> Py.has k' (Py.set k v d) = Py.has k' d.
Proof. intros. unfold Py.has. now rewrite lookup_set_ne. Qed.

(* ===================================================================== *)
(** * The builder: escalation *)
(* ===================================================================== *)

Section Escalation.
Context {H : Host}.
Import Runtime.

(** After lines 126-132 the safety dict holds a list under ["issues"]. *)
Lemma normalize_safety_issues (kw : dict) :
  exists l, Py.lookup "issues" (normalize_safety kw) = Some (VList l).
Proof.
  unfold normalize_safety.
  set (s0 := match Py.get_or kw "safety" (VDict default_safety) with
             | VDict d => d
             | _ => default_safety
             end).
  set (s1 := if negb (Py.has "issues" s0) || negb (Py.is_list (Py.get s0 "issues"))
             then Py.set "issues" (VList []) s0 else s0).
  assert (H1 : exists l, Py.lookup "issues" s1 = Some (VList l)).
  { subst s1. destruct (Py.has "issues" s0) eqn:Eh; simpl.
    - destruct (Py.is_list (Py.get s0 "issues")) eqn:El; simpl.
      + unfold Py.has in Eh. unfold Py.get, Py.get_or in El.
        destruct (Py.lookup "issues" s0) as [v|]; [|discriminate].
        destruct v; try discriminate. eauto.
      + exists []. apply lookup_set_eq.
    - exists []. apply lookup_set_eq. }
  destruct H1 as [l Hl].
  destruct (negb (Py.has "level" s1)); [|eauto].
  exists l. rewrite lookup_set_ne; [exact Hl | discriminate].
Qed.

(** When the three conditions of line 135 hold, the escalation sets the
    level and appends the issue. *)
Lemma escalate_fires (conf : float) (prov : list pyval) (safety : dict)
    (l : list pyval) :
  high_confidence conf = true ->
  prov = [] ->
  String.eqb (Py.str (Py.get safety "level")) "review" = false ->
  Py.lookup "issues" safety = Some (VList l) ->
  Py.lookup "level" (escalate conf prov safety) = Some (VStr "review")
  /\ Py.lookup "issues" (escalate conf prov safety)
     = Some (VList (l ++ [escalation_issue])).
Proof.
  intros Hc -> Hl Hi. unfold escalate. rewrite Hc, Hl. simpl.
  unfold append_issue.
  assert (Hg : Py.get (Py.set "level" (VStr "review") safety) "issues" = VList l).
  { rewrite get_set_ne by discriminate. unfold Py.get, Py.get_or. now rewrite Hi. }
  rewrite Hg. split.
  - rewrite lookup_set_ne by discriminate. apply lookup_set_eq.
  - apply lookup_set_eq.
Qed.

(** What [make_message] returns is what [build_message] assembled. *)
Lemma make_message_Ok (e : Env) (type_ sender content : pyval) (kw msg : dict) :
  make_message e type_ sender content kw = Ok msg ->
  build_message e type_ sender content kw = Ok msg /\ fst (validate_vlp msg) = true.
Proof.
  unfold make_message. destruct (build_message e type_ sender content kw) as [m|err];
    [|discriminate].
  unfold checked. destruct (validate_vlp m) as [[|] err] eqn:E; [|discriminate].
  intros [= <-]. now rewrite E.
Qed.

(** C1. Every message that [make_message] returns for a call with
    confidence at least 0.9, a provenance that normalizes to the empty list
    and a safety level other than "review" has [safety.level == "review"],
    and its [safety.issues] holds the entry with code
    [missing_provenance_high_confidence] and detail
    [confidence >= 0.9 without provenance]. *)
Theorem C1_auto_escalation (e : Env) (type_ sender content : pyval)
    (kw msg : dict) (confidence : float) :
  make_message e type_ sender content kw = Ok msg ->
  Py.float_ (Py.get_or kw "confidence" (VFloat 1)) = Ok confidence ->
  high_confidence confidence = true ->
  list_of (Py.get_or kw "provenance" (VList [])) = [] ->
  String.eqb (Py.str (Py.get (normalize_safety kw) "level")) "review" = false ->
  exists (safety : dict) (issues : list pyval),
    Py.lookup "safety" msg = Some (VDict safety)
    /\ Py.lookup "level" safety = Some (VStr "review")
    /\ Py.lookup "issues" safety = Some (VList issues)
    /\ In (VDict [("code", VStr "missing_provenance_high_confidence");
                  ("detail", VStr "confidence >= 0.9 without provenance")])
          issues.
Proof.
  intros Hmk Hconf Hhigh Hprov Hlevel.
  apply make_message_Ok in Hmk as [Hb _].
  unfold build_message in Hb. rewrite Hconf in Hb. injection Hb as <-.
  destruct (normalize_safety_issues kw) as [l Hl].
  destruct (escalate_fires confidence _ _ l Hhigh Hprov Hlevel Hl) as [E1 E2].
  eexists _, _. split; [reflexivity|]. split; [exact E1|]. split; [exact E2|].
  apply in_or_app. right. left. reflexivity.
Qed.

End Escalation.

(** The message of [make_message("claim", "TestAgent", "High confidence
    claim", confidence=0.95)]. *)
Definition escalated_claim : dict :=
  [("id", VStr "MSG1a2b3c4d"); ("protocol", VStr "VLP/1.1");
   ("type", VStr "claim"); ("timestamp", VStr "2025-01-04T12:00:00Z");
   ("session_id", VNone); ("seq", VNone); ("sender", VStr "TestAgent");
   ("receiver", VNone); ("topic", VNone);
   ("content", VStr "High confidence claim");
   ("confidence", VFloat 0.95); ("provenance", VList []);
   ("constraints", VList []);
   ("safety", VDict [("level", VStr "review");
                     ("issues", VList [Runtime.escalation_issue])]);
   ("refers_to", VNone); ("keywords", VList []); ("payload", VNone);
   ("_extras", VDict [])].

(** C1 on a call: a claim at confidence 0.95 with no provenance and no safety
    given is returned, escalated. *)
Lemma C1_auto_escalation_witness :
  @Runtime.make_message reference_host env0 (VStr "claim") (VStr "TestAgent")
    (VStr "High confidence claim") [("confidence", VFloat 0.95)]
  = Ok escalated_claim
  /\ exists (safety : dict) (issues : list pyval),
       Py.lookup "safety" escalated_claim = Some (VDict safety)
       /\ Py.lookup "level" safety = Some (VStr "review")
       /\ Py.lookup "issues" safety = Some (VList issues)
       /\ In (VDict [("code", VStr "missing_provenance_high_confidence");
                     ("detail", VStr "confidence >= 0.9 without provenance")])
             issues.
Proof.
  split; [reflexivity|].
  apply (@C1_auto_escalation reference_host env0 (VStr "claim") (VStr "TestAgent")
           (VStr "High confidence claim") [("confidence", VFloat 0.95)]
           escalated_claim 0.95%float);
    reflexivity.
Defined.

(* ===================================================================== *)
(** * The validator on assembled messages *)
(* ===================================================================== *)

(** The rule of C2 in the words of the spec, read off the fields of a
    message: the provenance is empty when the message has no non-empty list
    under ["provenance"]; the safety level is "review" when [safety] is a
    dict with the string "review" under ["level"]. *)
Definition lacks_provenance (msg : dict) : bool :=
  match Py.lookup "provenance" msg with
  | Some (VList (_ :: _)) => false
  | _ => true
  end.

Definition level_is_review (msg : dict) : bool :=
  match Py.lookup "safety" msg with
  | Some (VDict safety) =>
      match Py.lookup "level" safety with
      | Some (VStr level) => String.eqb level "review"
      | _ => false
      end
  | _ => false
  end.

Section Validation.
Context {H : Host}.
Import Runtime.



Lemma assemble_prov_list (e : Env) (type_ sender content : pyval) (kw : dict)
    (c : float) :
  msg_prov_list (assemble e type_ sender content kw c)
  = list_of (Py.get_or kw "provenance" (VList [])).
Proof. reflexivity. Qed.


(** The semantic check of a message whose type is in lower case and whose
    confidence converts to the float [c]: what is left are the three rules. *)
Lemma _semantic_validate_rules (msg : dict) (c : float) :
  msg_type msg = PyStr.lower (msg_type msg) ->
  Py.float_ (Py.get_or msg "confidence" VNone) = Ok c ->
  _semantic_validate msg
  = match evidence_rule (msg_type msg) (Py.get msg "refers_to") (msg_prov_list msg) with
    | Some err => (false, Some err)
    | None =>
        match reference_rule (msg_type msg) (Py.get msg "refers_to") with
        | Some err => (false, Some err)
        | None =>
            if high_confidence c && is_nil (msg_prov_list msg)
               && negb (String.eqb (msg_safety_level msg) "review")
            then (false, Some unearned_confidence)
            else (true, None)
        end
    end.
Proof.
  intros Ht Hc. unfold _semantic_validate.
  rewrite <- Ht, String.eqb_refl. simpl negb. cbv iota.
  destruct (Py.get_or msg "confidence" VNone) eqn:E;
    try (rewrite Hc; reflexivity).
  simpl in Hc. discriminate.
Qed.

(** A message that breaks the rule of lines 74-76 is never accepted by the
    semantic check. *)
Lemma _semantic_validate_unearned (msg : dict) (c : float) :
  Py.float_ (Py.get_or msg "confidence" VNone) = Ok c ->
  high_confidence c = true ->
  msg_prov_list msg = [] ->
  String.eqb (msg_safety_level msg) "review" = false ->
  fst (_semantic_validate msg) = false.
Proof.
  intros Hc Hh Hp Hl.
  destruct (String.eqb (msg_type msg) (PyStr.lower (msg_type msg))) eqn:Et.
  - apply String.eqb_eq in Et.
    rewrite (_semantic_validate_rules msg c Et Hc).
    destruct (evidence_rule _ _ _); [reflexivity|].
    destruct (reference_rule _ _); [reflexivity|].
    now rewrite Hh, Hp, Hl.
  - unfold _semantic_validate. now rewrite Et.
Qed.

(** The validator reads no provenance exactly in a message that [lacks_provenance]. *)
Lemma msg_prov_list_lacks (msg : dict) :
  lacks_provenance msg = true <-> msg_prov_list msg = [].
Proof.
  unfold lacks_provenance, msg_prov_list, Py.get_or.
  destruct (Py.lookup "provenance" msg) as [[ | | | | | [|x l] | ]|];
    split; intros E; try reflexivity; discriminate.
Qed.

(** [str(v)] is "review" for a truthy value only when [v] is that string,
    if no float is written so. *)
Lemma str_review (v : pyval) :
  (forall f : float, String.eqb (float_repr f) "review" = false) ->
  Py.str v = "review" -> v = VStr "review" \/ v = VNone.
Proof.
  intros Hrepr. destruct v as [ | [|] | z | f | s | l | d]; cbn [Py.str Py.repr];
    intros E; try discriminate; try (now right).
  - exfalso. revert E. unfold PyStr.of_Z, NilZero.string_of_int, NilZero.string_of_uint.
    destruct (Z.to_int z) as [u|u]; destruct u; discriminate.
  - apply String.eqb_eq in E. now rewrite Hrepr in E.
  - left. now subst.
Qed.

(** The validator reads the level "review" exactly in a message whose
    safety is a dict with the string "review" under ["level"]. *)
Lemma msg_safety_level_review (msg : dict) :
  (forall f : float, String.eqb (float_repr f) "review" = false) ->
  String.eqb (msg_safety_level msg) "review" = level_is_review msg.
Proof.
  intros Hrepr. unfold msg_safety_level, level_is_review, Py.get, Py.get_or.
  destruct (Py.lookup "safety" msg) as [[ | | | | | | safety]|]; try reflexivity.
  cbn [Py.is_dict]. unfold Py.or_ at 2.
  destruct safety as [|kv safety']; [reflexivity|]. cbn [Py.truthy].
  set (d := kv :: safety').
  destruct (Py.lookup "level" d) as [v|]; [|reflexivity].
  unfold Py.or_. destruct (Py.truthy v) eqn:Tv.
  - destruct (String.eqb (Py.str v) "review") eqn:E.
    + apply String.eqb_eq in E.
      destruct (str_review v Hrepr E) as [-> | ->]; [reflexivity|discriminate].
    + destruct v as [ | | | | l | | ]; try reflexivity. symmetry; exact E.
  - destruct v as [ | | | | l | | ]; try reflexivity.
    destruct l; [reflexivity|discriminate].
Qed.

(** C2, as amended.  For a message whose confidence converts to a float of
    at least 0.9 and that has no non-empty list as provenance, under a
    [repr] that writes no float as "review": if [validate_vlp] accepts the
    message, its [safety] is a dict whose [level] is the string "review";
    and if that is not so, [validate_vlp] rejects the message, whatever the
    schema and whoever built it, with the error of the first check that
    fails: the error of the schema; then the lower-case rule; then, for
    evidence, the reference or the provenance; then, for a response or a
    correction, the reference; and the unearned-confidence error when all of
    these pass. *)
Theorem C2_validator_rechecks (msg : dict) (c : float) :
  (forall f : float, String.eqb (float_repr f) "review" = false) ->
  Py.float_ (Py.get_or msg "confidence" VNone) = Ok c ->
  high_confidence c = true ->
  lacks_provenance msg = true ->
  let t := PyStr.strip (Py.str (Py.or_ (Py.get msg "type") (VStr ""))) in
  let refers_to := Py.truthy (Py.get msg "refers_to") in
  (fst (validate_vlp msg) = true ->
   exists safety : dict,
     Py.lookup "safety" msg = Some (VDict safety)
     /\ Py.lookup "level" safety = Some (VStr "review"))
  /\ (level_is_review msg = false ->
      validate_vlp msg
      = (false,
         Some (match jsonschema_validate (VDict msg) with
               | Some e => e
               | None =>
                   if negb (String.eqb t (PyStr.lower t))
                   then "type must be lowercase"
                   else if String.eqb t "evidence" then
                     if refers_to
                     then "evidence messages must include non-empty provenance"
                     else "evidence messages must include refers_to"
                   else if (String.eqb t "response" || String.eqb t "correction")
                           && negb refers_to
                   then t +:+ " messages must include refers_to"
                   else "confidence >= 0.9 requires provenance or safety.level=review"
               end))).
Proof.
  intros Hrepr Hc Hh Hp t refers_to.
  apply msg_prov_list_lacks in Hp.
  pose proof (msg_safety_level_review msg Hrepr) as Hl.
  assert (Hrej : level_is_review msg = false ->
            validate_vlp msg
            = (false,
               Some (match jsonschema_validate (VDict msg) with
                     | Some e => e
                     | None =>
                         if negb (String.eqb t (PyStr.lower t))
                         then "type must be lowercase"
                         else if String.eqb t "evidence" then
                           if refers_to
                           then "evidence messages must include non-empty provenance"
                           else "evidence messages must include refers_to"
                         else if (String.eqb t "response" || String.eqb t "correction")
                                 && negb refers_to
                         then t +:+ " messages must include refers_to"
                         else "confidence >= 0.9 requires provenance or safety.level=review"
                     end))).
  { intros Hlvl. rewrite Hlvl in Hl. unfold validate_vlp.
    destruct (jsonschema_validate (VDict msg)); [reflexivity|].
    fold (msg_type msg) in t.
    destruct (String.eqb t (PyStr.lower t)) eqn:Et; cbn [negb].
    - apply String.eqb_eq in Et.
      rewrite (_semantic_validate_rules msg c Et Hc), Hp, Hh, Hl.
      fold t. unfold evidence_rule, reference_rule. subst refers_to.
      destruct (String.eqb t "evidence");
        [now destruct (Py.truthy (Py.get msg "refers_to"))|].
      destruct (String.eqb t "response" || String.eqb t "correction");
        now destruct (Py.truthy (Py.get msg "refers_to")).
    - unfold _semantic_validate. fold t. now rewrite Et. }
  split; [|exact Hrej].
  intros Hok. destruct (level_is_review msg) eqn:Hlvl.
  - clear -Hlvl. unfold level_is_review in Hlvl.
    destruct (Py.lookup "safety" msg) as [[ | | | | | | safety]|]; try discriminate.
    exists safety. split; [reflexivity|].
    destruct (Py.lookup "level" safety) as [[ | | | | l | | ]|]; try discriminate.
    apply String.eqb_eq in Hlvl. now subst.
  - rewrite (Hrej eq_refl) in Hok. discriminate.
Qed.

End Validation.

(** A claim at confidence 0.95, without provenance, marked safe: not a
    message the builder would return. *)
Definition unearned_claim : dict :=
  [("id", VStr "MSG001"); ("protocol", VStr "VLP/1.1"); ("type", VStr "claim");
   ("timestamp", VStr "2025-01-04T10:00:00Z"); ("sender", VStr "Test");
   ("content", VStr "Test"); ("confidence", VFloat 0.95);
   ("provenance", VList []);
   ("safety", VDict [("level", VStr "safe"); ("issues", VList [])])].

(** An evidence message at confidence 0.95 with a reference, an empty
    provenance and the safety level "safe". *)
Definition unearned_evidence : dict :=
  [("id", VStr "MSG002"); ("protocol", VStr "VLP/1.1"); ("type", VStr "evidence");
   ("timestamp", VStr "2025-01-04T10:00:00Z"); ("sender", VStr "Test");
   ("content", VStr "Test"); ("confidence", VFloat 0.95);
   ("provenance", VList []);
   ("safety", VDict [("level", VStr "safe"); ("issues", VList [])]);
   ("refers_to", VStr "MSG001")].

(** C2 as first stated fails on [unearned_evidence]: the message breaks the
    rule (confidence 0.95, empty provenance, level "safe") and passes the
    schema check, and it is rejected with the error of the evidence rule, not
    with the unearned-confidence error. *)
Lemma C2_counterexample :
  @Py.float_ reference_host (Py.get_or unearned_evidence "confidence" VNone)
  = Ok 0.95%float
  /\ Runtime.high_confidence 0.95 = true
  /\ Runtime.msg_prov_list unearned_evidence = []
  /\ @Runtime.msg_safety_level reference_host unearned_evidence = "safe"
  /\ @jsonschema_validate reference_host (VDict unearned_evidence) = None
  /\ @Runtime.validate_vlp reference_host unearned_evidence
     = (false, Some "evidence messages must include non-empty provenance").
Proof. repeat split; reflexivity. Qed.

(* ===================================================================== *)
(** * Sessions: the counter *)
(* ===================================================================== *)

Section Counter.
Import Sessions.

Ltac run := unfold mbind, M_bind, bind, mret, M_ret, ret, read, write, lift; simpl.

Lemma store_put (h : nat) (s : AgentSession) (w : World) :
  store (put h s w) !! h = Some s.
Proof. unfold put. simpl. apply lookup_insert_eq. Qed.

Lemma put_put (h : nat) (s1 s2 : AgentSession) (w : World) :
  put h s2 (put h s1 w) = put h s2 w.
Proof. unfold put. simpl. now rewrite insert_insert_eq. Qed.

(** One call of [next_seq]: the counter goes up by one and is returned. *)
Lemma next_seq_run (h : nat) (w : World) (s : AgentSession) :
  store w !! h = Some s ->
  next_seq h w = (Ok (seq s + 1), put h (set_seq (seq s + 1) s) w).
Proof.
  intros Hs. unfold next_seq. run. rewrite Hs. simpl.
  rewrite lookup_insert_eq. reflexivity.
Qed.

(** One call of [message_id]: one advance, and the id carries the new value. *)
Lemma message_id_run (h : nat) (prefix : string) (w : World) (s : AgentSession) :
  store w !! h = Some s ->
  message_id h prefix w
  = (Ok (prefix +:+ "-" +:+ PyStr.last_n 6 (session_id s) +:+ "-"
           +:+ PyStr.format_0d 4 (seq s + 1)),
     put h (set_seq (seq s + 1) s) w).
Proof.
  intros Hs. unfold message_id.
  unfold mbind at 1, M_bind at 1, bind at 1, read at 1. rewrite Hs.
  unfold mbind, M_bind, bind. rewrite (next_seq_run h w s Hs). reflexivity.
Qed.

(** The calls of [next_seq] on a session whose counter is [seq s] return
    [seq s + 1], [seq s + 2], ... in the order of the calls. *)
Lemma next_seq_calls_run (h : nat) (callers : list nat) :
  forall (w : World) (s : AgentSession),
  store w !! h = Some s ->
  fst (next_seq_calls h callers w)
  = Ok (combine callers
          (map (fun i => seq s + Z.of_nat i) (List.seq 1 (List.length callers)))).
Proof.
  induction callers as [|t rest IH]; intros w s Hs; [reflexivity|].
  cbn [next_seq_calls]. unfold mbind, M_bind, bind.
  rewrite (next_seq_run h w s Hs).
  specialize (IH (put h (set_seq (seq s + 1) s) w) (set_seq (seq s + 1) s)
                (store_put _ _ _)).
  destruct (next_seq_calls h rest (put h (set_seq (seq s + 1) s) w)) as [r w'].
  simpl in IH. subst r. simpl. do 3 f_equal.
  rewrite <- (seq_shift (List.length rest) 1), map_map.
  apply map_ext. intros. simpl seq. lia.
Qed.

(** C6. On a new [AgentSession] the first [next_seq()] returns 1 and every
    call returns one more than the call before it: [N] calls, from whatever
    threads and in whatever order the lock admits them, return 1, 2, ..., N
    in that order, so each of 1..N once, increasing, with no gap. *)
Theorem C6_next_seq_counts_from_one (e : Env) (started : datetime)
    (agent_name : string) (agent_number : Z) (w : World) (callers : list nat) :
  fst ((h ← new_session e started agent_name agent_number;
        next_seq_calls h callers) w)
  = Ok (combine callers (map Z.of_nat (List.seq 1 (List.length callers)))).
Proof.
  unfold mbind, M_bind, bind, new_session.
  erewrite next_seq_calls_run by apply store_put.
  reflexivity.
Qed.

End Counter.

(* ===================================================================== *)
(** * Sessions: the registry helpers *)
(* ===================================================================== *)

Section Registry.
Context {H : Host}.
Import Runtime Sessions.

(** [make_message] on a call whose confidence converts: the assembled
    message is returned when both checks accept it. *)
Lemma make_message_accepted (e : Env) (type_ sender content : pyval) (kw : dict)
    (c : float) :
  Py.float_ (Py.get_or kw "confidence" (VFloat 1)) = Ok c ->
  jsonschema_validate (VDict (assemble e type_ sender content kw c)) = None ->
  _semantic_validate (assemble e type_ sender content kw c) = (true, None) ->
  make_message e type_ sender content kw = Ok (assemble e type_ sender content kw c).
Proof.
  intros Hc Hs Hv. unfold make_message, build_message, checked, validate_vlp.
  now rewrite Hc, Hs, Hv.
Qed.

(** The id that [message_id(prefix)] gives on session [s]. *)
Definition next_message_id (prefix : string) (s : AgentSession) : string :=
  prefix +:+ "-" +:+ PyStr.last_n 6 (session_id s) +:+ "-"
    +:+ PyStr.format_0d 4 (seq s + 1).

(** The message that [end_session] hands to the validator. *)
Definition session_context_message (e : Env) (ended : datetime)
    (summary : string) (s : AgentSession) : dict :=
  let s2 := set_seq (seq s + 2) s in
  assemble e (VStr "session_context") (VStr (agent_name s))
    (session_context_content summary s2)
    (session_context_kw (next_message_id "CTX" s) (seq s + 2) ended s2) 1.

(** The message that [create_claim] hands to the validator when only the
    session and the content are given. *)
Definition default_claim_message (e : Env) (content : pyval)
    (s : AgentSession) : dict :=
  let s2 := set_seq (seq s + 2) s in
  assemble e (VStr "claim") (VStr (agent_name s)) content
    (claim_kw (next_message_id "CLM" s) (seq s + 2) (VFloat 0.9) s2 ++ []) 0.9.

(** A run of [end_session]: two advances of the counter, then the message
    is built; the session leaves the registry only if the build succeeds. *)
Lemma end_session_run (e : Env) (ended : datetime) (h : nat) (summary : string)
    (w : World) (s : AgentSession) :
  store w !! h = Some s ->
  end_session e ended h summary w
  = match make_message e (VStr "session_context") (VStr (agent_name s))
            (session_context_content summary (set_seq (seq s + 2) s))
            (session_context_kw (next_message_id "CTX" s) (seq s + 2) ended
               (set_seq (seq s + 2) s)) with
    | Ok msg =>
        (Ok msg, {| store := <[h := set_seq (seq s + 2) s]> (store w);
                    _sessions := delete (session_id s) (_sessions w) |})
    | Raise err => (Raise err, put h (set_seq (seq s + 2) s) w)
    end.
Proof.
  intros Hs. unfold end_session.
  unfold mbind at 1, M_bind at 1, bind at 1.
  rewrite (message_id_run h "CTX" w s Hs).
  unfold mbind at 1, M_bind at 1, bind at 1.
  rewrite (next_seq_run h _ _ (store_put h _ w)), put_put.
  unfold mbind at 1, M_bind at 1, bind at 1, read at 1.
  rewrite store_put.
  replace (seq (set_seq (seq s + 1) s) + 1) with (seq s + 2) by (simpl; lia).
  unfold mbind at 1, M_bind at 1, bind at 1, lift.
  change (set_seq (seq s + 2) (set_seq (seq s + 1) s)) with (set_seq (seq s + 2) s).
  change (agent_name (set_seq (seq s + 2) s)) with (agent_name s).
  fold (next_message_id "CTX" s).
  destruct (make_message _ _ _ _ _) as [msg|err]; [|reflexivity].
  unfold mbind, M_bind, bind, read. rewrite store_put.
  unfold pop_session, mret, M_ret, ret, put. simpl. reflexivity.
Qed.

(** The semantic check accepts the message of [end_session]. *)
Lemma session_context_message_valid (e : Env) (ended : datetime)
    (summary : string) (s : AgentSession) :
  _semantic_validate (session_context_message e ended summary s) = (true, None).
Proof. reflexivity. Qed.

Lemma end_session_accepted (e : Env) (ended : datetime) (h : nat)
    (summary : string) (w : World) (s : AgentSession) :
  store w !! h = Some s ->
  jsonschema_validate (VDict (session_context_message e ended summary s)) = None ->
  end_session e ended h summary w
  = (Ok (session_context_message e ended summary s),
     {| store := <[h := set_seq (seq s + 2) s]> (store w);
        _sessions := delete (session_id s) (_sessions w) |}).
Proof.
  intros Hs Hok. rewrite (end_session_run e ended h summary w s Hs).
  rewrite (make_message_accepted _ _ _ _ _ 1%float);
    [reflexivity | reflexivity | exact Hok | apply session_context_message_valid].
Qed.

(** C4. [end_session] draws two sequence numbers from the session: the
    first goes into the message id (through [message_id("CTX")]), the second
    is the [seq] field; [payload.total_messages] is the counter after both,
    which is also the value the counter is left at; and afterwards
    [get_session] no longer finds the session.  The schema check is the only
    check that can still refuse the message. *)
Theorem C4_end_session_counts_both_advances (e : Env) (ended : datetime)
    (h : nat) (summary : string) (w : World) (s : AgentSession) :
  store w !! h = Some s ->
  jsonschema_validate (VDict (session_context_message e ended summary s)) = None ->
  exists (msg : dict) (w' : World),
    end_session e ended h summary w = (Ok msg, w')
    /\ Py.get msg "type" = VStr "session_context"
    /\ Py.get msg "id"
       = VStr ("CTX-" +:+ PyStr.last_n 6 (session_id s) +:+ "-"
                 +:+ PyStr.format_0d 4 (seq s + 1))
    /\ Py.get msg "seq" = VInt (seq s + 2)
    /\ (exists payload : dict,
          Py.get msg "payload" = VDict payload
          /\ Py.get payload "total_messages" = VInt (seq s + 2))
    /\ seq <$> (store w' !! h) = Some (seq s + 2)
    /\ get_session (session_id s) w' = (Ok None, w').
Proof.
  intros Hs Hok. eexists _, _. split; [exact (end_session_accepted _ _ _ _ _ _ Hs Hok)|].
  split; [reflexivity|]. split; [reflexivity|]. split; [reflexivity|].
  split; [eexists; split; reflexivity|]. split.
  - simpl. rewrite lookup_insert_eq. reflexivity.
  - unfold get_session. simpl. rewrite lookup_delete_eq. reflexivity.
Qed.

(** C10. [end_session] on a session whose id the registry does not hold,
    such as a session that was ended before, does not raise on that account:
    the message is built as for a registered session, two more sequence
    numbers are drawn, the registry is left as it was and no other session
    object changes.  The schema check is the only check that can still
    refuse the message. *)
Theorem C10_end_session_unregistered (e : Env) (ended : datetime)
    (h : nat) (summary : string) (w : World) (s : AgentSession) :
  store w !! h = Some s ->
  _sessions w !! session_id s = None ->
  jsonschema_validate (VDict (session_context_message e ended summary s)) = None ->
  exists (msg : dict) (w' : World),
    end_session e ended h summary w = (Ok msg, w')
    /\ Py.get msg "type" = VStr "session_context"
    /\ Py.get msg "seq" = VInt (seq s + 2)
    /\ seq <$> (store w' !! h) = Some (seq s + 2)
    /\ _sessions w' = _sessions w
    /\ (forall h' : nat, h' <> h -> store w' !! h' = store w !! h').
Proof.
  intros Hs Hreg Hok. eexists _, _.
  split; [exact (end_session_accepted _ _ _ _ _ _ Hs Hok)|].
  split; [reflexivity|]. split; [reflexivity|]. split; [|split].
  - simpl. rewrite lookup_insert_eq. reflexivity.
  - simpl. now apply delete_id.
  - intros h' Hne. simpl. now apply lookup_insert_ne.
Qed.

(** A run of [create_claim] with only the session and the content. *)
Lemma create_claim_default_run (e : Env) (h : nat) (content : pyval)
    (w : World) (s : AgentSession) :
  store w !! h = Some s ->
  create_claim e h content None [] w
  = (make_message e (VStr "claim") (VStr (agent_name s)) content
       (claim_kw (next_message_id "CLM" s) (seq s + 2) (VFloat 0.9)
          (set_seq (seq s + 2) s) ++ []),
     put h (set_seq (seq s + 2) s) w).
Proof.
  intros Hs. unfold create_claim.
  unfold mbind at 1, M_bind at 1, bind at 1, lift at 1.
  cbn [bind_create_claim Py.has Py.lookup orb Py.get_or Py.remove List.filter fst snd].
  unfold mbind at 1, M_bind at 1, bind at 1.
  rewrite (message_id_run h "CLM" w s Hs).
  unfold mbind at 1, M_bind at 1, bind at 1.
  rewrite (next_seq_run h _ _ (store_put h _ w)), put_put.
  unfold mbind at 1, M_bind at 1, bind at 1, read at 1.
  rewrite store_put.
  replace (seq (set_seq (seq s + 1) s) + 1) with (seq s + 2) by (simpl; lia).
  reflexivity.
Qed.

(** C9. [create_claim] with only a session and a content builds its message
    at the default confidence 0.9, which is at the threshold of the
    escalation: the message has [confidence == 0.9], [safety.level ==
    "review"] and the issue [missing_provenance_high_confidence].  It is the
    only message such a call can return, and it is returned whenever the
    schema accepts it. *)
Theorem C9_create_claim_default_escalates (e : Env) (h : nat) (content : pyval)
    (w : World) (s : AgentSession) :
  store w !! h = Some s ->
  exists msg : dict,
    Py.get msg "confidence" = VFloat 0.9
    /\ Py.get msg "safety"
       = VDict [("level", VStr "review");
                ("issues",
                 VList [VDict [("code", VStr "missing_provenance_high_confidence");
                               ("detail", VStr "confidence >= 0.9 without provenance")]])]
    /\ (jsonschema_validate (VDict msg) = None ->
        fst (create_claim e h content None [] w) = Ok msg)
    /\ (forall msg' : dict,
          fst (create_claim e h content None [] w) = Ok msg' -> msg' = msg).
Proof.
  intros Hs. exists (default_claim_message e content s).
  split; [reflexivity|]. split; [reflexivity|].
  rewrite (create_claim_default_run e h content w s Hs). simpl fst. split.
  - intros Hok.
    apply (make_message_accepted _ _ _ _ _ 0.9%float);
      [reflexivity | exact Hok | reflexivity].
  - intros msg' Hm. apply make_message_Ok in Hm as [Hb _].
    unfold build_message in Hb. simpl in Hb. now injection Hb as <-.
Qed.

End Registry.

(* ===================================================================== *)
(** * Concrete runs *)
(* ===================================================================== *)

Definition empty_world : World := {| store := ∅; _sessions := ∅ |}.

(** [registry.start_session("The Observer", 4)] in a new registry; the
    session object gets the handle 0. *)
Definition observer_started : World :=
  snd (Sessions.start_session env0 noon "The Observer" 4 empty_world).

(** Then two calls [registry.create_claim(session, ...)]. *)
Definition observer_two_claims : World :=
  snd (@Sessions.create_claim reference_host env0 0%nat (VStr "Second claim") None []
         (snd (@Sessions.create_claim reference_host env0 0%nat (VStr "First claim")
                 None [] observer_started))).

(** Then [registry.end_session(session, "Completed successfully")]. *)
Definition observer_ended : World :=
  snd (@Sessions.end_session reference_host env0 noon 0%nat "Completed successfully"
         observer_two_claims).

(** The session object of these runs when its counter is at [n]. *)
Definition observer (n : Z) : AgentSession :=
  {| agent_name := "The Observer"; agent_number := 4;
     session_id := "S-2025-01-04-observer-1a2b3c";
     started_at := "2025-01-04T12:00:00.250000Z"; seq := n |}.

(** C4 on the session that produced two claims: its counter stands at 4, the
    id carries 5, and [seq], [total_messages] and the counter end at 6. *)
Lemma C4_end_session_witness :
  exists (msg : dict) (w' : World),
    @Sessions.end_session reference_host env0 noon 0%nat "Completed successfully"
      observer_two_claims = (Ok msg, w')
    /\ Py.get msg "type" = VStr "session_context"
    /\ Py.get msg "id" = VStr "CTX-1a2b3c-0005"
    /\ Py.get msg "seq" = VInt 6
    /\ (exists payload : dict,
          Py.get msg "payload" = VDict payload
          /\ Py.get payload "total_messages" = VInt 6)
    /\ seq <$> (store w' !! 0%nat) = Some 6
    /\ Sessions.get_session "S-2025-01-04-observer-1a2b3c" w' = (Ok None, w').
Proof.
  apply (@C4_end_session_counts_both_advances reference_host env0 noon 0%nat
           "Completed successfully" observer_two_claims (observer 4));
    reflexivity.
Defined.

(** C9 on the new session: the claim is returned, escalated. *)
Lemma C9_create_claim_witness :
  exists msg : dict,
    Py.get msg "confidence" = VFloat 0.9
    /\ Py.get msg "safety"
       = VDict [("level", VStr "review");
                ("issues",
                 VList [VDict [("code", VStr "missing_provenance_high_confidence");
                               ("detail", VStr "confidence >= 0.9 without provenance")]])]
    /\ (@jsonschema_validate reference_host (VDict msg) = None ->
        fst (@Sessions.create_claim reference_host env0 0%nat (VStr "First claim")
               None [] observer_started) = Ok msg)
    /\ (forall msg' : dict,
          fst (@Sessions.create_claim reference_host env0 0%nat (VStr "First claim")
                 None [] observer_started) = Ok msg' -> msg' = msg).
Proof.
  apply (@C9_create_claim_default_escalates reference_host env0 0%nat
           (VStr "First claim") observer_started (observer 0)).
  reflexivity.
Defined.

(** C10 on the session that was ended: a second [end_session] returns a
    message again, the counter goes from 6 to 8, the registry stays empty. *)
Lemma C10_end_session_witness :
  exists (msg : dict) (w' : World),
    @Sessions.end_session reference_host env0 noon 0%nat "" observer_ended
    = (Ok msg, w')
    /\ Py.get msg "type" = VStr "session_context"
    /\ Py.get msg "seq" = VInt 8
    /\ seq <$> (store w' !! 0%nat) = Some 8
    /\ _sessions w' = _sessions observer_ended
    /\ (forall h' : nat, h' <> 0%nat -> store w' !! h' = store observer_ended !! h').
Proof.
  apply (@C10_end_session_unregistered reference_host env0 noon 0%nat ""
           observer_ended (observer 6));
    reflexivity.
Defined.

(* ===================================================================== *)
(** * Keyword normalization *)
(* ===================================================================== *)

Section StringFacts.
Import PyStr.

Lemma lower_char_isspace (c : ascii) : isspace (lower_char c) = isspace c.
Proof. destruct c as [[] [] [] [] [] [] [] []]; reflexivity. Qed.

Lemma lower_char_lower_char (c : ascii) : lower_char (lower_char c) = lower_char c.
Proof. destruct c as [[] [] [] [] [] [] [] []]; reflexivity. Qed.

Lemma lower_lower (s : string) : lower (lower s) = lower s.
Proof. induction s; simpl; [|rewrite lower_char_lower_char, IHs]; reflexivity. Qed.

Lemma is_empty_lower (s : string) : is_empty (lower s) = is_empty s.
Proof. destruct s; reflexivity. Qed.

Lemma lstrip_lower (s : string) : lstrip (lower s) = lower (lstrip s).
Proof.
  induction s as [|c s IH]; simpl; [reflexivity|].
  rewrite lower_char_isspace. destruct (isspace c); [exact IH | reflexivity].
Qed.

Lemma rstrip_lower (s : string) : rstrip (lower s) = lower (rstrip s).
Proof.
  induction s as [|c s IH]; simpl; [reflexivity|].
  rewrite IH, is_empty_lower, lower_char_isspace.
  destruct (is_empty (rstrip s) && isspace c); reflexivity.
Qed.

(** Lowering and trimming commute. *)
Lemma strip_lower (s : string) : strip (lower s) = lower (strip s).
Proof. unfold strip. now rewrite lstrip_lower, rstrip_lower. Qed.

Lemma rstrip_rstrip (s : string) : rstrip (rstrip s) = rstrip s.
Proof.
  induction s as [|c s IH]; simpl; [reflexivity|].
  destruct (is_empty (rstrip s) && isspace c) eqn:E; simpl; [reflexivity|].
  now rewrite IH, E.
Qed.

Lemma lstrip_head (s : string) :
  lstrip s = "" \/ exists c r, lstrip s = String c r /\ isspace c = false.
Proof.
  induction s as [|c s IH]; simpl; [now left|].
  destruct (isspace c) eqn:E; [exact IH|]. right. eauto.
Qed.

(** Trimming is idempotent. *)
Lemma strip_strip (s : string) : strip (strip s) = strip s.
Proof.
  unfold strip. destruct (lstrip_head s) as [-> | (c & r & -> & Hc)]; [reflexivity|].
  simpl. rewrite Hc, andb_false_r. simpl. rewrite Hc. simpl.
  now rewrite Hc, andb_false_r, rstrip_rstrip.
Qed.

(** A text that starts with a character that is not white space is not
    blank. *)
Lemma strip_nonblank (c : ascii) (s : string) :
  isspace c = false -> is_empty (strip (String c s)) = false.
Proof.
  intros Hc. unfold strip. simpl. rewrite Hc. simpl. now rewrite Hc, andb_false_r.
Qed.

End StringFacts.

(** "Deduplicate preserving first occurrence", in the words of the spec:
    an entry is kept unless it was [seen] before. *)
Fixpoint first_occurrences (seen : list string) (l : list string) : list string :=
  match l with
  | [] => []
  | x :: rest =>
      if existsb (String.eqb x) seen then first_occurrences seen rest
      else x :: first_occurrences (seen ++ [x]) rest
  end.

(** The [str] entries of a list. *)
Fixpoint strings_of (l : list pyval) : list string :=
  match l with
  | [] => []
  | VStr s :: rest => s :: strings_of rest
  | _ :: rest => strings_of rest
  end.

(** Keyword normalization in the words of the spec: lower-case and trim
    each entry, drop the empty ones, deduplicate. *)
Definition normalize_keywords_spec (l : list pyval) : list string :=
  first_occurrences []
    (List.filter (fun k => negb (PyStr.is_empty k))
       (map (fun k => PyStr.strip (PyStr.lower k)) (strings_of l))).

(** A keyword in normal form: not empty, and lowering and trimming leave it
    as it is. *)
Definition normal_keyword (k : string) : Prop :=
  PyStr.is_empty k = false /\ PyStr.strip (PyStr.lower k) = k.

Section Keywords.
Import Runtime.

Lemma keys_set (k : string) (v : pyval) (d : dict) :
  Py.keys (Py.set k v d)
  = if existsb (String.eqb k) (Py.keys d) then Py.keys d
    else (Py.keys d ++ [k])%list.
Proof.
  induction d as [|[k' v'] d IH]; simpl; [reflexivity|].
  destruct (String.eqb k k') eqn:E; simpl.
  - apply String.eqb_eq in E. now subst.
  - rewrite IH. destruct (existsb (String.eqb k) (Py.keys d)); reflexivity.
Qed.

Lemma keys_fold_set (l : list string) :
  forall d : dict,
  Py.keys (fold_left (fun d k => Py.set k VNone d) l d)
  = (Py.keys d ++ first_occurrences (Py.keys d) l)%list.
Proof.
  induction l as [|x l IH]; intros d; simpl.
  - now rewrite app_nil_r.
  - rewrite IH, keys_set.
    destruct (existsb (String.eqb x) (Py.keys d)); [reflexivity|].
    now rewrite <- app_assoc.
Qed.

(** [list(dict.fromkeys(l))] keeps the first occurrences. *)
Lemma keys_fromkeys (l : list string) :
  Py.keys (Py.fromkeys l) = first_occurrences [] l.
Proof. unfold Py.fromkeys. now rewrite keys_fold_set. Qed.

(** The generator of lines 146-148 gives the lowered and trimmed [str]
    entries that are not empty. *)
Lemma keyword_stream_spec (l : list pyval) :
  keyword_stream l
  = List.filter (fun k => negb (PyStr.is_empty k))
      (map (fun k => PyStr.strip (PyStr.lower k)) (strings_of l)).
Proof.
  induction l as [|v l IH]; [reflexivity|].
  destruct v; try exact IH.
  assert (E : PyStr.is_empty (PyStr.strip (PyStr.lower s))
              = PyStr.is_empty (PyStr.strip s))
    by (rewrite strip_lower; apply is_empty_lower).
  cbn [keyword_stream strings_of map List.filter]. rewrite E, IH.
  destruct (PyStr.is_empty (PyStr.strip s)); reflexivity.
Qed.

Lemma keyword_stream_normal (l : list pyval) :
  Forall normal_keyword (keyword_stream l).
Proof.
  induction l as [|v l IH]; [constructor|].
  destruct v; try exact IH. cbn [keyword_stream].
  destruct (PyStr.is_empty (PyStr.strip s)) eqn:E; cbn [negb]; [exact IH|].
  constructor; [|exact IH]. split.
  - now rewrite strip_lower, is_empty_lower.
  - now rewrite (strip_lower s), lower_lower, strip_lower, strip_strip.
Qed.

(** On keywords in normal form the generator changes nothing. *)
Lemma keyword_stream_fixed (ks : list string) :
  Forall normal_keyword ks -> keyword_stream (map VStr ks) = ks.
Proof.
  induction 1 as [|k ks [Hne Hfix] _ IH]; [reflexivity|].
  assert (Hs : PyStr.is_empty (PyStr.strip k) = false).
  { rewrite <- is_empty_lower, <- strip_lower, Hfix. exact Hne. }
  cbn [map keyword_stream]. now rewrite Hs, Hfix, IH.
Qed.

Lemma first_occurrences_subset (l seen : list string) (x : string) :
  In x (first_occurrences seen l) -> In x l.
Proof.
  revert seen. induction l as [|y l IH]; intros seen; simpl; [tauto|].
  destruct (existsb (String.eqb y) seen).
  - intros Hin. right. eauto.
  - intros [-> | Hin]; [now left | right; eauto].
Qed.

Lemma first_occurrences_unseen (l seen : list string) (x : string) :
  In x seen -> ~ In x (first_occurrences seen l).
Proof.
  revert seen. induction l as [|y l IH]; intros seen Hseen; simpl; [tauto|].
  destruct (existsb (String.eqb y) seen) eqn:E.
  - now apply IH.
  - intros [-> | Hin].
    + assert (existsb (String.eqb x) seen = true); [|congruence].
      apply existsb_exists. exists x. split; [exact Hseen | apply String.eqb_refl].
    + revert Hin. apply IH. apply in_or_app. now left.
Qed.

(** Deduplicating what is already deduplicated changes nothing. *)
Lemma first_occurrences_idem (l seen : list string) :
  first_occurrences seen (first_occurrences seen l) = first_occurrences seen l.
Proof.
  revert seen. induction l as [|y l IH]; intros seen; simpl; [reflexivity|].
  destruct (existsb (String.eqb y) seen) eqn:E; [apply IH|].
  simpl. rewrite E. f_equal.
  (* the tail was computed with [y] seen: it has no [y], and nothing of
     [seen] *)
  apply IH.
Qed.

Lemma first_occurrences_Forall (P : string -> Prop) (l seen : list string) :
  Forall P l -> Forall P (first_occurrences seen l).
Proof.
  intros Hl. apply List.Forall_forall. intros x Hx.
  apply first_occurrences_subset in Hx. revert x Hx. now apply List.Forall_forall.
Qed.

Lemma first_occurrences_NoDup (l seen : list string) :
  List.NoDup (first_occurrences seen l).
Proof.
  revert seen. induction l as [|y l IH]; intros seen; simpl; [constructor|].
  destruct (existsb (String.eqb y) seen); [apply IH|].
  constructor; [|apply IH].
  apply first_occurrences_unseen, in_or_app. right. now left.
Qed.

(** The normalization of lines 143-148: it is the one of the spec, its
    result is in normal form and has no repeats, and normalizing the result
    again gives it back. *)
Lemma normalize_keywords_facts (keywords : pyval) :
  normalize_keywords keywords = normalize_keywords_spec (list_of keywords)
  /\ Forall normal_keyword (normalize_keywords keywords)
  /\ List.NoDup (normalize_keywords keywords)
  /\ normalize_keywords (VList (map VStr (normalize_keywords keywords)))
     = normalize_keywords keywords.
Proof.
  unfold normalize_keywords, normalize_keywords_spec.
  rewrite !keys_fromkeys. split; [|split; [|split]].
  - now rewrite keyword_stream_spec.
  - apply first_occurrences_Forall, keyword_stream_normal.
  - apply first_occurrences_NoDup.
  - cbn [list_of]. rewrite keyword_stream_fixed.
    + apply first_occurrences_idem.
    + apply first_occurrences_Forall, keyword_stream_normal.
Qed.

End Keywords.

Section KeywordsOfMessages.
Context {H : Host}.
Import Runtime.

(** A call that passes the keywords in normal form assembles the message of
    the call that passed them as they were. *)
Lemma assemble_normal_keywords (e : Env) (type_ sender content : pyval)
    (kw : dict) (c : float) :
  assemble e type_ sender content
    (Py.set "keywords"
       (VList (map VStr (normalize_keywords (Py.get_or kw "keywords" (VList [])))))
       kw) c
  = assemble e type_ sender content kw c.
Proof.
  set (v := VList (map VStr (normalize_keywords (Py.get_or kw "keywords" (VList []))))).
  assert (Hs : normalize_safety (Py.set "keywords" v kw) = normalize_safety kw).
  { unfold normalize_safety. now rewrite get_or_set_ne by discriminate. }
  assert (Hk : Py.get_or (Py.set "keywords" v kw) "keywords" (VList []) = v).
  { unfold Py.get_or. now rewrite lookup_set_eq. }
  unfold assemble. rewrite Hs, Hk.
  rewrite !get_set_ne, !get_or_set_ne by discriminate.
  subst v.
  destruct (normalize_keywords_facts (Py.get_or kw "keywords" (VList [])))
    as (_ & _ & _ & ->).
  reflexivity.
Qed.

(** C7. The keywords of a message that [make_message] returns are the
    [str] entries of the [keywords] option, lower-cased and trimmed, without
    the empty ones, each kept at its first occurrence: every keyword of the
    message is non-empty and unchanged by lowering and trimming, and none
    occurs twice.  The normalization is idempotent: the call that passes the
    keywords of the message as its [keywords] returns the same message.  And
    ["Research", "  OKLAHOMA  ", "test", "test"] gives
    ["research", "oklahoma", "test"]. *)
Theorem C7_keyword_normalization (e : Env) (type_ sender content : pyval)
    (kw msg : dict) :
  make_message e type_ sender content kw = Ok msg ->
  let keywords := Py.get_or kw "keywords" (VList []) in
  exists ks : list string,
    Py.get msg "keywords" = VList (map VStr ks)
    /\ ks = normalize_keywords_spec (list_of keywords)
    /\ Forall normal_keyword ks
    /\ List.NoDup ks
    /\ make_message e type_ sender content
         (Py.set "keywords" (VList (map VStr ks)) kw) = Ok msg
    /\ (keywords = VList [VStr "Research"; VStr "  OKLAHOMA  "; VStr "test";
                          VStr "test"] ->
        ks = ["research"; "oklahoma"; "test"]).
Proof.
  intros Hok keywords. exists (normalize_keywords keywords).
  destruct (normalize_keywords_facts keywords) as (Hspec & Hn & Hd & _).
  assert (Hmsg : Py.get msg "keywords" = VList (map VStr (normalize_keywords keywords))).
  { apply make_message_Ok in Hok as [Hb _]. unfold build_message in Hb.
    destruct (Py.float_ _); [|discriminate]. now injection Hb as <-. }
  repeat split; try assumption.
  - unfold make_message, build_message in *.
    rewrite get_or_set_ne by discriminate.
    destruct (Py.float_ _) as [c|err]; [|discriminate].
    subst keywords. now rewrite assemble_normal_keywords.
  - intros E. rewrite Hspec, E. reflexivity.
Qed.

End KeywordsOfMessages.



(* ===================================================================== *)
(** * NDJSON framing *)
(* ===================================================================== *)

(** NEL, U+0085: a line boundary for [str.splitlines], and a character that
    [json.dumps(..., ensure_ascii=False)] writes as it is. *)
Definition NEL : ascii := ascii_of_N 133.

(** The message of [make_message("claim", "Agent1", "a\x85b",
    confidence=0.5)]. *)
Definition nel_message : dict :=
  [("id", VStr "MSG1a2b3c4d"); ("protocol", VStr "VLP/1.1");
   ("type", VStr "claim"); ("timestamp", VStr "2025-01-04T12:00:00Z");
   ("session_id", VNone); ("seq", VNone); ("sender", VStr "Agent1");
   ("receiver", VNone); ("topic", VNone);
   ("content", VStr (String "a" (String NEL "b")));
   ("confidence", VFloat 0.5); ("provenance", VList []);
   ("constraints", VList []);
   ("safety", VDict [("level", VStr "safe"); ("issues", VList [])]);
   ("refers_to", VNone); ("keywords", VList []); ("payload", VNone);
   ("_extras", VDict [])].

(** No character of the text is NEL.  The strings of this model stop at
    U+00FF; below it NEL is the one line boundary that [json.dumps] writes
    as it is, beyond it there are two more, U+2028 and U+2029 (see
    [no_boundary] for texts over the whole of Unicode). *)
Fixpoint no_nel_str (s : string) : bool :=
  match s with
  | EmptyString => true
  | String c s' => negb (PyStr.ord c =? 133)%N && no_nel_str s'
  end.

(** No [str] in the value, key or not, holds a NEL; this says that no
    string holds a line boundary which is written as it is only for
    strings that stop at U+00FF. *)
Fixpoint no_nel (v : pyval) : bool :=
  match v with
  | VStr s => no_nel_str s
  | VList l => forallb no_nel l
  | VDict d => forallb (fun kv => no_nel_str (fst kv) && no_nel (snd kv)) d
  | _ => true
  end.

(** No character of the text is a line boundary. *)
Fixpoint no_linebreak (s : string) : bool :=
  match s with
  | EmptyString => true
  | String c s' => negb (PyStr.is_linebreak c) && no_linebreak s'
  end.

Section Ndjson.
Context {H : Host} {D : JsonDecoder}.
Import Json.

Lemma append_assoc (a b c : string) : (a +:+ b) +:+ c = a +:+ (b +:+ c).
Proof.
  induction a as [|x a IH]; [reflexivity|].
  change (String x ((a +:+ b) +:+ c) = String x (a +:+ b +:+ c)). now rewrite IH.
Qed.

Lemma append_empty_r (a : string) : a +:+ "" = a.
Proof.
  induction a as [|x a IH]; [reflexivity|].
  change (String x (a +:+ "") = String x a). now rewrite IH.
Qed.

(** The first line that [splitlines] gives starts with what was read. *)
Lemma splitlines_from_head (s : string) :
  forall cur : string,
  PyStr.is_empty cur = false ->
  exists (more : string) (lines : list string),
    PyStr.splitlines_from cur s = (cur +:+ more) :: lines.
Proof.
  induction s as [|c s IH]; intros cur Hcur; simpl.
  - rewrite Hcur. exists "", []. now rewrite append_empty_r.
  - destruct (PyStr.is_linebreak c).
    + destruct s as [|c' s'].
      * exists "", []. now rewrite append_empty_r.
      * destruct ((PyStr.ord c =? 13)%N && (PyStr.ord c' =? 10)%N);
          eexists "", _; rewrite append_empty_r; reflexivity.
    + destruct (IH (cur +:+ String c "")) as (more & lines & E).
      { destruct cur; [discriminate | reflexivity]. }
      exists (String c more), lines. rewrite E, append_assoc. reflexivity.
Qed.

(** The loop of [from_ndjson] raises nothing but the decoder's error. *)
Lemma from_lines_raise (lines : list string) (e : exn) :
  from_lines lines = Raise e -> e = JSONDecodeError.
Proof.
  induction lines as [|l lines IH]; simpl; [discriminate|].
  destruct (PyStr.is_empty (PyStr.strip l)); [exact IH|].
  destruct (json_loads l); [|now intros [= <-]].
  destruct (from_lines lines); [discriminate|].
  intros [= <-]. now apply IH.
Qed.

(** One step of [splitlines] at a character that is no line boundary, and
    at a line boundary other than CR with more text behind it. *)
Lemma splitlines_from_char (cur : string) (c : ascii) (s : string) :
  PyStr.is_linebreak c = false ->
  PyStr.splitlines_from cur (String c s)
  = PyStr.splitlines_from (cur +:+ String c "") s.
Proof. intros Hc. cbn [PyStr.splitlines_from]. now rewrite Hc. Qed.

Lemma splitlines_from_break (cur : string) (c c' : ascii) (s : string) :
  PyStr.is_linebreak c = true ->
  (PyStr.ord c =? 13)%N = false ->
  PyStr.splitlines_from cur (String c (String c' s))
  = cur :: PyStr.splitlines_from "" (String c' s).
Proof. intros Hc Hcr. cbn [PyStr.splitlines_from]. now rewrite Hc, Hcr. Qed.

(** [splitlines] reads through a text without line boundaries. *)
Lemma splitlines_from_prefix (pre : string) :
  no_linebreak pre = true ->
  forall cur rest : string,
  PyStr.splitlines_from cur (pre +:+ rest) = PyStr.splitlines_from (cur +:+ pre) rest.
Proof.
  induction pre as [|c pre IH]; intros Hpre cur rest.
  - now rewrite append_empty_r.
  - cbn [no_linebreak] in Hpre. apply andb_prop in Hpre as [Hc Hpre].
    apply negb_true_iff in Hc.
    change (String c pre +:+ rest) with (String c (pre +:+ rest)).
    rewrite (splitlines_from_char _ _ _ Hc), (IH Hpre), append_assoc.
    reflexivity.
Qed.

Lemma join_cons (sep x y : string) (rest : list string) :
  PyStr.join sep (x :: y :: rest) = x +:+ sep +:+ PyStr.join sep (y :: rest).
Proof. reflexivity. Qed.

Lemma join_head_nonempty (sep : string) (x : string) (rest : list string) :
  PyStr.is_empty x = false -> PyStr.is_empty (PyStr.join sep (x :: rest)) = false.
Proof.
  intros Hx. destruct x as [|c x]; [discriminate|].
  destruct rest; reflexivity.
Qed.

(** Lines without line boundaries, none of them empty, joined by line
    feeds, are the lines that [splitlines] gives back. *)
Lemma splitlines_join (lines : list string) :
  Forall (fun l => no_linebreak l = true /\ PyStr.is_empty l = false) lines ->
  PyStr.splitlines (PyStr.join LF lines) = lines.
Proof.
  unfold PyStr.splitlines.
  induction 1 as [|x rest [Hnb Hne] Hrest IH]; [reflexivity|].
  destruct rest as [|y rest].
  - cbn [PyStr.join]. rewrite <- (append_empty_r x) at 1.
    rewrite (splitlines_from_prefix x Hnb).
    change ("" +:+ x) with x. cbn [PyStr.splitlines_from]. now rewrite Hne.
  - rewrite join_cons, (splitlines_from_prefix x Hnb).
    change ("" +:+ x) with x.
    assert (Hj : PyStr.is_empty (PyStr.join LF (y :: rest)) = false).
    { apply join_head_nonempty. inversion Hrest as [|? ? [_ Hy] _]. exact Hy. }
    destruct (PyStr.join LF (y :: rest)) as [|c j] eqn:Ej; [discriminate|].
    change (LF +:+ String c j) with (String (ascii_of_N 10) (String c j)).
    rewrite splitlines_from_break by reflexivity. now rewrite IH.
Qed.

(** The round trip for messages whose serialized form has no line boundary
    in it and is read back by the decoder. *)
Lemma from_ndjson_to_ndjson (messages : list dict) :
  Forall (fun m => no_linebreak (dumps (VDict m)) = true
                   /\ json_loads (dumps (VDict m)) = Some (VDict m)) messages ->
  from_ndjson (to_ndjson messages) = Ok (map VDict messages).
Proof.
  intros Hall. unfold from_ndjson, to_ndjson.
  rewrite splitlines_join.
  - induction Hall as [|m rest [_ Hm] _ IH]; [reflexivity|].
    cbn [map from_lines].
    replace (PyStr.is_empty (PyStr.strip (dumps (VDict m)))) with false
      by (symmetry; apply (strip_nonblank "{"); reflexivity).
    now rewrite Hm, IH.
  - induction Hall as [|m rest [Hnb _] _ IH]; constructor; [|exact IH].
    split; [exact Hnb | reflexivity].
Qed.

Lemma no_linebreak_app (a b : string) :
  no_linebreak (a +:+ b) = no_linebreak a && no_linebreak b.
Proof.
  induction a as [|x a IH]; [reflexivity|].
  change (String x a +:+ b) with (String x (a +:+ b)).
  cbn [no_linebreak]. now rewrite IH, andb_assoc.
Qed.

Lemma no_linebreak_join (sep : string) (l : list string) :
  no_linebreak sep = true ->
  forallb no_linebreak l = true ->
  no_linebreak (PyStr.join sep l) = true.
Proof.
  intros Hsep. induction l as [|x rest IH]; [reflexivity|].
  cbn [forallb]. intros [Hx Hrest]%andb_prop.
  destruct rest as [|y rest]; [exact Hx|].
  rewrite join_cons, !no_linebreak_app, Hx, Hsep. now apply IH.
Qed.

(** An escaped character brings a line boundary only if it is NEL. *)
Lemma escape_char_no_linebreak (c : ascii) :
  (PyStr.ord c =? 133)%N = false -> no_linebreak (escape_char c) = true.
Proof. destruct c as [[] [] [] [] [] [] [] []]; intros Hc; try reflexivity; discriminate. Qed.

Lemma escape_no_linebreak (s : string) :
  no_nel_str s = true -> no_linebreak (escape s) = true.
Proof.
  induction s as [|c s IH]; [reflexivity|].
  cbn [no_nel_str escape]. intros [Hc Hs]%andb_prop.
  apply negb_true_iff in Hc.
  now rewrite no_linebreak_app, (escape_char_no_linebreak c Hc), IH.
Qed.

Lemma dumps_str_no_linebreak (s : string) :
  no_nel_str s = true -> no_linebreak (dumps_str s) = true.
Proof.
  intros Hs. unfold dumps_str. cbn [no_linebreak].
  now rewrite no_linebreak_app, (escape_no_linebreak s Hs).
Qed.

(** The decimal digits of an [int] hold no line boundary. *)
Lemma string_of_uint_no_linebreak (d : Decimal.uint) :
  no_linebreak (NilEmpty.string_of_uint d) = true.
Proof. induction d; cbn [NilEmpty.string_of_uint no_linebreak]; auto. Qed.

Lemma of_Z_no_linebreak (z : Z) : no_linebreak (PyStr.of_Z z) = true.
Proof.
  unfold PyStr.of_Z, NilZero.string_of_int, NilZero.string_of_uint.
  destruct (Z.to_int z) as [d|d]; destruct d;
    try reflexivity; cbn [no_linebreak]; try apply string_of_uint_no_linebreak;
    rewrite ?andb_true_l; apply (string_of_uint_no_linebreak _).
Qed.

(** If [repr] of a float never holds a line boundary, the serialized form
    of a value holds one only where one of its strings holds a NEL. *)
Lemma dumps_no_linebreak :
  (forall f : float, no_linebreak (float_repr f) = true) ->
  forall v : pyval, no_nel v = true -> no_linebreak (dumps v) = true.
Proof.
  intros Hrepr. fix IH 1. intros [ | [|] | z | f | s | l | d] Hv;
    cbn [dumps]; try reflexivity.
  - apply of_Z_no_linebreak.
  - unfold dumps_float.
    destruct (is_nan f); [reflexivity|].
    destruct (f =? infinity)%float; [reflexivity|].
    destruct (f =? neg_infinity)%float; [reflexivity|]. apply Hrepr.
  - now apply dumps_str_no_linebreak.
  - rewrite !no_linebreak_app.
    apply andb_true_intro; split; [reflexivity|].
    apply andb_true_intro; split; [|reflexivity].
    apply no_linebreak_join; [reflexivity|].
    cbn [no_nel] in Hv. induction l as [|x l IHl]; [reflexivity|].
    cbn [forallb map] in *. apply andb_prop in Hv as [Hx Hl].
    now rewrite (IH x Hx), IHl.
  - rewrite !no_linebreak_app.
    apply andb_true_intro; split; [reflexivity|].
    apply andb_true_intro; split; [|reflexivity].
    apply no_linebreak_join; [reflexivity|].
    cbn [no_nel] in Hv. induction d as [|[k x] d IHd]; [reflexivity|].
    cbn [forallb map fst snd] in *. apply andb_prop in Hv as [Hkx Hd].
    apply andb_prop in Hkx as [Hk Hx].
    now rewrite !no_linebreak_app, (dumps_str_no_linebreak k Hk), (IH x Hx), IHd.
Qed.

(** The round trip for messages whose strings stop at U+00FF and hold no
    NEL, written with a [repr] of floats that has no line boundary and read
    by a decoder that inverts [json.dumps] on them. *)
Lemma from_ndjson_to_ndjson_no_nel (messages : list dict) :
  (forall f : float, no_linebreak (float_repr f) = true) ->
  Forall (fun m => no_nel (VDict m) = true
                   /\ json_loads (dumps (VDict m)) = Some (VDict m)) messages ->
  from_ndjson (to_ndjson messages) = Ok (map VDict messages).
Proof.
  intros Hrepr Hall. apply from_ndjson_to_ndjson.
  induction Hall as [|m rest [Hm Hl] _ IH]; constructor; [|exact IH].
  split; [now apply dumps_no_linebreak | exact Hl].
Qed.

(** What [to_ndjson] writes for [nel_message] up to the NEL of the
    content. *)
Definition nel_first_line : string :=
  "{" +:+ dumps_str "id" +:+ ": " +:+ dumps_str "MSG1a2b3c4d" +:+ ", "
  +:+ dumps_str "protocol" +:+ ": " +:+ dumps_str "VLP/1.1" +:+ ", "
  +:+ dumps_str "type" +:+ ": " +:+ dumps_str "claim" +:+ ", "
  +:+ dumps_str "timestamp" +:+ ": " +:+ dumps_str "2025-01-04T12:00:00Z" +:+ ", "
  +:+ dumps_str "session_id" +:+ ": null, "
  +:+ dumps_str "seq" +:+ ": null, "
  +:+ dumps_str "sender" +:+ ": " +:+ dumps_str "Agent1" +:+ ", "
  +:+ dumps_str "receiver" +:+ ": null, "
  +:+ dumps_str "topic" +:+ ": null, "
  +:+ dumps_str "content" +:+ ": " +:+ String PyStr.dquote "a".

(** [to_ndjson] writes the NEL of the content as it is. *)
Lemma to_ndjson_nel_message :
  exists tail : string,
    to_ndjson [nel_message] = nel_first_line +:+ String NEL (String "b" tail).
Proof. eexists. cbv. reflexivity. Qed.

(** C8 fails on [nel_message].  Whatever [json.loads] does and however
    floats are written, [from_ndjson(to_ndjson([nel_message]))] is not the
    list of that one message: [splitlines] cuts the text at the NEL inside
    the content, so the decoder is given two pieces, and the result is a
    [JSONDecodeError] or a list of at least two values. *)
Theorem C8_ndjson_round_trip_breaks :
  from_ndjson (to_ndjson [nel_message]) = Raise JSONDecodeError
  \/ exists out : list pyval,
       from_ndjson (to_ndjson [nel_message]) = Ok out
       /\ (2 <= List.length out)%nat.
Proof.
  destruct to_ndjson_nel_message as [tail ->].
  unfold from_ndjson, PyStr.splitlines.
  rewrite splitlines_from_prefix by (vm_compute; reflexivity).
  rewrite splitlines_from_break by reflexivity.
  rewrite splitlines_from_char by reflexivity.
  destruct (splitlines_from_head tail ("" +:+ "b")) as (more & lines & ->);
    [reflexivity|].
  cbn [from_lines].
  replace (PyStr.is_empty (PyStr.strip ("" +:+ nel_first_line))) with false
    by (vm_compute; reflexivity).
  change (("" +:+ "b") +:+ more) with (String "b" more).
  rewrite (strip_nonblank "b" more) by reflexivity.
  destruct (json_loads ("" +:+ nel_first_line)) as [v1|]; [|now left].
  destruct (json_loads (String "b" more)) as [v2|]; [|now left].
  destruct (from_lines lines) as [out|e] eqn:E.
  - right. eexists. split; [reflexivity|]. simpl. lia.
  - left. now rewrite (from_lines_raise _ _ E).
Qed.

End Ndjson.

(** [make_message] returns [nel_message] for the call of its comment, and
    [validate_vlp] accepts it. *)
Example nel_message_built :
  @Runtime.make_message reference_host env0 (VStr "claim") (VStr "Agent1")
    (VStr (String "a" (String NEL "b"))) [("confidence", VFloat 0.5)]
  = Ok nel_message
  /\ @Runtime.validate_vlp reference_host nel_message = (true, None).
Proof. split; reflexivity. Qed.

(* ===================================================================== *)
(** * The session id *)
(* ===================================================================== *)

Section SessionId.
Import Sessions.

Lemma length_append (a b : string) :
  String.length (a +:+ b) = (String.length a + String.length b)%nat.
Proof.
  induction a as [|x a IH]; [reflexivity|].
  change (S (String.length (a +:+ b)) = S (String.length a + String.length b)).
  now rewrite IH.
Qed.

(** A number of at most [w] digits, written with [f"{z:0{w}d}"], takes [w]
    characters; here for the widths 4 and 2 of a date. *)
Lemma format_0d_4_length (z : Z) :
  0 <= z <= 9999 -> String.length (PyStr.format_0d 4 z) = 4%nat.
Proof.
  intros Hz.
  assert (Hall : forallb (fun n => Nat.eqb (String.length (PyStr.format_0d 4 (Z.of_nat n))) 4)
                   (List.seq 0 (Z.to_nat 10000)) = true) by (vm_compute; reflexivity).
  rewrite forallb_forall in Hall.
  specialize (Hall (Z.to_nat z)). rewrite Z2Nat.id in Hall by lia.
  apply Nat.eqb_eq, Hall, in_seq. lia.
Qed.

Lemma format_0d_2_length (z : Z) :
  0 <= z <= 99 -> String.length (PyStr.format_0d 2 z) = 2%nat.
Proof.
  intros Hz.
  assert (Hall : forallb (fun n => Nat.eqb (String.length (PyStr.format_0d 2 (Z.of_nat n))) 2)
                   (List.seq 0 (Z.to_nat 100)) = true) by (vm_compute; reflexivity).
  rewrite forallb_forall in Hall.
  specialize (Hall (Z.to_nat z)). rewrite Z2Nat.id in Hall by lia.
  apply Nat.eqb_eq, Hall, in_seq. lia.
Qed.

(** A run of [start_session]: the session object is stored under a new
    handle and registered under its id. *)
Lemma start_session_run (e : Env) (started : datetime) (agent_name : string)
    (agent_number : Z) (w : World) :
  let h := fresh (dom (store w)) in
  let s := {| agent_name := agent_name; agent_number := agent_number;
              session_id := _generate_session_id e agent_name;
              started_at := Clock.iso_z started; seq := 0 |} in
  start_session e started agent_name agent_number w
  = (Ok h, {| store := <[h := s]> (store w);
              _sessions := <[session_id s := h]> (_sessions w) |}).
Proof.
  intros h s. unfold start_session, new_session.
  unfold mbind, M_bind, bind, read. rewrite store_put. reflexivity.
Qed.

(** C5 on the code.  [start_session("The Observer", 4)] registers a session
    whose id is ["S-"], the date, ["-observer-"] and the first six characters
    of the uuid; the date is written by [strftime("%Y-%m-%d")]: four, two and
    two digits with a hyphen between them, ten characters and not eight.  The
    slug drops every ["the "] of the lower-cased name, not only a leading
    one: for "Soothe Bot" it is "soobot". *)
Theorem C5_session_id_date_has_ten_characters (e : Env) (started : datetime)
    (w : World) :
  1000 <= year (clock e) <= 9999 ->
  1 <= month (clock e) <= 12 ->
  1 <= day (clock e) <= 31 ->
  exists (h : nat) (w' : World) (s : AgentSession) (yyyy mm dd : string),
    start_session e started "The Observer" 4 w = (Ok h, w')
    /\ store w' !! h = Some s
    /\ _sessions w' !! session_id s = Some h
    /\ session_id s
       = "S-" +:+ (yyyy +:+ "-" +:+ mm +:+ "-" +:+ dd) +:+ "-observer-"
           +:+ PyStr.take 6 (uuid_hex e)
    /\ String.length yyyy = 4%nat
    /\ String.length mm = 2%nat
    /\ String.length dd = 2%nat
    /\ String.length (yyyy +:+ "-" +:+ mm +:+ "-" +:+ dd) = 10%nat
    /\ _generate_session_id e "Soothe Bot"
       = "S-" +:+ (yyyy +:+ "-" +:+ mm +:+ "-" +:+ dd) +:+ "-soobot-"
           +:+ PyStr.take 6 (uuid_hex e).
Proof.
  intros Hy Hm Hd.
  pose proof (format_0d_4_length (year (clock e)) ltac:(lia)) as Ly.
  pose proof (format_0d_2_length (month (clock e)) ltac:(lia)) as Lm.
  pose proof (format_0d_2_length (day (clock e)) ltac:(lia)) as Ld.
  rewrite start_session_run.
  eexists _, _, _, (PyStr.format_0d 4 (year (clock e))),
    (PyStr.format_0d 2 (month (clock e))), (PyStr.format_0d 2 (day (clock e))).
  split; [reflexivity|]. split; [apply lookup_insert_eq|].
  split; [apply lookup_insert_eq|]. split; [|split; [exact Ly|split; [exact Lm|split; [exact Ld|split]]]].
  - cbn [session_id]. unfold _generate_session_id, Clock.strftime_Ymd.
    rewrite !append_assoc. reflexivity.
  - rewrite !length_append, Ly, Lm, Ld. reflexivity.
  - unfold _generate_session_id, Clock.strftime_Ymd.
    rewrite !append_assoc. reflexivity.
Qed.

End SessionId.

(** C5 on the run of [observer_started]: the id is
    [S-2025-01-04-observer-1a2b3c], which has six fields between hyphens. *)
Lemma C5_session_id_witness :
  exists (h : nat) (w' : World) (s : AgentSession) (yyyy mm dd : string),
    Sessions.start_session env0 noon "The Observer" 4 empty_world = (Ok h, w')
    /\ store w' !! h = Some s
    /\ _sessions w' !! session_id s = Some h
    /\ session_id s
       = "S-" +:+ (yyyy +:+ "-" +:+ mm +:+ "-" +:+ dd) +:+ "-observer-"
           +:+ PyStr.take 6 (uuid_hex env0)
    /\ String.length yyyy = 4%nat
    /\ String.length mm = 2%nat
    /\ String.length dd = 2%nat
    /\ String.length (yyyy +:+ "-" +:+ mm +:+ "-" +:+ dd) = 10%nat
    /\ Sessions._generate_session_id env0 "Soothe Bot"
       = "S-" +:+ (yyyy +:+ "-" +:+ mm +:+ "-" +:+ dd) +:+ "-soobot-"
           +:+ PyStr.take 6 (uuid_hex env0).
Proof.
  apply (C5_session_id_date_has_ten_characters env0 noon empty_world);
    simpl; lia.
Defined.

(** The same run, evaluated. *)
Example observer_session_id :
  Sessions._generate_session_id env0 "The Observer" = "S-2025-01-04-observer-1a2b3c"
  /\ PyStr.split "-" "S-2025-01-04-observer-1a2b3c"
     = ["S"; "2025"; "01"; "04"; "observer"; "1a2b3c"]
  /\ store observer_started !! 0%nat = Some (observer 0)
  /\ Sessions.get_session "S-2025-01-04-observer-1a2b3c" observer_started
     = (Ok (Some 0%nat), observer_started).
Proof. repeat split; reflexivity. Qed.

(* ===================================================================== *)
(** * The tests of the repository, run on the embedding *)
(* ===================================================================== *)

(** [tests/test_runtime.py] and [tests/test_sessions.py] on the reference
    host, with the clock at [noon] and the uuid of [env0]. *)
Module Tests.
Import Runtime Sessions.

Definition make (type_ sender content : string) (kw : dict) : result dict :=
  @make_message reference_host env0 (VStr type_) (VStr sender) (VStr content) kw.

Definition field (k : string) (r : result dict) : pyval :=
  match r with Ok msg => Py.get msg k | Raise _ => VNone end.

Example test_default_prefix :
  new_id env0 "MSG" = "MSG1a2b3c4d" /\ String.length (new_id env0 "MSG") = 11%nat.
Proof. split; reflexivity. Qed.

Example test_format :
  now_iso env0 = "2025-01-04T12:00:00Z" /\ String.length (now_iso env0) = 20%nat.
Proof. split; reflexivity. Qed.

Example test_basic_claim :
  let msg := make "claim" "TestAgent" "Test content" [("confidence", VFloat 0.8)] in
  field "type" msg = VStr "claim"
  /\ field "sender" msg = VStr "TestAgent"
  /\ field "content" msg = VStr "Test content"
  /\ field "confidence" msg = VFloat 0.8
  /\ field "protocol" msg = VStr "VLP/1.1".
Proof. repeat split; reflexivity. Qed.

Example test_high_confidence_with_provenance_stays_safe :
  field "safety"
    (make "claim" "TestAgent" "Proven claim"
       [("confidence", VFloat 0.95);
        ("provenance", VList [VStr "source1"; VStr "source2"])])
  = VDict [("level", VStr "safe"); ("issues", VList [])].
Proof. reflexivity. Qed.

Example test_keywords_normalized :
  field "keywords"
    (make "claim" "TestAgent" "Test"
       [("confidence", VFloat 0.5);
        ("keywords", VList [VStr "Research"; VStr "  OKLAHOMA  "; VStr "test";
                            VStr "test"])])
  = VList [VStr "research"; VStr "oklahoma"; VStr "test"].
Proof. reflexivity. Qed.

Example test_session_fields :
  let msg := make "claim" "TestAgent" "Session test"
               [("confidence", VFloat 0.5);
                ("session_id", VStr "S-2025-01-04-test-abc123"); ("seq", VInt 5)] in
  field "session_id" msg = VStr "S-2025-01-04-test-abc123"
  /\ field "seq" msg = VInt 5.
Proof. split; reflexivity. Qed.

Example test_missing_confidence :
  @validate_vlp reference_host
    [("id", VStr "MSG001"); ("protocol", VStr "VLP/1.1"); ("type", VStr "claim");
     ("timestamp", VStr "2025-01-04T10:00:00Z"); ("sender", VStr "Test");
     ("content", VStr "Test")]
  = (false, Some "'confidence' is a required property").
Proof. reflexivity. Qed.

Example test_evidence_requires_refers_to :
  make "evidence" "Test" "Evidence without ref"
    [("confidence", VFloat 0.8); ("provenance", VList [VStr "source"])]
  = Raise (ValueError "VLP validation failed: evidence messages must include refers_to").
Proof. reflexivity. Qed.

Example test_evidence_requires_provenance :
  make "evidence" "Test" "Evidence without provenance"
    [("confidence", VFloat 0.8); ("refers_to", VStr "MSG001")]
  = Raise (ValueError
             "VLP validation failed: evidence messages must include non-empty provenance").
Proof. reflexivity. Qed.

Example test_to_ndjson :
  List.length
    (PyStr.split (ascii_of_N 10)
       (@Json.to_ndjson reference_host
          [[("id", VStr "MSG001"); ("content", VStr "First")];
           [("id", VStr "MSG002"); ("content", VStr "Second")]]))
  = 2%nat.
Proof. reflexivity. Qed.

(** [test_session_id_format] asserts four fields between hyphens; the id
    has six. *)
Example test_session_id_format :
  let sid := _generate_session_id env0 "The Observer" in
  PyStr.startswith "S-" sid = true
  /\ PyStr.contains "observer" sid = true
  /\ List.length (PyStr.split "-" sid) = 6%nat.
Proof. repeat split; reflexivity. Qed.

Example test_seq_increments :
  fst ((h ← new_session env0 noon "Test" 1;
        a ← next_seq h; b ← next_seq h; c ← next_seq h;
        mret [a; b; c]) empty_world)
  = Ok [1; 2; 3].
Proof. reflexivity. Qed.

Example test_message_id_format :
  fst ((h ← new_session env0 noon "Test" 1; message_id h "CLM") empty_world)
  = Ok "CLM-1a2b3c-0001".
Proof. reflexivity. Qed.

Example test_get_unknown_session :
  fst (get_session "nonexistent" empty_world) = Ok None.
Proof. reflexivity. Qed.

Example test_end_session :
  let run := @end_session reference_host env0 noon 0%nat "Completed successfully"
               observer_started in
  field "type" (fst run) = VStr "session_context"
  /\ field "sender" (fst run) = VStr "The Observer"
  /\ field "content" (fst run) = VStr "Completed successfully"
  /\ fst (get_session "S-2025-01-04-observer-1a2b3c" (snd run)) = Ok None.
Proof. repeat split; reflexivity. Qed.

Example test_create_claim :
  let msg := fst (@create_claim reference_host env0 0%nat (VStr "Test claim")
                    (Some (VFloat 0.85)) [("provenance", VList [VStr "source"])]
                    observer_started) in
  field "type" msg = VStr "claim"
  /\ field "content" msg = VStr "Test claim"
  /\ field "confidence" msg = VFloat 0.85
  /\ field "session_id" msg = VStr "S-2025-01-04-observer-1a2b3c".
Proof. repeat split; reflexivity. Qed.

(** Python's answers on some known inputs. *)
Example splitlines_examples :
  PyStr.splitlines ("ab" +:+ String (ascii_of_N 10) (String (ascii_of_N 13)
                       (String (ascii_of_N 10) "c")))
  = ["ab"; ""; "c"]
  /\ PyStr.splitlines (String (ascii_of_N 10) "") = [""]
  /\ PyStr.splitlines ("a" +:+ String (ascii_of_N 133) "b") = ["a"; "b"]
  /\ PyStr.splitlines "" = [].
Proof. repeat split; reflexivity. Qed.

Example str_examples :
  PyStr.replace "the " "" "the breathe deep" = "breadeep"
  /\ PyStr.replace "aa" "b" "aaaaa" = "bba"
  /\ PyStr.strip ("  a b " +:+ String (ascii_of_N 160) "") = "a b"
  /\ PyStr.format_0d 4 12345 = "12345"
  /\ PyStr.last_n 6 "abc" = "abc".
Proof. repeat split; reflexivity. Qed.

Example float_examples :
  Reference.float_of_str " 1_000.5e-1 " = Some 100.05%float
  /\ Reference.float_of_str "0.9" = Some 0.9%float
  /\ Reference.float_of_str "1e" = None
  /\ map Reference.float_repr [0.1; 0.9; 1; 1e16; 1e-5; 0.30000000000000004]%float
     = ["0.1"; "0.9"; "1.0"; "1e+16"; "1e-05"; "0.30000000000000004"]
  /\ @Py.float_ reference_host (VInt (2 ^ 53 + 1)) = Ok 9007199254740992%float
  /\ @Py.float_ reference_host (VNone)
     = Raise (TypeError "float() argument must be a string or a real number, not 'NoneType'").
Proof. repeat split; reflexivity. Qed.

End Tests.

(* ===================================================================== *)
(** * More of the builder and the validator *)
(* ===================================================================== *)

Section Builder.
Context {H : Host}.
Import Runtime.

(** After lines 126-132 the safety dict has a level. *)
Lemma normalize_safety_level (kw : dict) :
  Py.has "level" (normalize_safety kw) = true.
Proof.
  unfold normalize_safety.
  match goal with
  | |- context [if negb (Py.has "level" ?s) then _ else _] =>
      destruct (Py.has "level" s) eqn:E
  end; cbn [negb]; [exact E | apply has_set].
Qed.

(** A safety dict that has a list of issues and a level is what lines
    126-132 leave alone. *)
Lemma normalize_safety_fixed (kw safety : dict) (l : list pyval) :
  Py.lookup "issues" safety = Some (VList l) ->
  Py.has "level" safety = true ->
  normalize_safety (Py.set "safety" (VDict safety) kw) = safety.
Proof.
  intros Hi Hl. unfold normalize_safety, Py.get_or.
  rewrite lookup_set_eq.
  assert (Hh : Py.has "issues" safety = true) by (unfold Py.has; now rewrite Hi).
  unfold Py.get, Py.get_or. rewrite Hh, Hi. cbn [negb orb Py.is_list].
  now rewrite Hl.
Qed.

(** The escalation keeps the list of issues and the level in place. *)
Lemma escalate_shape (c : float) (p : list pyval) (safety : dict) (l : list pyval) :
  Py.lookup "issues" safety = Some (VList l) ->
  Py.has "level" safety = true ->
  exists l' : list pyval,
    Py.lookup "issues" (escalate c p safety) = Some (VList l')
    /\ Py.has "level" (escalate c p safety) = true.
Proof.
  intros Hi Hl. unfold escalate.
  destruct (high_confidence c && is_nil p
            && negb (String.eqb (Py.str (Py.get safety "level")) "review"));
    [|eauto].
  unfold append_issue.
  assert (Hg : Py.get (Py.set "level" (VStr "review") safety) "issues" = VList l).
  { rewrite get_set_ne by discriminate. unfold Py.get, Py.get_or. now rewrite Hi. }
  rewrite Hg. eexists. split; [apply lookup_set_eq|].
  rewrite has_set_ne by discriminate. apply has_set.
Qed.

(** Once the escalation has run, running it again changes nothing. *)
Lemma escalate_idempotent (c : float) (p : list pyval) (safety : dict) :
  escalate c p (escalate c p safety) = escalate c p safety.
Proof.
  destruct (high_confidence c && is_nil p
            && negb (String.eqb (Py.str (Py.get safety "level")) "review")) eqn:E.
  - assert (R : escalate c p safety
                = append_issue escalation_issue (Py.set "level" (VStr "review") safety))
      by (unfold escalate; now rewrite E).
    rewrite R. unfold escalate.
    assert (Hl : Py.get (append_issue escalation_issue
                           (Py.set "level" (VStr "review") safety)) "level"
                 = VStr "review").
    { unfold append_issue.
      destruct (Py.get (Py.set "level" (VStr "review") safety) "issues");
        try (unfold Py.get, Py.get_or; now rewrite lookup_set_eq).
      rewrite get_set_ne by discriminate.
      unfold Py.get, Py.get_or. now rewrite lookup_set_eq. }
    rewrite Hl. cbn [Py.str]. rewrite String.eqb_refl. cbn [negb].
    now rewrite andb_false_r.
  - assert (R : escalate c p safety = safety) by (unfold escalate; now rewrite E).
    now rewrite !R.
Qed.

(** X1. A message that [make_message] returns for a call whose provenance
    normalizes to a non-empty list, or whose confidence is below 0.9, carries
    the safety option as lines 126-132 normalized it, with nothing appended;
    with no safety option that is level "safe" and no issues. *)
Theorem make_message_keeps_safety (e : Env) (type_ sender content : pyval)
    (kw msg : dict) (confidence : float) :
  make_message e type_ sender content kw = Ok msg ->
  Py.float_ (Py.get_or kw "confidence" (VFloat 1)) = Ok confidence ->
  is_nil (list_of (Py.get_or kw "provenance" (VList []))) = false
  \/ high_confidence confidence = false ->
  Py.get msg "safety" = VDict (normalize_safety kw)
  /\ (Py.has "safety" kw = false ->
      Py.get msg "safety" = VDict [("level", VStr "safe"); ("issues", VList [])]).
Proof.
  intros Hmk Hc Hcond. apply make_message_Ok in Hmk as [Hb _].
  unfold build_message in Hb. rewrite Hc in Hb. injection Hb as <-.
  assert (E : Py.get (assemble e type_ sender content kw confidence) "safety"
              = VDict (normalize_safety kw)).
  { change (VDict (escalate confidence (list_of (Py.get_or kw "provenance" (VList [])))
                     (normalize_safety kw)) = VDict (normalize_safety kw)).
    unfold escalate. destruct Hcond as [-> | ->];
      now rewrite ?andb_false_r. }
  split; [exact E|]. intros Hno. rewrite E. unfold normalize_safety, Py.get_or.
  unfold Py.has in Hno. destruct (Py.lookup "safety" kw); [discriminate|]. reflexivity.
Qed.

(** X7. Passing the safety of an assembled message back as the safety
    option assembles the same message: the lists and the level are already
    normal, and the issue is not appended a second time. *)
Theorem rebuild_with_own_safety (e : Env) (type_ sender content : pyval)
    (kw : dict) (confidence : float) :
  assemble e type_ sender content
    (Py.set "safety" (Py.get (assemble e type_ sender content kw confidence) "safety") kw)
    confidence
  = assemble e type_ sender content kw confidence.
Proof.
  change (Py.get (assemble e type_ sender content kw confidence) "safety")
    with (VDict (escalate confidence (list_of (Py.get_or kw "provenance" (VList [])))
                   (normalize_safety kw))).
  set (s1 := escalate confidence (list_of (Py.get_or kw "provenance" (VList [])))
               (normalize_safety kw)).
  unfold assemble.
  rewrite !get_set_ne, !get_or_set_ne by discriminate.
  destruct (normalize_safety_issues kw) as [l Hl].
  destruct (escalate_shape confidence (list_of (Py.get_or kw "provenance" (VList [])))
              _ l Hl (normalize_safety_level kw)) as (l' & Hi' & Hl').
  fold s1 in Hi', Hl'.
  rewrite (normalize_safety_fixed kw s1 l' Hi' Hl').
  subst s1. now rewrite escalate_idempotent.
Qed.

End Builder.

Section BuilderAndValidator.
Context {H : Host}.
Import Runtime.

(** The type that the builder stores is trimmed and in lower case. *)
Lemma builder_type_normal (type_ : pyval) :
  let t := PyStr.lower (PyStr.strip (Py.str type_)) in
  PyStr.lower t = t /\ PyStr.strip t = t.
Proof.
  cbn zeta. split; [apply lower_lower|].
  now rewrite strip_lower, strip_strip.
Qed.


(** A value that [str] writes as "review" is truthy, when [repr] of a zero
    float is not "review". *)
Lemma str_review_truthy (v : pyval) :
  (forall f : float, (f =? 0)%float = true ->
                     String.eqb (float_repr f) "review" = false) ->
  String.eqb (Py.str v) "review" = true -> Py.truthy v = true.
Proof.
  intros Hzero Hs. destruct v as [ | b | z | f | s | l | d]; cbn [Py.truthy].
  - discriminate.
  - destruct b; [reflexivity | discriminate].
  - destruct (z =? 0) eqn:Ez; [|reflexivity].
    apply Z.eqb_eq in Ez. subst z. discriminate.
  - destruct (f =? 0)%float eqn:Ef; [|reflexivity].
    cbn [Py.str Py.repr] in Hs. rewrite (Hzero f Ef) in Hs. discriminate.
  - destruct s; [discriminate | reflexivity].
  - destruct l; [discriminate | reflexivity].
  - destruct d; [discriminate | reflexivity].
Qed.


(** X2. The shape of every message that [make_message] returns: the
    eighteen keys in their order; the protocol tag; a type in lower case and
    trimmed; a float confidence; lists for provenance, constraints and
    keywords, the keywords normal and without repeats; a safety dict with a
    list of issues and a level; the sender and the content as given; and the
    message passes [validate_vlp]. *)
Theorem make_message_shape (e : Env) (type_ sender content : pyval)
    (kw msg : dict) :
  make_message e type_ sender content kw = Ok msg ->
  Py.keys msg
  = ["id"; "protocol"; "type"; "timestamp"; "session_id"; "seq"; "sender";
     "receiver"; "topic"; "content"; "confidence"; "provenance"; "constraints";
     "safety"; "refers_to"; "keywords"; "payload"; "_extras"]
  /\ Py.get msg "protocol" = VStr "VLP/1.1"
  /\ (exists t : string,
        Py.get msg "type" = VStr t /\ PyStr.lower t = t /\ PyStr.strip t = t)
  /\ (exists f : float, Py.get msg "confidence" = VFloat f)
  /\ (exists l : list pyval, Py.get msg "provenance" = VList l)
  /\ (exists l : list pyval, Py.get msg "constraints" = VList l)
  /\ (exists ks : list string,
        Py.get msg "keywords" = VList (map VStr ks)
        /\ List.NoDup ks /\ Forall normal_keyword ks)
  /\ (exists (safety : dict) (issues : list pyval),
        Py.get msg "safety" = VDict safety
        /\ Py.lookup "issues" safety = Some (VList issues)
        /\ Py.has "level" safety = true)
  /\ Py.get msg "sender" = sender
  /\ Py.get msg "content" = content
  /\ fst (validate_vlp msg) = true.
Proof.
  intros Hmk. apply make_message_Ok in Hmk as [Hb Hv].
  unfold build_message in Hb.
  destruct (Py.float_ (Py.get_or kw "confidence" (VFloat 1))) as [c|]; [|discriminate].
  injection Hb as <-.
  split; [reflexivity|]. split; [reflexivity|].
  split; [eexists; split; [reflexivity | apply builder_type_normal]|].
  split; [eexists; reflexivity|]. split; [eexists; reflexivity|].
  split; [eexists; reflexivity|].
  split.
  { eexists. split; [reflexivity|]. unfold normalize_keywords.
    rewrite keys_fromkeys. split.
    - apply first_occurrences_NoDup.
    - apply first_occurrences_Forall, keyword_stream_normal. }
  split.
  { destruct (normalize_safety_issues kw) as [l Hl].
    destruct (escalate_shape c (list_of (Py.get_or kw "provenance" (VList [])))
                _ l Hl (normalize_safety_level kw)) as (l' & Hi' & Hl').
    eexists _, _. split; [reflexivity|]. split; [exact Hi' | exact Hl']. }
  split; [reflexivity|]. split; [reflexivity | exact Hv].
Qed.

(** X5. What [validate_vlp] guarantees of a message it accepts: the schema
    accepts it, its type reads in lower case, its confidence converts to a
    float, an evidence message has a truthy [refers_to] and a non-empty list
    as provenance, and a response or correction has a truthy [refers_to]. *)
Theorem validate_vlp_sound (msg : dict) :
  fst (validate_vlp msg) = true ->
  jsonschema_validate (VDict msg) = None
  /\ msg_type msg = PyStr.lower (msg_type msg)
  /\ (exists c : float, Py.float_ (Py.get_or msg "confidence" VNone) = Ok c)
  /\ (msg_type msg = "evidence" ->
      Py.truthy (Py.get msg "refers_to") = true
      /\ is_nil (msg_prov_list msg) = false)
  /\ (msg_type msg = "response" \/ msg_type msg = "correction" ->
      Py.truthy (Py.get msg "refers_to") = true).
Proof.
  unfold validate_vlp. destruct (jsonschema_validate (VDict msg)); [discriminate|].
  intros Hv. split; [reflexivity|].
  destruct (String.eqb (msg_type msg) (PyStr.lower (msg_type msg))) eqn:Et.
  2:{ unfold _semantic_validate in Hv. rewrite Et in Hv. discriminate. }
  apply String.eqb_eq in Et. split; [exact Et|].
  destruct (Py.float_ (Py.get_or msg "confidence" VNone)) as [c|err] eqn:Ec.
  2:{ unfold _semantic_validate in Hv. rewrite <- Et, String.eqb_refl in Hv.
      cbn [negb] in Hv. rewrite Ec in Hv.
      destruct (Py.get_or msg "confidence" VNone); discriminate. }
  split; [eauto|].
  rewrite (_semantic_validate_rules msg c Et Ec) in Hv.
  unfold evidence_rule, reference_rule in Hv. split.
  - intros Hev. rewrite Hev in Hv. cbn [String.eqb Ascii.eqb] in Hv.
    change (String.eqb "evidence" "evidence") with true in Hv. cbv iota in Hv.
    destruct (Py.truthy (Py.get msg "refers_to")); [|discriminate].
    destruct (is_nil (msg_prov_list msg)); [discriminate|]. now split.
  - intros Hrc.
    destruct (Py.truthy (Py.get msg "refers_to")); [reflexivity|].
    destruct Hrc as [Hrc | Hrc]; rewrite Hrc in Hv; discriminate.
Qed.

(** X6. The order of the checks of [validate_vlp]: an error of the schema
    check is returned as it is and nothing else is looked at; then a type
    that is not in lower case; then a confidence that is missing or [None];
    then a confidence that [float] refuses. *)
Theorem validate_vlp_first_errors (msg : dict) :
  (forall se : string,
     jsonschema_validate (VDict msg) = Some se ->
     validate_vlp msg = (false, Some se))
  /\ (jsonschema_validate (VDict msg) = None ->
      (String.eqb (msg_type msg) (PyStr.lower (msg_type msg)) = false ->
       validate_vlp msg = (false, Some "type must be lowercase"))
      /\ (msg_type msg = PyStr.lower (msg_type msg) ->
          Py.get_or msg "confidence" VNone = VNone ->
          validate_vlp msg = (false, Some "confidence is required"))
      /\ (msg_type msg = PyStr.lower (msg_type msg) ->
          forall err : exn,
          Py.get_or msg "confidence" VNone <> VNone ->
          Py.float_ (Py.get_or msg "confidence" VNone) = Raise err ->
          validate_vlp msg = (false, Some "confidence must be a number"))).
Proof.
  unfold validate_vlp. split.
  - intros se ->. reflexivity.
  - intros ->. unfold _semantic_validate. split; [|split].
    + intros ->. reflexivity.
    + intros <- ->. now rewrite String.eqb_refl.
    + intros <- err Hne Herr. rewrite String.eqb_refl. cbn [negb].
      rewrite Herr. destruct (Py.get_or msg "confidence" VNone); congruence.
Qed.

End BuilderAndValidator.

(* ===================================================================== *)
(** * The builder on objects *)
(* ===================================================================== *)

Section ObjectFacts.
Import Obj.

Lemma olookup_erase (k : string) (d : odict) :
  Py.lookup k (erase_dict d) = option_map erase (lookup k d).
Proof.
  induction d as [|[k' v] d IH]; [reflexivity|]. cbn.
  destruct (String.eqb k k'); [reflexivity|exact IH].
Qed.

Lemma get_or_erase (k : string) (d : odict) (dflt : obj) :
  Py.get_or (erase_dict d) k (erase dflt) = erase (get_or d k dflt).
Proof. unfold Py.get_or, get_or. rewrite olookup_erase. now destruct (lookup k d). Qed.

Lemma get_erase (k : string) (d : odict) :
  Py.get (erase_dict d) k = erase (get d k).
Proof. exact (get_or_erase k d ONone). Qed.

Lemma olookup_map (f : obj -> obj) (k : string) (d : odict) :
  lookup k (map (fun kv => (fst kv, f (snd kv))) d) = option_map f (lookup k d).
Proof.
  induction d as [|[k' v] d IH]; [reflexivity|]. cbn.
  destruct (String.eqb k k'); [reflexivity|exact IH].
Qed.

Lemma olookup_set_eq (k : string) (v : obj) (d : odict) :
  lookup k (set k v d) = Some v.
Proof.
  induction d as [|[k' v'] d IH]; cbn.
  - now rewrite String.eqb_refl.
  - destruct (String.eqb k k') eqn:E; cbn; rewrite ?String.eqb_refl, ?E; auto.
Qed.

Lemma olookup_set_ne (k k' : string) (v : obj) (d : odict) :
  k <> k' -> lookup k' (set k v d) = lookup k' d.
Proof.
  intros Hk. induction d as [|[k0 v0] d IH]; cbn.
  - destruct (String.eqb k' k) eqn:E; [|reflexivity].
    apply String.eqb_eq in E. congruence.
  - destruct (String.eqb k k0) eqn:E; cbn.
    + apply String.eqb_eq in E. subst k0.
      destruct (String.eqb k' k) eqn:E'; [|reflexivity].
      apply String.eqb_eq in E'. congruence.
    + now rewrite IH.
Qed.

(** A change in place leaves every object where and what it is: a list
    stays the list at its address, a dict the dict at its address. *)
Definition keeps (f : obj -> obj) : Prop :=
  forall o : obj,
    (forall a, list_at a (f o) = list_at a o)
    /\ (forall a, dict_at a (f o) = dict_at a o)
    /\ addr (f o) = addr o.

(** A change in place at the dict [b] and the list [a] leaves the truth
    value and the emptiness of every other object as they are. *)
Definition elsewhere (b a : nat) (f : obj -> obj) : Prop :=
  forall o : obj,
    dict_at b o = false -> list_at a o = false ->
    Py.truthy (erase (f o)) = Py.truthy (erase o) /\ empty (f o) = empty o.

Lemma keeps_id : keeps (fun o => o).
Proof. intros o. auto. Qed.

Lemma keeps_setitem (b : nat) (k : string) (v : obj) : keeps (setitem_at b k v).
Proof. intros [ | | | | | c l | c d]; cbn; auto. Qed.

Lemma keeps_append (a : nat) (v : obj) : keeps (append_at a v).
Proof. intros [ | | | | | c l | c d]; cbn; auto. Qed.

Lemma keeps_comp (f g : obj -> obj) : keeps f -> keeps g -> keeps (fun o => g (f o)).
Proof.
  intros Hf Hg o. destruct (Hf o) as (F1 & F2 & F3), (Hg (f o)) as (G1 & G2 & G3).
  repeat split; intros; congruence.
Qed.

Lemma elsewhere_id (b a : nat) : elsewhere b a (fun o => o).
Proof. intros o _ _. auto. Qed.

Lemma elsewhere_setitem (b a : nat) (k : string) (v : obj) :
  elsewhere b a (setitem_at b k v).
Proof.
  intros [ | | | | | c l | c d] Hb Ha; cbn in *; auto.
  - split; now destruct l.
  - rewrite Hb. split; now destruct d.
Qed.

Lemma elsewhere_append (b a : nat) (v : obj) : elsewhere b a (append_at a v).
Proof.
  intros [ | | | | | c l | c d] Hb Ha; cbn in *; auto.
  - rewrite Ha, app_nil_r. split; now destruct l.
  - split; now destruct d.
Qed.

Lemma elsewhere_comp (b a : nat) (f g : obj -> obj) :
  keeps f -> elsewhere b a f -> elsewhere b a g -> elsewhere b a (fun o => g (f o)).
Proof.
  intros Kf Hf Hg o Hb Ha. destruct (Kf o) as (K1 & K2 & _).
  destruct (Hf o Hb Ha) as [F1 F2].
  destruct (Hg (f o)) as [G1 G2]; [now rewrite K2 | now rewrite K1 |].
  split; congruence.
Qed.

(** The addresses of an object of the call are below the new ones. *)
Lemma addr_max (o : obj) : (addr o <= max_addr o)%nat.
Proof.
  destruct o as [ | | | | | a l | a d]; cbn; try lia.
  - induction l as [|x l IH]; cbn; lia.
  - induction d as [|x d IH]; cbn; lia.
Qed.

Lemma max_addr_items (a : nat) (l : list obj) (o : obj) :
  In o l -> (max_addr o <= max_addr (OList a l))%nat.
Proof.
  cbn. induction l as [|x l IH]; [easy|]. intros [-> | Hin]; cbn; [lia|].
  specialize (IH Hin). lia.
Qed.

Lemma lookup_In (k : string) (d : odict) (o : obj) :
  lookup k d = Some o -> In o (map snd d).
Proof.
  induction d as [|[k' v] d IH]; [discriminate|]. cbn.
  destruct (String.eqb k k'); [intros [= ->]; now left | intros E; right; auto].
Qed.

Lemma fresh_above_kw (type_ sender content : obj) (kw : odict) (k : string) (o : obj) :
  lookup k kw = Some o -> (addr o < fresh_addr type_ sender content kw)%nat.
Proof.
  intros E. unfold fresh_addr. pose proof (addr_max o).
  pose proof (max_addr_items O (type_ :: sender :: content :: map snd kw) o) as M.
  specialize (M ltac:(do 3 right; eapply lookup_In; eauto)). lia.
Qed.

End ObjectFacts.

Section ObjectBuilder.
Context {H : Host}.
Import Obj.

(** The address of the list under ["issues"] once lines 129-130 have run:
    the list of the caller, or the new one. *)
Definition issues_addr (a0 : nat) (safety : obj) : nat :=
  if negb (has "issues" (entries safety))
     || negb (is_list (get (entries safety) "issues"))
  then (a0 + 4)%nat
  else addr (get (entries safety) "issues").

Lemma safety_of_cases (kw : odict) (a0 : nat) :
  (exists b d, lookup "safety" kw = Some (ODict b d) /\ safety_of kw a0 = ODict b d)
  \/ (get kw "safety" = ONone \/ is_dict (get kw "safety") = false)
     /\ safety_of kw a0
        = ODict (a0 + 2) [("level", OStr "safe"); ("issues", OList (a0 + 3) [])].
Proof.
  unfold safety_of, get, get_or.
  destruct (lookup "safety" kw) as [[ | | | | | a l | b d]|];
    try (right; split; [now right | reflexivity]).
  left. now exists b, d.
Qed.

Lemma safety_of_dict (kw : odict) (a0 : nat) :
  exists b d, safety_of kw a0 = ODict b d.
Proof.
  destruct (safety_of_cases kw a0) as [(b & d & _ & E) | [_ E]]; rewrite E; eauto.
Qed.

(** The safety dict after lines 129-132: a dict at the same address, with
    a level, and with the list at [issues_addr] under ["issues"]. *)
Lemma normal_safety (a0 : nat) (s0 : obj) :
  is_dict s0 = true ->
  let s1 := set_issues a0 s0 s0 in
  let s2 := set_level s1 s1 in
  exists d2 : odict,
    s2 = ODict (addr s0) d2
    /\ has "level" d2 = true
    /\ addr (get d2 "issues") = issues_addr a0 s0.
Proof.
  destruct s0 as [ | | | | | | b d]; try discriminate. intros _.
  cbn zeta. unfold issues_addr, set_issues. cbn [entries addr].
  set (f1 := setitem_at b "issues" (OList (a0 + 4) [])).
  assert (S1 : exists d1,
            (if negb (has "issues" d) || negb (is_list (get d "issues"))
             then f1 else fun o => o) (ODict b d) = ODict b d1
            /\ addr (get d1 "issues")
               = (if negb (has "issues" d) || negb (is_list (get d "issues"))
                  then (a0 + 4)%nat else addr (get d "issues"))).
  { destruct (negb (has "issues" d) || negb (is_list (get d "issues"))).
    - subst f1. cbn [setitem_at]. rewrite Nat.eqb_refl. eexists. split; [reflexivity|].
      unfold get, get_or. now rewrite olookup_set_eq.
    - now exists d. }
  destruct S1 as (d1 & -> & A1). rewrite <- A1. clear A1.
  unfold set_level. cbn [entries addr].
  destruct (has "level" d1) eqn:Hl; cbn [negb].
  - now exists d1.
  - cbn [setitem_at]. rewrite Nat.eqb_refl. eexists. split; [reflexivity|]. split.
    + unfold has. now rewrite olookup_set_eq.
    + unfold get, get_or.
      rewrite olookup_set_ne by discriminate. rewrite olookup_map.
      destruct (lookup "issues" d1) as [o|]; [|reflexivity].
      cbn [option_map]. apply (keeps_setitem b "level" (OStr "safe") o).
Qed.

Section OneCall.
Variables (type_ sender content : obj) (kw : odict) (confidence : float).

Let a0 := fresh_addr type_ sender content kw.
Let s0 := safety_of kw a0.
Let now := changes type_ sender content kw confidence.

Lemma set_issues_keeps : keeps (set_issues a0 s0).
Proof. unfold set_issues. destruct (_ || _); [apply keeps_setitem | apply keeps_id]. Qed.

Lemma set_level_keeps (s : obj) : keeps (set_level s).
Proof. unfold set_level. destruct (negb _); [apply keeps_setitem | apply keeps_id]. Qed.

Lemma escalate_keeps (p s : obj) : keeps (escalate a0 confidence p s).
Proof.
  unfold escalate. destruct (escalates _ _ _); [|apply keeps_id].
  apply (keeps_comp (setitem_at _ _ _) (append_at _ _));
    [apply keeps_setitem | apply keeps_append].
Qed.

Lemma changes_keeps : keeps now.
Proof.
  subst now. unfold changes.
  apply (keeps_comp (fun o => set_level _ (set_issues _ _ o)) (escalate _ _ _ _)).
  - apply (keeps_comp (set_issues _ _) (set_level _));
      [apply set_issues_keeps | apply set_level_keeps].
  - apply escalate_keeps.
Qed.

(** The changes of the call are made at the safety dict and at the list
    under its ["issues"]. *)
Lemma changes_elsewhere : elsewhere (addr s0) (issues_addr a0 s0) now.
Proof.
  destruct (safety_of_dict kw a0) as (b & d & Es).
  destruct (normal_safety a0 s0) as (d2 & E2 & _ & A2);
    [subst s0; now rewrite Es|].
  subst now. unfold changes. fold a0. fold s0.
  assert (A1 : addr (set_issues a0 s0 s0) = addr s0) by apply set_issues_keeps.
  apply (elsewhere_comp _ _ (fun o => set_level _ (set_issues _ _ o))
           (escalate _ _ _ _)).
  - apply (keeps_comp (set_issues _ _) (set_level _));
      [apply set_issues_keeps | apply set_level_keeps].
  - apply (elsewhere_comp _ _ (set_issues _ _) (set_level _)).
    + apply set_issues_keeps.
    + unfold set_issues.
      destruct (_ || _); [apply elsewhere_setitem | apply elsewhere_id].
    + unfold set_level. rewrite A1.
      destruct (negb _); [apply elsewhere_setitem | apply elsewhere_id].
  - unfold escalate. destruct (escalates _ _ _); [|apply elsewhere_id].
    rewrite E2. cbn [entries addr]. rewrite A2.
    apply (elsewhere_comp _ _ (setitem_at _ _ _) (append_at _ _));
      [apply keeps_setitem | apply elsewhere_setitem | apply elsewhere_append].
Qed.

Lemma list_at_addr (a : nat) (o : obj) : list_at a o = true -> addr o = a.
Proof. destruct o; try discriminate. cbn. now intros ?%Nat.eqb_eq. Qed.

Lemma dict_at_addr (a : nat) (o : obj) : dict_at a o = true -> addr o = a.
Proof. destruct o; try discriminate. cbn. now intros ?%Nat.eqb_eq. Qed.

(** An object of the caller that is neither the safety dict of the call nor
    the list under its ["issues"] is apart from both changes. *)
Lemma apart (o : obj) :
  (addr o < a0)%nat -> shared kw o = false ->
  dict_at (addr s0) o = false /\ list_at (issues_addr a0 s0) o = false.
Proof.
  intros Ho Hsh.
  assert (Fd : forall n, dict_at (a0 + n) o = false).
  { intros n. destruct (dict_at (a0 + n) o) eqn:E; [|reflexivity].
    apply dict_at_addr in E. lia. }
  assert (Fl : forall n, list_at (a0 + n) o = false).
  { intros n. destruct (list_at (a0 + n) o) eqn:E; [|reflexivity].
    apply list_at_addr in E. lia. }
  destruct (safety_of_cases kw a0) as [(b & d & El & Es) | [Hk Es]];
    subst s0; rewrite Es; unfold issues_addr; cbn [entries addr].
  - unfold shared, get, get_or in Hsh. rewrite El in Hsh.
    apply orb_false_elim in Hsh as [Hd Hi]. cbn [same] in Hd. split; [exact Hd|].
    destruct (negb (has "issues" d) || negb (is_list (get d "issues"))) eqn:C;
      [apply Fl|].
    apply orb_false_elim in C as [_ C]. apply negb_false_iff in C.
    unfold get, get_or in *. destruct (lookup "issues" d) as [[ | | | | | a l | ]|];
      try discriminate. exact Hi.
  - split; [apply Fd|]. cbn. apply Fl.
Qed.

(** The truth value of an argument that is not shared is after the changes
    what it was at the call. *)
Lemma truthy_now (k : string) :
  passes_shared kw k = false ->
  Py.truthy (erase (now (get kw k))) = Py.truthy (erase (get kw k)).
Proof.
  intros Hsh. unfold passes_shared in Hsh. unfold get, get_or.
  destruct (lookup k kw) as [o|] eqn:E.
  - destruct (apart o (fresh_above_kw _ _ _ _ _ _ E) Hsh) as [Hd Hl].
    apply (changes_elsewhere o Hd Hl).
  - apply (changes_elsewhere ONone); reflexivity.
Qed.

(** The provenance list of the call, when it is not shared, is empty after
    the changes if it was so at the call. *)
Lemma empty_now :
  passes_shared kw "provenance" = false ->
  empty (now (list_object a0 (get_or kw "provenance" (OList a0 []))))
  = Runtime.is_nil
      (Runtime.list_of (Py.get_or (erase_dict kw) "provenance" (VList []))).
Proof.
  intros Hsh. unfold passes_shared in Hsh.
  change (VList []) with (erase (OList a0 [])). rewrite get_or_erase.
  unfold get_or.
  assert (Ia : forall l, list_at (issues_addr a0 s0) (OList a0 l) = false).
  { intros l. unfold list_at. apply Nat.eqb_neq. unfold issues_addr.
    destruct (safety_of_cases kw a0) as [(b & d & El & Es) | [Hk Es]];
      subst s0; rewrite Es; cbn [entries].
    - destruct (negb (has "issues" d) || negb (is_list (get d "issues"))) eqn:C;
        [lia|].
      apply orb_false_elim in C as [C _]. apply negb_false_iff in C.
      unfold has, get, get_or in *.
      destruct (lookup "issues" d) as [i|] eqn:Ei; [|discriminate].
      pose proof (lookup_In _ _ _ Ei) as Hin.
      pose proof (max_addr_items b (map snd d) i Hin) as M1.
      pose proof (fresh_above_kw type_ sender content kw "safety" _ El) as M2.
      pose proof (addr_max i). fold a0 in M2.
      assert (max_addr (OList b (map snd d)) <= max_addr (ODict b d))%nat.
      { clear. cbn. induction d as [|x d IH]; cbn; lia. }
      pose proof (max_addr_items O (type_ :: sender :: content :: map snd kw)
                    (ODict b d)
                    ltac:(do 3 right; eapply lookup_In; eauto)) as M3.
      subst a0. unfold fresh_addr.
      set (m := max_addr (OList 0 (type_ :: sender :: content :: map snd kw))) in *.
      set (mi := max_addr i) in *. set (md := max_addr (ODict b d)) in *.
      set (ml := max_addr (OList b (map snd d))) in *. lia.
    - change (a0 <> (a0 + 3)%nat). lia. }
  destruct (lookup "provenance" kw) as [o|] eqn:E.
  - destruct o as [ | | | | | a l | b d]; cbn [list_object];
      try match goal with
          | |- empty (now (OList a0 ?l)) = _ =>
              destruct (changes_elsewhere (OList a0 l) eq_refl (Ia l)) as [_ ->];
              reflexivity
          end.
    destruct (apart (OList a l) (fresh_above_kw _ _ _ _ _ _ E) Hsh) as [Hd Hl].
    destruct (changes_elsewhere (OList a l) Hd Hl) as [_ ->].
    now destruct l.
  - cbn [list_object].
    destruct (changes_elsewhere (OList a0 []) eq_refl (Ia _)) as [_ ->].
    reflexivity.
Qed.

Variable e : Env.

Let msg := erase_dict (assemble e type_ sender content kw confidence).
Let p0 := list_object a0 (get_or kw "provenance" (OList a0 [])).

Lemma assemble_obj_type :
  Runtime.msg_type msg = PyStr.lower (PyStr.strip (Py.str (erase type_))).
Proof.
  unfold Runtime.msg_type.
  change (Py.get msg "type")
    with (VStr (PyStr.lower (PyStr.strip (Py.str (erase type_))))).
  destruct (builder_type_normal (erase type_)) as [_ Hs].
  set (t := PyStr.lower (PyStr.strip (Py.str (erase type_)))) in *.
  unfold Py.or_. cbn [Py.truthy].
  destruct t as [|a t']; [reflexivity|]. cbn [PyStr.is_empty negb Py.str]. exact Hs.
Qed.

Lemma assemble_obj_confidence :
  Py.get_or msg "confidence" VNone = VFloat confidence.
Proof. reflexivity. Qed.

Lemma assemble_obj_refers_to :
  Py.get msg "refers_to" = erase (now (get kw "refers_to")).
Proof. reflexivity. Qed.

Lemma now_list (o : obj) : is_list o = true -> exists a l, now o = OList a l.
Proof.
  destruct o as [ | | | | | a l | ]; try discriminate. intros _.
  destruct (changes_keeps (OList a l)) as (K & _ & _). specialize (K a).
  cbn [list_at] in K. rewrite Nat.eqb_refl in K. fold now in K.
  destruct (now (OList a l)) as [ | | | | | a' l' | ]; try discriminate. eauto.
Qed.

Lemma p0_list : is_list p0 = true.
Proof.
  subst p0. unfold get_or. destruct (lookup "provenance" kw) as [[]|]; reflexivity.
Qed.

(** The validator reads the provenance of the message as empty when the
    provenance list is empty after the changes. *)
Lemma assemble_obj_prov :
  Runtime.is_nil (Runtime.msg_prov_list msg) = empty (now p0).
Proof.
  unfold Runtime.msg_prov_list.
  change (Py.get_or msg "provenance" (VList [])) with (erase (now p0)).
  destruct (now_list p0 p0_list) as (a & l & ->). cbn. now destruct l.
Qed.

(** The validator reads the level of a safety dict that has one. *)
Lemma level_of_dict (m : dict) (b : nat) (d : odict) :
  Py.get m "safety" = erase (ODict b d) ->
  has "level" d = true ->
  Runtime.msg_safety_level m
  = Py.str (Py.or_ (erase (get d "level")) (VStr "safe")).
Proof.
  intros Em Hl. unfold Runtime.msg_safety_level. rewrite Em.
  cbn [erase Py.is_dict]. fold (erase_dict d). rewrite <- get_erase.
  unfold Py.or_ at 2. cbn [Py.truthy].
  destruct d as [|kv d']; [discriminate|]. reflexivity.
Qed.

(** The rule of lines 74-76 never fails on the message of the builder,
    whatever the objects of the call share. *)
Lemma assemble_obj_earned :
  (forall f : float, (f =? 0)%float = true ->
                     String.eqb (float_repr f) "review" = false) ->
  Runtime.high_confidence confidence
  && Runtime.is_nil (Runtime.msg_prov_list msg)
  && negb (String.eqb (Runtime.msg_safety_level msg) "review")
  = false.
Proof.
  intros Hzero. rewrite assemble_obj_prov.
  destruct (safety_of_dict kw a0) as (b & d & Es).
  destruct (normal_safety a0 s0) as (d2 & E2 & L2 & A2);
    [subst s0; now rewrite Es|].
  set (s2 := set_level (set_issues a0 s0 s0) (set_issues a0 s0 s0)) in *.
  set (p2 := set_level (set_issues a0 s0 s0) (set_issues a0 s0 p0)).
  assert (En : forall o, now o
                         = escalate a0 confidence p2 s2
                             (set_level (set_issues a0 s0 s0) (set_issues a0 s0 o)))
    by reflexivity.
  assert (Sm : Py.get msg "safety" = erase (now s0)) by reflexivity.
  rewrite (En p0), (En s0) in *. fold s2 p2 in Sm |- *.
  unfold escalate in *. destruct (escalates confidence p2 s2) eqn:Esc.
  - rewrite E2 in Sm. cbn [setitem_at] in Sm. rewrite Nat.eqb_refl in Sm.
    cbn [append_at] in Sm.
    rewrite (level_of_dict msg _ _ Sm).
    + unfold get, get_or. rewrite olookup_map, olookup_set_eq. cbn.
      now rewrite !andb_false_r.
    + unfold has. now rewrite olookup_map, olookup_set_eq.
  - rewrite E2 in Sm. rewrite (level_of_dict msg _ _ Sm L2).
    unfold escalates in Esc. rewrite E2 in Esc. cbn [entries] in Esc.
    destruct (Runtime.high_confidence confidence && empty p2) eqn:Ehp;
      [|reflexivity].
    cbn [andb] in *. apply negb_false_iff in Esc. apply negb_false_iff.
    unfold Py.or_. now rewrite (str_review_truthy _ Hzero Esc).
Qed.

End OneCall.

(** The semantic check of the message that the builder assembled, on
    objects: what can fail are the evidence rule and the response and
    correction rule, read on the message as it is after the changes. *)
Lemma validate_assembled (e : Env) (type_ sender content : obj) (kw : odict)
    (c : float) :
  (forall f : float, (f =? 0)%float = true ->
                     String.eqb (float_repr f) "review" = false) ->
  let msg := erase_dict (assemble e type_ sender content kw c) in
  let t := PyStr.lower (PyStr.strip (Py.str (erase type_))) in
  Runtime._semantic_validate msg
  = match Runtime.evidence_rule t (Py.get msg "refers_to")
            (Runtime.msg_prov_list msg) with
    | Some err => (false, Some err)
    | None =>
        match Runtime.reference_rule t (Py.get msg "refers_to") with
        | Some err => (false, Some err)
        | None => (true, None)
        end
    end.
Proof.
  intros Hzero msg t.
  rewrite (_semantic_validate_rules msg c).
  - subst msg. rewrite (assemble_obj_earned _ _ _ _ _ _ Hzero).
    now rewrite assemble_obj_type.
  - subst msg. rewrite assemble_obj_type. symmetry. apply lower_lower.
  - reflexivity.
Qed.

(** X3.  The builder and the validator agree, on objects: on the message
    that the builder assembled, as it is after the changes in place, the
    semantic check can fail on the evidence rule and on the response and
    correction rule only; the type and confidence checks pass, and the
    escalation makes the high-confidence rule pass.  The reference and the
    provenance that these two rules read are those of the call when the call
    does not pass the safety dict or its issues list as that argument too.
    So a call whose confidence converts, whose message the schema accepts
    and which passes the two rules returns its message. *)
Theorem builder_meets_validator (e : Env) (type_ sender content : obj)
    (kw : odict) (c : float) :
  (forall f : float, (f =? 0)%float = true ->
                     String.eqb (float_repr f) "review" = false) ->
  let msg := erase_dict (assemble e type_ sender content kw c) in
  let t := PyStr.lower (PyStr.strip (Py.str (erase type_))) in
  Runtime._semantic_validate msg
  = match Runtime.evidence_rule t (Py.get msg "refers_to")
            (Runtime.msg_prov_list msg) with
    | Some err => (false, Some err)
    | None =>
        match Runtime.reference_rule t (Py.get msg "refers_to") with
        | Some err => (false, Some err)
        | None => (true, None)
        end
    end
  /\ (passes_shared kw "refers_to" = false ->
      Py.truthy (Py.get msg "refers_to")
      = Py.truthy (Py.get (erase_dict kw) "refers_to"))
  /\ (passes_shared kw "provenance" = false ->
      Runtime.is_nil (Runtime.msg_prov_list msg)
      = Runtime.is_nil
          (Runtime.list_of (Py.get_or (erase_dict kw) "provenance" (VList []))))
  /\ (Py.float_ (erase (get_or kw "confidence" (OFloat 1))) = Ok c ->
      jsonschema_validate (VDict msg) = None ->
      Runtime.evidence_rule t (Py.get msg "refers_to") (Runtime.msg_prov_list msg)
      = None ->
      Runtime.reference_rule t (Py.get msg "refers_to") = None ->
      make_message e type_ sender content kw
      = Ok (assemble e type_ sender content kw c)).
Proof.
  intros Hzero msg t.
  pose proof (validate_assembled e type_ sender content kw c Hzero) as Hv.
  cbv zeta in Hv. fold msg t in Hv.
  split; [exact Hv|]. split; [|split].
  - intros Hsh. subst msg. rewrite assemble_obj_refers_to, get_erase.
    now apply truthy_now.
  - intros Hsh. subst msg. rewrite assemble_obj_prov. now apply empty_now.
  - intros Hc Hs He Hr. unfold make_message. rewrite Hc. cbv zeta.
    fold msg. unfold Runtime.validate_vlp. rewrite Hs, Hv, He, Hr. reflexivity.
Qed.

(** C3, as amended.  A call of [make_message] with type "evidence" that
    lacks [refers_to], or whose provenance normalizes to the empty list, and
    that passes neither the safety dict of the call nor the list under its
    ["issues"] as [refers_to] or as [provenance]: the call raises.  When
    the confidence converts and the schema accepts the assembled message,
    the error is the [ValueError] of the evidence rule: it names [refers_to]
    when the reference is missing, also when the provenance is missing too,
    and [provenance] when only the provenance is missing. *)
Theorem C3_evidence_needs_reference_and_provenance (e : Env)
    (type_ sender content : obj) (kw : odict) :
  PyStr.lower (PyStr.strip (Py.str (erase type_))) = "evidence" ->
  passes_shared kw "refers_to" = false ->
  passes_shared kw "provenance" = false ->
  Py.truthy (Py.get (erase_dict kw) "refers_to") = false
  \/ Runtime.list_of (Py.get_or (erase_dict kw) "provenance" (VList [])) = [] ->
  (exists err : exn, make_message e type_ sender content kw = Raise err)
  /\ (forall c : float,
        Py.float_ (erase (get_or kw "confidence" (OFloat 1))) = Ok c ->
        jsonschema_validate
          (VDict (erase_dict (assemble e type_ sender content kw c))) = None ->
        make_message e type_ sender content kw
        = Raise (ValueError
                   (if Py.truthy (Py.get (erase_dict kw) "refers_to")
                    then "VLP validation failed: evidence messages must include non-empty provenance"
                    else "VLP validation failed: evidence messages must include refers_to"))).
Proof.
  intros Ht Hsr Hsp Hmiss.
  assert (Hex : forall c : float,
            Py.float_ (erase (get_or kw "confidence" (OFloat 1))) = Ok c ->
            jsonschema_validate
              (VDict (erase_dict (assemble e type_ sender content kw c))) = None ->
            make_message e type_ sender content kw
            = Raise (ValueError
                       (if Py.truthy (Py.get (erase_dict kw) "refers_to")
                        then "VLP validation failed: evidence messages must include non-empty provenance"
                        else "VLP validation failed: evidence messages must include refers_to"))).
  { intros c Hc Hs. unfold make_message. rewrite Hc. cbv zeta.
    unfold Runtime.validate_vlp. rewrite Hs.
    rewrite (_semantic_validate_rules _ c);
      [| rewrite assemble_obj_type; symmetry; apply lower_lower | reflexivity].
    rewrite assemble_obj_type, Ht. unfold Runtime.evidence_rule.
    cbn [String.eqb Ascii.eqb Bool.eqb andb].
    rewrite assemble_obj_refers_to, (truthy_now _ _ _ _ _ _ Hsr), <- get_erase.
    pose proof (assemble_obj_prov type_ sender content kw c e) as Hp.
    rewrite (empty_now _ _ _ _ _ Hsp) in Hp.
    destruct (Py.truthy (Py.get (erase_dict kw) "refers_to")); [|reflexivity].
    destruct Hmiss as [Hf | Hn]; [discriminate|].
    rewrite Hn in Hp. cbn [Runtime.is_nil] in Hp. cbn [negb].
    now rewrite Hp. }
  split; [|exact Hex].
  destruct (Py.float_ (erase (get_or kw "confidence" (OFloat 1)))) as [c|err] eqn:Hc.
  - destruct (jsonschema_validate
                (VDict (erase_dict (assemble e type_ sender content kw c)))) eqn:Hs.
    + unfold make_message. rewrite Hc. cbv zeta.
      unfold Runtime.validate_vlp. rewrite Hs. eauto.
    + rewrite (Hex c eq_refl Hs). eauto.
  - unfold make_message. rewrite Hc. eauto.
Qed.

End ObjectBuilder.

(* ===================================================================== *)
(** * The builder on objects and the builder on values *)
(* ===================================================================== *)

(** A list or a dict at the address [a] is [o], or is somewhere inside
    [o]. *)
Fixpoint occurs (a : nat) (o : obj) : bool :=
  match o with
  | OList b l => Nat.eqb b a || existsb (occurs a) l
  | ODict b d => Nat.eqb b a || existsb (fun kv => occurs a (snd kv)) d
  | _ => false
  end.

(** No object of [l] is or holds the list or dict at [a]. *)
Definition free_of (a : nat) (l : list obj) : bool :=
  forallb (fun o => negb (occurs a o)) l.

(** The entries of [d] but the one that [d[k]] reads. *)
Fixpoint without (k : string) (d : odict) : odict :=
  match d with
  | [] => []
  | (k', v) :: d' => if String.eqb k k' then d' else (k', v) :: without k d'
  end.

(** The safety dict of the call and the list under its ["issues"] are each
    passed once: neither is another argument of the call or inside one, and
    neither is inside itself or inside the other entries of the dict. *)
Definition passes_once (type_ sender content : obj) (kw : odict) : bool :=
  match Obj.lookup "safety" kw with
  | Some (ODict b d) =>
      let rest := type_ :: sender :: content :: map snd (without "safety" kw) in
      free_of b rest && free_of b (map snd d)
      && match Obj.lookup "issues" d with
         | Some (OList i l) =>
             free_of i rest && free_of i l
             && free_of i (map snd (without "issues" d))
         | _ => true
         end
  | _ => true
  end.

Section ObjectsAndValues.
Context {H : Host}.
Import Obj.

Lemma setitem_absent (a : nat) (k : string) (v : obj) :
  forall o : obj, occurs a o = false -> setitem_at a k v o = o.
Proof.
  fix IH 1. intros [ | | | | | b l | b d]; cbn [occurs setitem_at]; try reflexivity.
  - intros [_ Hl]%orb_false_elim. f_equal.
    induction l as [|x l IHl]; [reflexivity|].
    cbn [existsb map] in *. apply orb_false_elim in Hl as [Hx Hl].
    now rewrite (IH x Hx), IHl.
  - intros [Hb Hd]%orb_false_elim. rewrite Hb. f_equal.
    induction d as [|[k' x] d IHd]; [reflexivity|].
    cbn [existsb map fst snd] in *. apply orb_false_elim in Hd as [Hx Hd].
    now rewrite (IH x Hx), IHd.
Qed.

Lemma append_absent (a : nat) (v : obj) :
  forall o : obj, occurs a o = false -> append_at a v o = o.
Proof.
  fix IH 1. intros [ | | | | | b l | b d]; cbn [occurs append_at]; try reflexivity.
  - intros [Hb Hl]%orb_false_elim. rewrite Hb, app_nil_r. f_equal.
    induction l as [|x l IHl]; [reflexivity|].
    cbn [existsb map] in *. apply orb_false_elim in Hl as [Hx Hl].
    now rewrite (IH x Hx), IHl.
  - intros [_ Hd]%orb_false_elim. f_equal.
    induction d as [|[k' x] d IHd]; [reflexivity|].
    cbn [existsb map fst snd] in *. apply orb_false_elim in Hd as [Hx Hd].
    now rewrite (IH x Hx), IHd.
Qed.

(** An address above those of an object is not in it. *)
Lemma occurs_above (a : nat) :
  forall o : obj, (max_addr o < a)%nat -> occurs a o = false.
Proof.
  fix IH 1. intros [ | | | | | b l | b d]; cbn [occurs max_addr]; try reflexivity.
  - intros Hm. apply orb_false_intro.
    + apply Nat.eqb_neq. induction l as [|x l IHl]; cbn in *; lia.
    + induction l as [|x l IHl]; [reflexivity|]. cbn [existsb fold_right] in *.
      apply orb_false_intro; [apply IH; lia | apply IHl; lia].
  - intros Hm. apply orb_false_intro.
    + apply Nat.eqb_neq. induction d as [|x d IHd]; cbn in *; lia.
    + induction d as [|x d IHd]; [reflexivity|]. cbn [existsb fold_right] in *.
      apply orb_false_intro; [apply IH; lia | apply IHd; lia].
Qed.

Lemma occurs_list (a b : nat) (l : list obj) :
  b <> a -> (forall o, In o l -> occurs a o = false) -> occurs a (OList b l) = false.
Proof.
  intros Hb Hl. cbn [occurs]. apply orb_false_intro; [now apply Nat.eqb_neq|].
  induction l as [|x l IHl]; [reflexivity|]. cbn [existsb].
  apply orb_false_intro; [apply Hl; now left | apply IHl; intros o Ho; apply Hl; now right].
Qed.

Lemma free_of_In (a : nat) (l : list obj) (o : obj) :
  free_of a l = true -> In o l -> occurs a o = false.
Proof.
  unfold free_of. rewrite forallb_forall. intros Hl Hin.
  apply negb_true_iff. now apply Hl.
Qed.

Lemma lookup_without (k k' : string) (d : odict) :
  k <> k' -> lookup k' (without k d) = lookup k' d.
Proof.
  intros Hk. induction d as [|[k0 v] d IH]; [reflexivity|]. cbn.
  destruct (String.eqb k k0) eqn:E.
  - apply String.eqb_eq in E. subst k0.
    destruct (String.eqb k' k) eqn:E'; [|reflexivity].
    apply String.eqb_eq in E'. congruence.
  - cbn. now rewrite IH.
Qed.

Lemma map_absent (f : obj -> obj) (d : odict) :
  (forall o, In o (map snd d) -> f o = o) ->
  map (fun kv => (fst kv, f (snd kv))) d = d.
Proof.
  induction d as [|[k x] d IH]; [reflexivity|]. cbn. intros Hall.
  rewrite (Hall x) by now left. f_equal. apply IH. intros o Ho. apply Hall. now right.
Qed.

(** A change that leaves the other entries as they are is a change of the
    entry that [d[k]] reads. *)
Lemma map_at_key (f : obj -> obj) (k : string) (d : odict) (v : obj) :
  lookup k d = Some v ->
  (forall o, In o (map snd (without k d)) -> f o = o) ->
  map (fun kv => (fst kv, f (snd kv))) d = set k (f v) d.
Proof.
  induction d as [|[k' x] d IH]; [discriminate|]. cbn.
  destruct (String.eqb k k') eqn:E.
  - intros [= ->] Hall. apply String.eqb_eq in E. subst k'. f_equal.
    now apply map_absent.
  - intros Hv Hall. cbn in Hall. rewrite (Hall x) by now left. f_equal.
    apply IH; [exact Hv|]. intros o Ho. apply Hall. now right.
Qed.

Lemma In_without (k : string) (d : odict) (o : obj) :
  In o (map snd (without k d)) -> In o (map snd d).
Proof.
  induction d as [|[k' x] d IH]; [easy|]. cbn.
  destruct (String.eqb k k'); [now right|]. cbn. intros [-> | Ho]; auto.
Qed.

Lemma In_set (k : string) (v : obj) (d : odict) (o : obj) :
  In o (map snd (set k v d)) -> o = v \/ In o (map snd d).
Proof.
  induction d as [|[k' x] d IH]; cbn.
  - intros [<- | []]. now left.
  - destruct (String.eqb k k'); cbn.
    + intros [<- | Ho]; auto.
    + intros [<- | Ho]; auto. destruct (IH Ho); auto.
Qed.

Lemma In_without_set_eq (k : string) (v : obj) (d : odict) (o : obj) :
  In o (map snd (without k (set k v d))) -> In o (map snd (without k d)).
Proof.
  induction d as [|[k' x] d IH]; cbn.
  - now rewrite String.eqb_refl.
  - destruct (String.eqb k k') eqn:E; cbn.
    + now rewrite String.eqb_refl.
    + rewrite E. cbn. intros [<- | Ho]; auto.
Qed.

Lemma In_without_set_ne (k k' : string) (v : obj) (d : odict) (o : obj) :
  k <> k' ->
  In o (map snd (without k (set k' v d))) -> o = v \/ In o (map snd (without k d)).
Proof.
  intros Hk. induction d as [|[k0 x] d IH]; cbn.
  - destruct (String.eqb k k') eqn:E; [apply String.eqb_eq in E; congruence|].
    cbn. intros [<- | []]. now left.
  - destruct (String.eqb k' k0) eqn:E; cbn.
    + apply String.eqb_eq in E. subst k0.
      destruct (String.eqb k k') eqn:E'; [apply String.eqb_eq in E'; congruence|].
      cbn. intros [<- | Ho]; auto.
    + destruct (String.eqb k k0) eqn:E'.
      * intros Ho. destruct (In_set _ _ _ _ Ho); auto.
      * cbn. intros [<- | Ho]; auto. destruct (IH Ho); auto.
Qed.

(** The value of what the operations on objects give. *)
Lemma erase_set (k : string) (v : obj) (d : odict) :
  erase_dict (set k v d) = Py.set k (erase v) (erase_dict d).
Proof.
  induction d as [|[k' x] d IH]; [reflexivity|].
  cbn [set erase_dict map fst snd Py.set].
  destruct (String.eqb k k'); [reflexivity|].
  cbn [erase_dict map fst snd]. f_equal. exact IH.
Qed.

Lemma has_erase (k : string) (d : odict) : Py.has k (erase_dict d) = has k d.
Proof. unfold Py.has, has. rewrite olookup_erase. now destruct (lookup k d). Qed.

Lemma is_list_erase (o : obj) : Py.is_list (erase o) = is_list o.
Proof. now destruct o. Qed.

Lemma erase_or (a b : obj) : erase (or_ a b) = Py.or_ (erase a) (erase b).
Proof. unfold or_, Py.or_. now destruct (Py.truthy (erase a)). Qed.

Lemma erase_list_object (a : nat) (v : obj) :
  erase (list_object a v) = VList (Runtime.list_of (erase v)).
Proof. destruct v; reflexivity. Qed.

End ObjectsAndValues.

Section ObjectsAndValuesOfACall.
Context {H : Host}.
Import Obj.

Lemma setitem_here (b : nat) (k : string) (v : obj) (d : odict) :
  free_of b (map snd d) = true ->
  setitem_at b k v (ODict b d) = ODict b (set k v d).
Proof.
  intros Hd. cbn [setitem_at]. rewrite Nat.eqb_refl. f_equal. f_equal.
  apply map_absent. intros o Ho. apply setitem_absent. eapply free_of_In; eauto.
Qed.

Lemma free_of_set (a : nat) (k : string) (v : obj) (d : odict) :
  occurs a v = false -> free_of a (map snd d) = true ->
  free_of a (map snd (set k v d)) = true.
Proof.
  intros Hv Hd. unfold free_of. apply forallb_forall. intros o Ho.
  apply negb_true_iff. destruct (In_set _ _ _ _ Ho) as [-> | Hin]; [exact Hv|].
  eapply free_of_In; eauto.
Qed.

(** Lines 129-140 on a safety dict that is in none of its entries, and
    whose list of issues is neither in itself nor in the other entries: the
    value of the dict after the changes is what these lines give on its
    value. *)
Lemma safety_on_values (a0 b : nat) (d : odict) (c : float) (p : obj)
    (prov : list pyval) :
  free_of b (map snd d) = true ->
  b <> (a0 + 4)%nat ->
  free_of (a0 + 4) (map snd d) = true ->
  match lookup "issues" d with
  | Some (OList i l) =>
      free_of i l && free_of i (map snd (without "issues" d)) = true
  | _ => True
  end ->
  Runtime.is_nil prov = empty p ->
  let s0 := ODict b d in
  let g1 := set_issues a0 s0 in
  let g2 := set_level (g1 s0) in
  let g3 := escalate a0 c p (g2 (g1 s0)) in
  let sd := erase_dict d in
  let sd1 :=
    if negb (Py.has "issues" sd) || negb (Py.is_list (Py.get sd "issues"))
    then Py.set "issues" (VList []) sd else sd in
  let sd2 := if negb (Py.has "level" sd1) then Py.set "level" (VStr "safe") sd1 else sd1 in
  erase (g3 (g2 (g1 s0))) = VDict (Runtime.escalate c prov sd2).
Proof.
  intros Hb Hne Hfresh Hi Hp. cbv zeta.
  unfold set_issues. cbn [entries addr].
  rewrite has_erase, get_erase, is_list_erase.
  set (cond := negb (has "issues" d) || negb (is_list (get d "issues"))).
  set (d1 := if cond then set "issues" (OList (a0 + 4) []) d else d).
  assert (E1 : (if cond then setitem_at b "issues" (OList (a0 + 4) []) else fun o => o)
                 (ODict b d) = ODict b d1).
  { subst d1. destruct cond; [now apply setitem_here | reflexivity]. }
  rewrite E1.
  assert (S1 : (if cond then Py.set "issues" (VList []) (erase_dict d) else erase_dict d)
               = erase_dict d1).
  { subst d1. destruct cond; [now rewrite erase_set | reflexivity]. }
  rewrite S1.
  assert (Hb1 : free_of b (map snd d1) = true).
  { subst d1. destruct cond; [|exact Hb]. apply free_of_set; [|exact Hb].
    cbn. rewrite orb_false_r. apply Nat.eqb_neq. lia. }
  (* the list under "issues" of d1 *)
  assert (L1 : exists i l,
             lookup "issues" d1 = Some (OList i l)
             /\ free_of i l = true
             /\ (forall o, In o (map snd (without "issues" d1)) -> occurs i o = false)).
  { subst d1. destruct cond eqn:C.
    - exists (a0 + 4)%nat, []. split; [apply olookup_set_eq|]. split; [reflexivity|].
      intros o Ho. apply In_without_set_eq, In_without in Ho.
      eapply free_of_In; eauto.
    - subst cond. apply orb_false_elim in C as [C1 C2].
      apply negb_false_iff in C1, C2. unfold has, get, get_or in *.
      destruct (lookup "issues" d) as [[ | | | | | i l | ]|]; try discriminate.
      apply andb_prop in Hi as [Hi1 Hi2]. exists i, l. split; [reflexivity|].
      split; [exact Hi1|]. intros o Ho. eapply free_of_In; eauto. }
  destruct L1 as (i & l & Li & Hil & Hio).
  unfold set_level. cbn [entries addr]. rewrite has_erase.
  set (d2 := if negb (has "level" d1) then set "level" (OStr "safe") d1 else d1).
  assert (E2 : (if negb (has "level" d1) then setitem_at b "level" (OStr "safe")
                else fun o => o) (ODict b d1) = ODict b d2).
  { subst d2. destruct (negb (has "level" d1)); [now apply setitem_here | reflexivity]. }
  rewrite E2.
  assert (S2 : (if negb (has "level" d1) then Py.set "level" (VStr "safe") (erase_dict d1)
                else erase_dict d1) = erase_dict d2).
  { subst d2. destruct (negb (has "level" d1)); [now rewrite erase_set | reflexivity]. }
  rewrite S2.
  assert (Hb2 : free_of b (map snd d2) = true).
  { subst d2. destruct (negb (has "level" d1)); [|exact Hb1].
    now apply free_of_set. }
  assert (Li2 : lookup "issues" d2 = Some (OList i l)).
  { subst d2. destruct (negb (has "level" d1)); [|exact Li].
    now rewrite olookup_set_ne by discriminate. }
  assert (Hio2 : forall o, In o (map snd (without "issues" d2)) -> occurs i o = false).
  { subst d2. destruct (negb (has "level" d1)); [|exact Hio].
    intros o Ho. apply In_without_set_ne in Ho as [-> | Ho]; [reflexivity| |discriminate].
    now apply Hio. }
  unfold escalate, escalates, Runtime.escalate. cbn [entries addr].
  rewrite Hp, get_erase.
  destruct (Runtime.high_confidence c && empty p
            && negb (String.eqb (Py.str (erase (get d2 "level"))) "review"));
    [|reflexivity].
  rewrite (setitem_here b "level" (OStr "review") d2 Hb2).
  set (d3 := set "level" (OStr "review") d2).
  assert (Li3 : lookup "issues" d3 = Some (OList i l)).
  { subst d3. now rewrite olookup_set_ne by discriminate. }
  assert (Ai : addr (get d2 "issues") = i).
  { unfold get, get_or. now rewrite Li2. }
  rewrite Ai. cbn [append_at].
  rewrite (map_at_key (append_at i (escalation_issue a0)) "issues" d3 (OList i l) Li3).
  - cbn [append_at]. rewrite Nat.eqb_refl.
    assert (Hl : map (append_at i (escalation_issue a0)) l = l).
    { clear -Hil. induction l as [|x l IHl]; [reflexivity|].
      cbn [free_of forallb map] in *. apply andb_prop in Hil as [Hx Hl].
      apply negb_true_iff in Hx. now rewrite (append_absent _ _ x Hx), IHl. }
    rewrite Hl. cbn [erase]. fold (erase_dict (set "issues"
      (OList i (l ++ [escalation_issue a0])) d3)).
    rewrite erase_set. subst d3. rewrite erase_set.
    unfold Runtime.append_issue.
    assert (G : Py.get (Py.set "level" (erase (OStr "review")) (erase_dict d2)) "issues"
                = VList (map erase l)).
    { rewrite <- erase_set, get_erase. unfold get, get_or.
      rewrite olookup_set_ne by discriminate. now rewrite Li2. }
    cbn [erase] in G. cbn [erase]. rewrite G, map_app. reflexivity.
  - intros o Ho. apply append_absent. subst d3.
    apply In_without_set_ne in Ho as [-> | Ho]; [reflexivity| |discriminate].
    now apply Hio2.
Qed.

(** The new safety dict of lines 126-128 is such a dict. *)
Lemma new_safety_free (a0 : nat) :
  let d := [("level", OStr "safe"); ("issues", OList (a0 + 3) [])] in
  free_of (a0 + 2) (map snd d) = true
  /\ free_of (a0 + 4) (map snd d) = true
  /\ match lookup "issues" d with
     | Some (OList i l) =>
         free_of i l && free_of i (map snd (without "issues" d)) = true
     | _ => True
     end.
Proof.
  cbn. rewrite !orb_false_r, !andb_true_r.
  split; [|split; [|reflexivity]]; apply negb_true_iff, Nat.eqb_neq; lia.
Qed.

End ObjectsAndValuesOfACall.

Section OneCallOnValues.
Context {H : Host}.
Import Obj.
Variables (type_ sender content : obj) (kw : odict) (confidence : float).
Hypothesis Honce : passes_once type_ sender content kw = true.

Let a0 := fresh_addr type_ sender content kw.
Let s0 := safety_of kw a0.
Let now := changes type_ sender content kw confidence.
Let rest := type_ :: sender :: content :: map snd (without "safety" kw).

Lemma max_addr_entry (b : nat) (d : odict) (o : obj) :
  In o (map snd d) -> (max_addr o <= max_addr (ODict b d))%nat.
Proof.
  cbn. induction d as [|[k x] d IH]; [easy|]. cbn. intros [-> | Hin]; [lia|].
  specialize (IH Hin). lia.
Qed.

Lemma rest_below (o : obj) : In o rest -> (max_addr o < a0)%nat.
Proof.
  intros Ho. subst a0. unfold fresh_addr.
  pose proof (max_addr_items O (type_ :: sender :: content :: map snd kw) o) as M.
  assert (Hin : In o (type_ :: sender :: content :: map snd kw)).
  { subst rest. cbn in Ho. cbn.
    destruct Ho as [? | [? | [? | Ho]]]; auto. do 3 right. eapply In_without; eauto. }
  specialize (M Hin). lia.
Qed.

Lemma kw_below (k : string) (o : obj) : lookup k kw = Some o -> (max_addr o < a0)%nat.
Proof.
  intros E. subst a0. unfold fresh_addr.
  pose proof (max_addr_items O (type_ :: sender :: content :: map snd kw) o) as M.
  specialize (M ltac:(do 3 right; eapply lookup_In; eauto)). lia.
Qed.

(** Where the two objects that the call changes are. *)
Lemma changed_addresses :
  ((addr s0 < a0)%nat \/ addr s0 = (a0 + 2)%nat)
  /\ ((issues_addr a0 s0 < a0)%nat \/ issues_addr a0 s0 = (a0 + 3)%nat
      \/ issues_addr a0 s0 = (a0 + 4)%nat).
Proof.
  destruct (safety_of_cases kw a0) as [(b & d & El & Es) | [_ Es]];
    subst s0; rewrite Es; unfold issues_addr; cbn [entries addr].
  - pose proof (kw_below _ _ El) as Mb. pose proof (addr_max (ODict b d)) as Ab.
    cbn [addr] in Ab. split; [left; lia|].
    destruct (negb (has "issues" d) || negb (is_list (get d "issues"))) eqn:C;
      [now right; right|].
    left. apply orb_false_elim in C as [C _]. apply negb_false_iff in C.
    unfold has, get, get_or in *.
    destruct (lookup "issues" d) as [i|] eqn:Ei; [|discriminate].
    pose proof (max_addr_entry b d i (lookup_In _ _ _ Ei)).
    pose proof (addr_max i). lia.
  - split; [now right|]. cbn. right. now left.
Qed.

(** The arguments of the call other than [safety] hold neither of them. *)
Lemma rest_free (o : obj) :
  In o rest -> occurs (addr s0) o = false /\ occurs (issues_addr a0 s0) o = false.
Proof.
  intros Ho. pose proof (rest_below o Ho) as Mo.
  destruct (safety_of_cases kw a0) as [(b & d & El & Es) | [_ Es]];
    subst s0; rewrite Es; unfold issues_addr; cbn [entries addr].
  - unfold passes_once in Honce. rewrite El in Honce. cbv zeta in Honce.
    fold rest in Honce.
    apply andb_prop in Honce as [Hb Hi]. apply andb_prop in Hb as [Hb _].
    split; [eapply free_of_In; eauto|].
    destruct (negb (has "issues" d) || negb (is_list (get d "issues"))) eqn:C;
      [apply occurs_above; lia|].
    apply orb_false_elim in C as [C1 C2]. apply negb_false_iff in C1, C2.
    unfold has, get, get_or in *.
    destruct (lookup "issues" d) as [[ | | | | | i l | ]|]; try discriminate.
    apply andb_prop in Hi as [Hi _]. apply andb_prop in Hi as [Hi _].
    cbn [addr]. eapply free_of_In; eauto.
  - split; [apply occurs_above; lia|].
    change (occurs (a0 + 3) o = false). apply occurs_above. lia.
Qed.

(** The changes leave an object that holds neither of the two as it is. *)
Lemma changes_absent (o : obj) :
  occurs (addr s0) o = false -> occurs (issues_addr a0 s0) o = false -> now o = o.
Proof.
  intros Hs Hi. subst now. unfold changes. fold a0. fold s0.
  destruct (safety_of_dict kw a0) as (b & d & Es).
  destruct (normal_safety a0 s0) as (d2 & E2 & _ & A2);
    [subst s0; now rewrite Es|].
  assert (A1 : addr (set_issues a0 s0 s0) = addr s0)
    by apply (set_issues_keeps type_ sender content kw).
  assert (G1 : set_issues a0 s0 o = o).
  { unfold set_issues. destruct (_ || _); [now apply setitem_absent | reflexivity]. }
  rewrite G1.
  assert (G2 : set_level (set_issues a0 s0 s0) o = o).
  { unfold set_level. rewrite A1.
    destruct (negb _); [now apply setitem_absent | reflexivity]. }
  rewrite G2.
  unfold escalate. destruct (escalates _ _ _); [|reflexivity].
  rewrite E2. cbn [entries addr]. rewrite A2.
  rewrite (setitem_absent _ _ _ o Hs). now apply append_absent.
Qed.

Lemma now_rest (o : obj) : In o rest -> now o = o.
Proof. intros Ho. destruct (rest_free o Ho). now apply changes_absent. Qed.

Lemma now_get (k : string) (dflt : obj) :
  k <> "safety" -> now dflt = dflt -> now (get_or kw k dflt) = get_or kw k dflt.
Proof.
  intros Hk Hd. unfold get_or. destruct (lookup k kw) as [o|] eqn:E; [|exact Hd].
  apply now_rest. subst rest. do 3 right.
  apply (lookup_In k). rewrite lookup_without; [exact E | congruence].
Qed.

(** A new list of the call, with items that hold neither of the two. *)
Lemma now_new_list (a : nat) (l : list obj) :
  (a = a0 \/ a = a0 + 1 \/ a = a0 + 6)%nat -> (forall o, In o l -> In o rest) ->
  now (OList a l) = OList a l.
Proof.
  intros Hn Hl. destruct changed_addresses as [As Ai].
  apply changes_absent; (apply occurs_list; [lia|]); intros o Ho;
    apply rest_free, Hl, Ho.
Qed.

Lemma now_list_object (a : nat) (k : string) :
  (a = a0 \/ a = a0 + 1)%nat -> k <> "safety" ->
  now (list_object a (get_or kw k (OList a [])))
  = list_object a (get_or kw k (OList a [])).
Proof.
  intros Hn Hk. unfold get_or. destruct (lookup k kw) as [o|] eqn:E.
  - assert (Ho : In o rest).
    { subst rest. do 3 right. apply (lookup_In k).
      rewrite lookup_without; [exact E | congruence]. }
    destruct o; cbn [list_object];
      try (apply now_new_list; [lia | intros o [<- | []]; exact Ho]);
      try (apply now_new_list; [lia | intros o []]).
    now apply now_rest.
  - cbn [list_object]. apply now_new_list; [lia | intros o []].
Qed.

(** The safety dict after the changes, as a value. *)
Lemma now_safety (prov : list pyval) :
  Runtime.is_nil prov
  = empty (list_object a0 (get_or kw "provenance" (OList a0 []))) ->
  erase (now s0)
  = VDict (Runtime.escalate confidence prov (Runtime.normalize_safety (erase_dict kw))).
Proof.
  intros Hp. subst now. unfold changes. fold a0. fold s0.
  assert (P0 : forall g1 g2 : obj -> obj,
             g1 = set_issues a0 s0 -> g2 = set_level (g1 s0) ->
             g2 (g1 (list_object a0 (get_or kw "provenance" (OList a0 []))))
             = list_object a0 (get_or kw "provenance" (OList a0 []))).
  { intros g1 g2 -> ->.
    set (p0 := list_object a0 (get_or kw "provenance" (OList a0 []))).
    assert (Hfree : occurs (addr s0) p0 = false).
    { subst p0. destruct changed_addresses as [As _]. unfold get_or.
      destruct (lookup "provenance" kw) as [o|] eqn:E.
      - assert (Ho : In o rest).
        { subst rest. do 3 right. apply (lookup_In "provenance").
          rewrite lookup_without; [exact E | discriminate]. }
        destruct (rest_free o Ho) as [Hs _].
        destruct o; cbn [list_object];
          first [ exact Hs
                | apply occurs_list; [lia | intros ? [<- | []]; exact Hs]
                | apply occurs_list; [lia | intros ? []] ].
      - cbn [list_object]. apply occurs_list; [lia | intros ? []]. }
    assert (A1 : addr (set_issues a0 s0 s0) = addr s0)
      by apply (set_issues_keeps type_ sender content kw).
    assert (G1 : set_issues a0 s0 p0 = p0).
    { unfold set_issues. destruct (_ || _); [now apply setitem_absent | reflexivity]. }
    rewrite G1. unfold set_level. rewrite A1.
    destruct (negb _); [now apply setitem_absent | reflexivity]. }
  rewrite (P0 _ _ eq_refl eq_refl).
  destruct (safety_of_cases kw a0) as [(b & d & El & Es) | [Hk Es]].
  - subst s0. rewrite Es.
    unfold passes_once in Honce. rewrite El in Honce. cbv zeta in Honce.
    apply andb_prop in Honce as [Hb Hi]. apply andb_prop in Hb as [_ Hb].
    pose proof (kw_below _ _ El) as Mb. pose proof (addr_max (ODict b d)) as Ab.
    cbn [addr] in Ab.
    rewrite (safety_on_values a0 b d confidence _ prov Hb); try assumption.
    + unfold Runtime.normalize_safety.
      change (VDict Runtime.default_safety)
        with (erase (ODict O [("level", OStr "safe"); ("issues", OList O [])])).
      rewrite get_or_erase. unfold get_or. rewrite El. reflexivity.
    + lia.
    + unfold free_of. apply forallb_forall. intros o Ho. apply negb_true_iff.
      apply occurs_above. pose proof (max_addr_entry b d o Ho). lia.
    + destruct (lookup "issues" d) as [[ | | | | | i l | ]|]; try exact I.
      apply andb_prop in Hi as [Hi H3]. apply andb_prop in Hi as [_ H2].
      now rewrite H2, H3.
  - subst s0. rewrite Es.
    destruct (new_safety_free a0) as (F2 & F4 & Fi).
    rewrite (safety_on_values a0 (a0 + 2) _ confidence _ prov F2 ltac:(lia) F4 Fi Hp).
    unfold Runtime.normalize_safety.
      assert (Ed : Py.get_or (erase_dict kw) "safety" (VDict Runtime.default_safety)
                   = VDict Runtime.default_safety
                   \/ exists v, Py.get_or (erase_dict kw) "safety"
                                  (VDict Runtime.default_safety) = v
                                /\ match v with VDict _ => False | _ => True end).
      { change (VDict Runtime.default_safety)
          with (erase (ODict O [("level", OStr "safe"); ("issues", OList O [])])).
        rewrite get_or_erase. unfold get, get_or in *.
        destruct (lookup "safety" kw) as [o|]; [|now left].
        destruct Hk as [-> | Hk]; [right; eexists; split; [reflexivity|exact I]|].
        right. eexists. split; [reflexivity|]. now destruct o. }
      destruct Ed as [-> | (v & -> & Hv)]; [reflexivity|].
      destruct v; try reflexivity. destruct Hv.
Qed.

Variable e : Env.

(** The message that the call assembles is, as a value, the message that
    the builder on values assembles from the values of the arguments. *)
Lemma assemble_on_values :
  erase_dict (assemble e type_ sender content kw confidence)
  = Runtime.assemble e (erase type_) (erase sender) (erase content)
      (erase_dict kw) confidence.
Proof.
  unfold assemble, Runtime.assemble. fold a0. fold now. fold s0.
  assert (N : forall k, k <> "safety" -> now (get kw k) = get kw k).
  { intros k Hk. apply (now_get k ONone Hk). apply changes_absent; reflexivity. }
  cbn [erase_dict map fst snd].
  rewrite !N by discriminate.
  rewrite (now_rest sender) by (subst rest; cbn; auto).
  rewrite (now_rest content) by (subst rest; cbn; auto).
  rewrite (now_list_object a0 "provenance") by (auto || discriminate).
  rewrite (now_list_object (a0 + 1) "constraints") by (auto || discriminate).
  rewrite (now_get "keywords" (OList (a0 + 6) []))
    by (discriminate || (apply now_new_list; [auto | intros o []])).
  rewrite (now_get "_extras" (ODict (a0 + 8) [])).
  2: discriminate.
  2: { destruct changed_addresses as [As Ai].
       apply changes_absent; cbn [occurs existsb]; rewrite orb_false_r;
         apply Nat.eqb_neq; lia. }
  rewrite !erase_or, !erase_list_object, !get_erase.
  rewrite (now_safety (Runtime.list_of (Py.get_or (erase_dict kw) "provenance" (VList [])))).
  - rewrite <- !get_or_erase. cbn [erase]. rewrite List.map_map. reflexivity.
  - change (VList []) with (erase (OList a0 [])). rewrite get_or_erase.
    destruct (get_or kw "provenance" (OList a0 [])) as [ | | | | | a l | b d];
      try reflexivity. cbn. now destruct l.
Qed.

End OneCallOnValues.

(** A call of [make_message] that passes the safety dict and its list of
    issues once does, on the values of its arguments, what
    [Runtime.make_message] does: it returns a message with the same value,
    or raises the same error. *)
Lemma make_message_on_values {H : Host} (e : Env) (type_ sender content : obj)
    (kw : odict) :
  passes_once type_ sender content kw = true ->
  Runtime.make_message e (Obj.erase type_) (Obj.erase sender) (Obj.erase content)
    (Obj.erase_dict kw)
  = match Obj.make_message e type_ sender content kw with
    | Ok msg => Ok (Obj.erase_dict msg)
    | Raise err => Raise err
    end.
Proof.
  intros Honce.
  unfold Runtime.make_message, Runtime.build_message, Obj.make_message.
  change (VFloat 1) with (Obj.erase (OFloat 1)). rewrite get_or_erase.
  destruct (Py.float_ (Obj.erase (Obj.get_or kw "confidence" (OFloat 1)))) as [c|err];
    [|reflexivity].
  cbv zeta. unfold Runtime.checked.
  rewrite <- (assemble_on_values type_ sender content kw c Honce e).
  destruct (Runtime.validate_vlp _) as [[|] err]; reflexivity.
Qed.

(** [repr] of a zero float on the reference host is "0.0" or "-0.0". *)
Lemma reference_repr_zero (f : float) :
  (f =? 0)%float = true ->
  String.eqb (Reference.float_repr f) "review" = false.
Proof.
  rewrite FloatAxioms.eqb_spec. unfold Reference.float_repr.
  destruct (Prim2SF f) as [s | s | | s m ex]; intros E.
  - destruct s; reflexivity.
  - destruct s; cbv in E; discriminate.
  - cbv in E. discriminate.
  - exfalso. destruct s; cbv in E; discriminate.
Qed.

(** The call of [test_evidence_requires_refers_to], on objects. *)
Definition bare_evidence_kw : odict := [("confidence", OFloat 0.8)].

(** An evidence call with a reference, at confidence 0.95, that passes one
    empty list both as [provenance] and under ["issues"] of [safety]. *)
Definition one_list : obj := OList 1 [].

Definition shared_list_kw : odict :=
  [("confidence", OFloat 0.95);
   ("refers_to", OStr "MSG001");
   ("provenance", one_list);
   ("safety", ODict 2 [("level", OStr "safe"); ("issues", one_list)])].

(** An evidence call without a reference whose confidence is no number. *)
Definition no_number_kw : odict := [("confidence", OStr "abc")].

(** C3 on the call of [test_evidence_requires_refers_to]: it raises, with
    the error that names [refers_to]. *)
Lemma C3_evidence_witness :
  (exists err : exn,
     @Obj.make_message reference_host env0 (OStr "evidence") (OStr "Test")
       (OStr "Evidence without ref") bare_evidence_kw = Raise err)
  /\ @Obj.make_message reference_host env0 (OStr "evidence") (OStr "Test")
       (OStr "Evidence without ref") bare_evidence_kw
     = Raise (ValueError
                "VLP validation failed: evidence messages must include refers_to").
Proof.
  destruct (@C3_evidence_needs_reference_and_provenance reference_host env0
              (OStr "evidence") (OStr "Test") (OStr "Evidence without ref")
              bare_evidence_kw eq_refl eq_refl eq_refl (or_introl eq_refl))
    as [Hr Hex].
  split; [exact Hr|]. exact (Hex 0.8%float eq_refl eq_refl).
Defined.

(** C3 as first stated fails on two calls of type "evidence".  One has no
    reference and a confidence that is no number: it raises the error of
    [float], which names neither [refers_to] nor [provenance].  The other
    passes an empty list as [provenance], the same list that is under
    ["issues"] of its [safety]: the escalation appends its issue to that
    list before the validator runs, and the call returns a message whose
    provenance is that issue. *)
Lemma C3_counterexample :
  (@Obj.make_message reference_host env0 (OStr "evidence") (OStr "Test")
     (OStr "Evidence without ref") no_number_kw
   = Raise (ValueError "could not convert string to float: 'abc'")
   /\ PyStr.contains "refers_to" "could not convert string to float: 'abc'" = false
   /\ PyStr.contains "provenance" "could not convert string to float: 'abc'" = false)
  /\ (Runtime.list_of (Py.get_or (Obj.erase_dict shared_list_kw) "provenance" (VList []))
      = []
      /\ exists msg : odict,
           @Obj.make_message reference_host env0 (OStr "evidence") (OStr "Test")
             (OStr "Shared list") shared_list_kw = Ok msg
           /\ Py.get (Obj.erase_dict msg) "provenance"
              = VList [Runtime.escalation_issue]).
Proof.
  split; [repeat split; reflexivity|]. split; [reflexivity|].
  eexists. split; reflexivity.
Qed.

(** X3 on the call that shares a list: the provenance that the validator
    reads is not the empty list of the call, and the message is returned. *)
Lemma builder_meets_validator_witness :
  @Obj.make_message reference_host env0 (OStr "evidence") (OStr "Test")
    (OStr "Shared list") shared_list_kw
  = Ok (@Obj.assemble reference_host env0 (OStr "evidence") (OStr "Test")
          (OStr "Shared list") shared_list_kw 0.95)
  /\ Runtime.msg_prov_list
       (Obj.erase_dict
          (@Obj.assemble reference_host env0 (OStr "evidence") (OStr "Test")
             (OStr "Shared list") shared_list_kw 0.95))
     = [Runtime.escalation_issue].
Proof.
  split; [|reflexivity].
  apply (proj2 (proj2 (proj2
           (@builder_meets_validator reference_host env0 (OStr "evidence")
              (OStr "Test") (OStr "Shared list") shared_list_kw 0.95
              reference_repr_zero))));
    reflexivity.
Defined.

Module SharingTests.

(** The call that shares a list does not pass it once; the call of
    [test_evidence_requires_refers_to] does, and so does a call with a
    safety dict of its own. *)
Example passes_once_examples :
  passes_once (OStr "evidence") (OStr "Test") (OStr "Shared list") shared_list_kw
  = false
  /\ passes_once (OStr "evidence") (OStr "Test") (OStr "Evidence without ref")
       bare_evidence_kw = true
  /\ passes_once (OStr "claim") (OStr "Agent1") (OStr "x")
       [("confidence", OFloat 0.95); ("provenance", OList 1 []);
        ("safety", ODict 2 [("level", OStr "safe"); ("issues", OList 3 [])])]
     = true.
Proof. repeat split; reflexivity. Qed.

End SharingTests.

(** X1 on the call of [test_high_confidence_with_provenance_stays_safe]. *)
Lemma make_message_keeps_safety_witness :
  Py.get
    [("id", VStr "MSG1a2b3c4d"); ("protocol", VStr "VLP/1.1");
     ("type", VStr "claim"); ("timestamp", VStr "2025-01-04T12:00:00Z");
     ("session_id", VNone); ("seq", VNone); ("sender", VStr "TestAgent");
     ("receiver", VNone); ("topic", VNone); ("content", VStr "Proven claim");
     ("confidence", VFloat 0.95);
     ("provenance", VList [VStr "source1"; VStr "source2"]);
     ("constraints", VList []);
     ("safety", VDict [("level", VStr "safe"); ("issues", VList [])]);
     ("refers_to", VNone); ("keywords", VList []); ("payload", VNone);
     ("_extras", VDict [])] "safety"
  = VDict (Runtime.normalize_safety
             [("confidence", VFloat 0.95);
              ("provenance", VList [VStr "source1"; VStr "source2"])])
  /\ (Py.has "safety" [("confidence", VFloat 0.95);
                       ("provenance", VList [VStr "source1"; VStr "source2"])] = false ->
      Py.get
        [("id", VStr "MSG1a2b3c4d"); ("protocol", VStr "VLP/1.1");
         ("type", VStr "claim"); ("timestamp", VStr "2025-01-04T12:00:00Z");
         ("session_id", VNone); ("seq", VNone); ("sender", VStr "TestAgent");
         ("receiver", VNone); ("topic", VNone); ("content", VStr "Proven claim");
         ("confidence", VFloat 0.95);
         ("provenance", VList [VStr "source1"; VStr "source2"]);
         ("constraints", VList []);
         ("safety", VDict [("level", VStr "safe"); ("issues", VList [])]);
         ("refers_to", VNone); ("keywords", VList []); ("payload", VNone);
         ("_extras", VDict [])] "safety"
      = VDict [("level", VStr "safe"); ("issues", VList [])]).
Proof.
  apply (@make_message_keeps_safety reference_host env0 (VStr "claim")
           (VStr "TestAgent") (VStr "Proven claim")
           [("confidence", VFloat 0.95);
            ("provenance", VList [VStr "source1"; VStr "source2"])] _ 0.95%float);
    [reflexivity | reflexivity | left; reflexivity].
Defined.


(** X2 on the escalated claim of C1. *)
Lemma make_message_shape_witness :
  Py.keys escalated_claim
  = ["id"; "protocol"; "type"; "timestamp"; "session_id"; "seq"; "sender";
     "receiver"; "topic"; "content"; "confidence"; "provenance"; "constraints";
     "safety"; "refers_to"; "keywords"; "payload"; "_extras"]
  /\ Py.get escalated_claim "protocol" = VStr "VLP/1.1"
  /\ (exists t : string,
        Py.get escalated_claim "type" = VStr t
        /\ PyStr.lower t = t /\ PyStr.strip t = t)
  /\ (exists f : float, Py.get escalated_claim "confidence" = VFloat f)
  /\ (exists l : list pyval, Py.get escalated_claim "provenance" = VList l)
  /\ (exists l : list pyval, Py.get escalated_claim "constraints" = VList l)
  /\ (exists ks : list string,
        Py.get escalated_claim "keywords" = VList (map VStr ks)
        /\ List.NoDup ks /\ Forall normal_keyword ks)
  /\ (exists (safety : dict) (issues : list pyval),
        Py.get escalated_claim "safety" = VDict safety
        /\ Py.lookup "issues" safety = Some (VList issues)
        /\ Py.has "level" safety = true)
  /\ Py.get escalated_claim "sender" = VStr "TestAgent"
  /\ Py.get escalated_claim "content" = VStr "High confidence claim"
  /\ fst (@Runtime.validate_vlp reference_host escalated_claim) = true.
Proof.
  apply (@make_message_shape reference_host env0 (VStr "claim") (VStr "TestAgent")
           (VStr "High confidence claim") [("confidence", VFloat 0.95)]
           escalated_claim).
  reflexivity.
Defined.

(** X5 on the escalated claim of C1. *)
Lemma validate_vlp_sound_witness :
  @jsonschema_validate reference_host (VDict escalated_claim) = None
  /\ @Runtime.msg_type reference_host escalated_claim
     = PyStr.lower (@Runtime.msg_type reference_host escalated_claim)
  /\ (exists c : float,
        @Py.float_ reference_host (Py.get_or escalated_claim "confidence" VNone) = Ok c)
  /\ (@Runtime.msg_type reference_host escalated_claim = "evidence" ->
      Py.truthy (Py.get escalated_claim "refers_to") = true
      /\ Runtime.is_nil (Runtime.msg_prov_list escalated_claim) = false)
  /\ (@Runtime.msg_type reference_host escalated_claim = "response"
      \/ @Runtime.msg_type reference_host escalated_claim = "correction" ->
      Py.truthy (Py.get escalated_claim "refers_to") = true).
Proof.
  apply (@validate_vlp_sound reference_host escalated_claim). reflexivity.
Defined.

(* ===================================================================== *)
(** * More of the NDJSON framing *)
(* ===================================================================== *)

(** Every character of the text satisfies [P]. *)
Fixpoint all_chars (P : ascii -> bool) (s : string) : bool :=
  match s with
  | EmptyString => true
  | String c s' => P c && all_chars P s'
  end.

(** The character is not the line feed. *)
Definition not_lf (c : ascii) : bool := negb (PyStr.ord c =? 10)%N.

(** The character is no line boundary of [splitlines]. *)
Definition not_linebreak (c : ascii) : bool := negb (PyStr.is_linebreak c).

(** A line that [from_ndjson] does not skip. *)
Definition nonblank (line : string) : bool :=
  negb (PyStr.is_empty (PyStr.strip line)).

(** A reference decoder: [json.loads] on the texts that this development
    runs it on.  Strings are read with their escapes (code points below
    U+0100), numbers without fraction or exponent as [int] and the others
    through [float], arrays and objects by recursive descent; [fuel] bounds
    the depth and the number of items. *)
Module ReferenceJson.

Definition is_ws (c : ascii) : bool :=
  let n := PyStr.ord c in ((n =? 32) || (n =? 9) || (n =? 10) || (n =? 13))%N.

Fixpoint skip_ws (s : string) : string :=
  match s with
  | String c s' => if is_ws c then skip_ws s' else s
  | EmptyString => EmptyString
  end.

Definition hex_val (c : ascii) : option N :=
  let n := PyStr.ord c in
  if ((48 <=? n) && (n <=? 57))%N then Some (n - 48)%N
  else if ((97 <=? n) && (n <=? 102))%N then Some (n - 87)%N
  else if ((65 <=? n) && (n <=? 70))%N then Some (n - 55)%N
  else None.

(** The character that a one-letter escape stands for. *)
Definition unescape (c : ascii) : option ascii :=
  let n := PyStr.ord c in
  if (n =? 34)%N then Some PyStr.dquote
  else if (n =? 92)%N then Some PyStr.backslash
  else if (n =? 47)%N then Some "/"%char
  else if (n =? 98)%N then Some (ascii_of_N 8)
  else if (n =? 102)%N then Some (ascii_of_N 12)
  else if (n =? 110)%N then Some (ascii_of_N 10)
  else if (n =? 114)%N then Some (ascii_of_N 13)
  else if (n =? 116)%N then Some (ascii_of_N 9)
  else None.

Definition cons_char (c : ascii) (r : option (string * string))
    : option (string * string) :=
  match r with Some (s, rest) => Some (String c s, rest) | None => None end.

(** The text of a string after its opening quote, and what follows the
    closing quote. *)
Fixpoint read_string (s : string) : option (string * string) :=
  match s with
  | EmptyString => None
  | String c r =>
      if (PyStr.ord c =? 34)%N then Some (EmptyString, r)
      else if (PyStr.ord c =? 92)%N then
        match r with
        | String e r' =>
            if (PyStr.ord e =? 117)%N then
              match r' with
              | String h1 (String h2 (String h3 (String h4 r''))) =>
                  match hex_val h1, hex_val h2, hex_val h3, hex_val h4 with
                  | Some a, Some b, Some c', Some d =>
                      let code := (((a * 16 + b) * 16 + c') * 16 + d)%N in
                      if (code <? 256)%N
                      then cons_char (ascii_of_N code) (read_string r'')
                      else None
                  | _, _, _, _ => None
                  end
              | _ => None
              end
            else
              match unescape e with
              | Some ch => cons_char ch (read_string r')
              | None => None
              end
        | EmptyString => None
        end
      else if (PyStr.ord c <? 32)%N then None
      else cons_char c (read_string r)
  end.

(** The digits at the head of the text, and the rest. *)
Fixpoint span_digits (s : string) : string * string :=
  match s with
  | String c r =>
      if Reference.is_digit c
      then let '(d, rest) := span_digits r in (String c d, rest)
      else (EmptyString, s)
  | EmptyString => (EmptyString, EmptyString)
  end.

(** A number: the text that the grammar of JSON takes, as an [int] when it
    has no fraction and no exponent, through [float] otherwise. *)
Definition read_number (s : string) : option (pyval * string) :=
  let '(sign, r0) :=
    match s with String "-" r => ("-", r) | _ => ("", s) end in
  let '(ip, r1) :=
    match r0 with
    | String "0" r => ("0", r)
    | _ => span_digits r0
    end in
  if PyStr.is_empty ip then None
  else
    let '(frac, r2) :=
      match r1 with
      | String "." r =>
          let '(d, rest) := span_digits r in
          if PyStr.is_empty d then ("", r1) else ("." +:+ d, rest)
      | _ => ("", r1)
      end in
    let '(ex, r3) :=
      match r2 with
      | String c r =>
          if Ascii.eqb (PyStr.lower_char c) "e" then
            let '(sg, body) :=
              match r with
              | String "-" b => ("-", b)
              | String "+" b => ("+", b)
              | _ => ("", r)
              end in
            let '(d, rest) := span_digits body in
            if PyStr.is_empty d then ("", r2) else ("e" +:+ sg +:+ d, rest)
          else ("", r2)
      | EmptyString => ("", r2)
      end in
    if PyStr.is_empty frac && PyStr.is_empty ex then
      let '(v, _, _) := Reference.read_digits 0 0 ip in
      Some (VInt (if PyStr.is_empty sign then v else - v), r3)
    else
      match Reference.float_of_str (sign +:+ ip +:+ frac +:+ ex) with
      | Some f => Some (VFloat f, r3)
      | None => None
      end.

(** The words of JSON and of Python's extension of it. *)
Definition read_word (s : string) : option (pyval * string) :=
  if PyStr.startswith "null" s then Some (VNone, PyStr.drop 4 s)
  else if PyStr.startswith "true" s then Some (VBool true, PyStr.drop 4 s)
  else if PyStr.startswith "false" s then Some (VBool false, PyStr.drop 5 s)
  else if PyStr.startswith "NaN" s then Some (VFloat nan, PyStr.drop 3 s)
  else if PyStr.startswith "Infinity" s then Some (VFloat infinity, PyStr.drop 8 s)
  else if PyStr.startswith "-Infinity" s
  then Some (VFloat neg_infinity, PyStr.drop 9 s)
  else read_number s.

(** A value at the head of the text; the items of an array after its
    bracket; the members of an object after its brace. *)
Fixpoint value (fuel : nat) (s : string) : option (pyval * string) :=
  match fuel with
  | O => None
  | S k =>
      match s with
      | EmptyString => None
      | String c r =>
          if (PyStr.ord c =? 123)%N then
            match skip_ws r with
            | String "}" r' => Some (VDict [], r')
            | r1 => members k [] r1
            end
          else if (PyStr.ord c =? 91)%N then
            match skip_ws r with
            | String "]" r' => Some (VList [], r')
            | r1 => elements k [] r1
            end
          else if (PyStr.ord c =? 34)%N then
            match read_string r with
            | Some (t, r') => Some (VStr t, r')
            | None => None
            end
          else read_word s
      end
  end
with elements (fuel : nat) (acc : list pyval) (s : string)
    : option (pyval * string) :=
  match fuel with
  | O => None
  | S k =>
      match value k s with
      | Some (v, r) =>
          match skip_ws r with
          | String "," r' => elements k (acc ++ [v]) (skip_ws r')
          | String "]" r' => Some (VList (acc ++ [v]), r')
          | _ => None
          end
      | None => None
      end
  end
with members (fuel : nat) (acc : dict) (s : string) : option (pyval * string) :=
  match fuel with
  | O => None
  | S k =>
      match s with
      | String q r =>
          if (PyStr.ord q =? 34)%N then
            match read_string r with
            | Some (key, r1) =>
                match skip_ws r1 with
                | String ":" r2 =>
                    match value k (skip_ws r2) with
                    | Some (v, r3) =>
                        match skip_ws r3 with
                        | String "," r4 => members k (Py.set key v acc) (skip_ws r4)
                        | String "}" r4 => Some (VDict (Py.set key v acc), r4)
                        | _ => None
                        end
                    | None => None
                    end
                | _ => None
                end
            | None => None
            end
          else None
      | EmptyString => None
      end
  end.

(** [json.loads(s)] *)
Definition loads (s : string) : option pyval :=
  match value (2 * String.length s + 2) (skip_ws s) with
  | Some (v, r) => if PyStr.is_empty (skip_ws r) then Some v else None
  | None => None
  end.

End ReferenceJson.

Definition reference_decoder : JsonDecoder :=
  {| json_loads := ReferenceJson.loads |}.

(** The characters that [repr] of a float is written with. *)
Definition float_char (c : ascii) : bool :=
  Reference.is_digit c
  || existsb (Ascii.eqb c) ["."; "-"; "+"; "e"; "i"; "n"; "f"; "a"]%char.

Lemma all_chars_app (P : ascii -> bool) (a b : string) :
  all_chars P (a +:+ b) = all_chars P a && all_chars P b.
Proof.
  induction a as [|x a IH]; [reflexivity|].
  change (String x a +:+ b) with (String x (a +:+ b)).
  cbn [all_chars]. now rewrite IH, andb_assoc.
Qed.

Lemma all_chars_impl (P Q : ascii -> bool) (s : string) :
  (forall c, P c = true -> Q c = true) ->
  all_chars P s = true -> all_chars Q s = true.
Proof.
  intros HPQ. induction s as [|c s IH]; [reflexivity|].
  cbn [all_chars]. intros [Hc Hs]%andb_prop. now rewrite (HPQ c Hc), IH.
Qed.

Lemma all_chars_join (P : ascii -> bool) (sep : string) (l : list string) :
  all_chars P sep = true ->
  forallb (all_chars P) l = true ->
  all_chars P (PyStr.join sep l) = true.
Proof.
  intros Hsep. induction l as [|x rest IH]; [reflexivity|].
  cbn [forallb]. intros [Hx Hrest]%andb_prop.
  destruct rest as [|y rest]; [exact Hx|].
  rewrite join_cons, !all_chars_app, Hx, Hsep. now apply IH.
Qed.

Lemma all_chars_take (P : ascii -> bool) (n : nat) :
  forall s : string, all_chars P s = true -> all_chars P (PyStr.take n s) = true.
Proof.
  induction n as [|n IH]; intros [|c s]; try reflexivity.
  cbn [all_chars PyStr.take]. intros [Hc Hs]%andb_prop. now rewrite Hc, IH.
Qed.

Lemma all_chars_drop (P : ascii -> bool) (n : nat) :
  forall s : string, all_chars P s = true -> all_chars P (PyStr.drop n s) = true.
Proof.
  induction n as [|n IH]; intros [|c s]; try easy.
  cbn [all_chars PyStr.drop]. intros [Hc Hs]%andb_prop. now apply IH.
Qed.

Lemma all_chars_zeros (P : ascii -> bool) (n : nat) :
  P "0"%char = true -> all_chars P (PyStr.zeros n) = true.
Proof. intros H0. induction n as [|n IH]; [reflexivity|]. cbn. now rewrite H0. Qed.

Lemma all_chars_uint (P : ascii -> bool) (d : Decimal.uint) :
  (forall c, Reference.is_digit c = true -> P c = true) ->
  all_chars P (NilEmpty.string_of_uint d) = true.
Proof.
  intros Hd.
  induction d; cbn [NilEmpty.string_of_uint all_chars]; [reflexivity| ..];
    rewrite IHd, andb_true_r; now apply Hd.
Qed.

Lemma all_chars_of_Z (P : ascii -> bool) (z : Z) :
  (forall c, Reference.is_digit c = true -> P c = true) ->
  P "-"%char = true ->
  all_chars P (PyStr.of_Z z) = true.
Proof.
  intros Hd Hm. unfold PyStr.of_Z, NilZero.string_of_int, NilZero.string_of_uint.
  assert (H0 : P "0"%char = true) by now apply Hd.
  destruct (Z.to_int z) as [d|d]; destruct d eqn:Ed; rewrite <- ?Ed;
    cbn [all_chars]; rewrite ?Hm, ?H0; try reflexivity;
    rewrite ?andb_true_l; now apply all_chars_uint.
Qed.

Lemma all_chars_format_0d (P : ascii -> bool) (w : nat) (z : Z) :
  (forall c, Reference.is_digit c = true -> P c = true) ->
  P "-"%char = true ->
  all_chars P (PyStr.format_0d w z) = true.
Proof.
  intros Hd Hm. unfold PyStr.format_0d.
  assert (H0 : P "0"%char = true) by now apply Hd.
  destruct (z <? 0); rewrite !all_chars_app, ?all_chars_zeros, ?all_chars_of_Z;
    auto. cbn. now rewrite Hm.
Qed.

Lemma no_linebreak_all_chars (s : string) :
  no_linebreak s = all_chars not_linebreak s.
Proof. induction s as [|c s IH]; [reflexivity|]. cbn. now rewrite IH. Qed.

Lemma float_char_digit (c : ascii) :
  Reference.is_digit c = true -> float_char c = true.
Proof. intros Hc. unfold float_char. now rewrite Hc. Qed.

Lemma float_char_not_linebreak (c : ascii) :
  float_char c = true -> not_linebreak c = true.
Proof. destruct c as [[] [] [] [] [] [] [] []]; intros Hc; try reflexivity; discriminate. Qed.

Lemma float_char_not_lf (c : ascii) : float_char c = true -> not_lf c = true.
Proof. destruct c as [[] [] [] [] [] [] [] []]; intros Hc; try reflexivity; discriminate. Qed.

Lemma rstrip_zeros_chars (P : ascii -> bool) (s : string) :
  all_chars P s = true -> all_chars P (Reference.rstrip_zeros s) = true.
Proof.
  unfold Reference.rstrip_zeros.
  induction s as [|c s IH]; [reflexivity|].
  cbn [all_chars]. intros [Hc Hs]%andb_prop. specialize (IH Hs).
  destruct (_ && _); [reflexivity|]. cbn [all_chars]. now rewrite Hc, IH.
Qed.

Lemma format_short_chars (ds : string) (decpt : Z) :
  all_chars float_char ds = true ->
  all_chars float_char (Reference.format_short ds decpt) = true.
Proof.
  intros Hds. unfold Reference.format_short.
  destruct (_ || _).
  - rewrite !all_chars_app, (all_chars_take _ 1 ds Hds).
    rewrite (all_chars_format_0d float_char 2 _ float_char_digit eq_refl).
    destruct (1 <? _); destruct (_ <? 0); cbn [andb all_chars];
      rewrite ?all_chars_app, ?(all_chars_drop _ 1 ds Hds); reflexivity.
  - destruct (decpt <=? 0).
    + now rewrite !all_chars_app, Hds, all_chars_zeros.
    + destruct (decpt <? _).
      * now rewrite !all_chars_app, (all_chars_take _ _ ds Hds),
          (all_chars_drop _ _ ds Hds).
      * now rewrite !all_chars_app, Hds, all_chars_zeros.
Qed.

(** The reference [repr] writes a float with digits, a sign, a point, an
    [e], or as [inf] or [nan]. *)
Lemma reference_repr_chars (f : float) :
  all_chars float_char (Reference.float_repr f) = true.
Proof.
  unfold Reference.float_repr.
  destruct (Prim2SF f) as [[|] | [|] | | s m e]; try reflexivity.
  destruct (Reference.shortest _ _ _ _ _ _) as [c j].
  rewrite all_chars_app. apply andb_true_intro; split; [now destruct s|].
  apply format_short_chars, rstrip_zeros_chars.
  apply all_chars_of_Z; [exact float_char_digit | reflexivity].
Qed.

Lemma reference_repr_no_linebreak (f : float) :
  no_linebreak (Reference.float_repr f) = true.
Proof.
  rewrite no_linebreak_all_chars.
  exact (all_chars_impl _ _ _ float_char_not_linebreak (reference_repr_chars f)).
Qed.

Lemma reference_repr_not_lf (f : float) :
  all_chars not_lf (Reference.float_repr f) = true.
Proof. exact (all_chars_impl _ _ _ float_char_not_lf (reference_repr_chars f)). Qed.

(** The reference [repr] writes no float as "review". *)
Lemma reference_repr_not_review (f : float) :
  String.eqb (Reference.float_repr f) "review" = false.
Proof.
  destruct (String.eqb _ _) eqn:E; [|reflexivity].
  apply String.eqb_eq in E. pose proof (reference_repr_chars f) as Hc.
  rewrite E in Hc. discriminate Hc.
Qed.

(** The call of [test_keywords_normalized] and the message it assembles. *)
Definition tagged_kw : dict :=
  [("confidence", VFloat 0.5);
   ("keywords", VList [VStr "Research"; VStr "  OKLAHOMA  "; VStr "test"; VStr "test"])].

Definition tagged_claim : dict :=
  @Runtime.assemble reference_host env0 (VStr "claim") (VStr "TestAgent") (VStr "Test")
    tagged_kw 0.5.

(** C7 on the call of [test_keywords_normalized]: the message is returned,
    its keywords are ["research", "oklahoma", "test"], and the call that
    passes these returns the same message. *)
Lemma C7_keyword_normalization_witness :
  @Runtime.make_message reference_host env0 (VStr "claim") (VStr "TestAgent")
    (VStr "Test") tagged_kw = Ok tagged_claim
  /\ Py.get tagged_claim "keywords"
     = VList [VStr "research"; VStr "oklahoma"; VStr "test"]
  /\ @Runtime.make_message reference_host env0 (VStr "claim") (VStr "TestAgent")
       (VStr "Test")
       (Py.set "keywords" (VList [VStr "research"; VStr "oklahoma"; VStr "test"])
          tagged_kw)
     = Ok tagged_claim.
Proof.
  assert (Hok : @Runtime.make_message reference_host env0 (VStr "claim")
                  (VStr "TestAgent") (VStr "Test") tagged_kw = Ok tagged_claim)
    by reflexivity.
  destruct (@C7_keyword_normalization reference_host env0 _ _ _ _ _ Hok)
    as (ks & Hk & _ & _ & _ & Hre & Hex).
  rewrite (Hex eq_refl) in Hk, Hre. repeat split; assumption.
Defined.

(** C2 on two claims at confidence 0.95 without provenance: the escalated
    claim of C1 is accepted and its level is "review"; [unearned_claim],
    marked safe, is rejected with the unearned-confidence error. *)
Lemma C2_validator_rechecks_witness :
  (@Runtime.validate_vlp reference_host escalated_claim = (true, None)
   /\ exists safety : dict,
        Py.lookup "safety" escalated_claim = Some (VDict safety)
        /\ Py.lookup "level" safety = Some (VStr "review"))
  /\ (level_is_review unearned_claim = false
      /\ @Runtime.validate_vlp reference_host unearned_claim
         = (false, Some "confidence >= 0.9 requires provenance or safety.level=review")).
Proof.
  split; (split; [reflexivity|]).
  - apply (proj1 (@C2_validator_rechecks reference_host escalated_claim 0.95%float
                    reference_repr_not_review eq_refl eq_refl eq_refl)).
    reflexivity.
  - apply (proj2 (@C2_validator_rechecks reference_host unearned_claim 0.95%float
                    reference_repr_not_review eq_refl eq_refl eq_refl)).
    reflexivity.
Defined.

Section NdjsonFraming.
Context {H : Host} {D : JsonDecoder}.
Import Json.

Lemma from_lines_cons (l : string) (X Y : list string) :
  from_lines X = from_lines Y -> from_lines (l :: X) = from_lines (l :: Y).
Proof. intros E. cbn [from_lines]. now rewrite E. Qed.

Lemma from_lines_blank (X : list string) : from_lines ("" :: X) = from_lines X.
Proof. reflexivity. Qed.

Lemma from_lines_empty_cur (cur : string) (X : list string) :
  from_lines ((if PyStr.is_empty cur then [] else [cur]) ++ X)%list
  = from_lines (cur :: X).
Proof. destruct cur; reflexivity. Qed.

(** The lines of two texts, read one after the other. *)
Lemma from_lines_app (X Y : list string) :
  from_lines (X ++ Y)%list
  = match from_lines X with
    | Ok x =>
        match from_lines Y with
        | Ok y => Ok (x ++ y)%list
        | Raise e => Raise e
        end
    | Raise e => Raise e
    end.
Proof.
  induction X as [|l X IH]; cbn [from_lines app].
  - now destruct (from_lines Y).
  - destruct (PyStr.is_empty (PyStr.strip l)); [exact IH|].
    destruct (json_loads l); [|reflexivity].
    rewrite IH. destruct (from_lines X); [|reflexivity].
    now destruct (from_lines Y).
Qed.

(** A line feed between two texts: up to blank lines, the lines are those
    of the first text and then those of the second. *)
Lemma from_lines_splitlines_LF (b : string) (n : nat) :
  forall s : string, (String.length s <= n)%nat ->
  forall cur : string,
  from_lines (PyStr.splitlines_from cur (s +:+ LF +:+ b))
  = from_lines (PyStr.splitlines_from cur s ++ PyStr.splitlines_from "" b)%list.
Proof.
  induction n as [|n IH]; intros [|c s] Hlen cur;
    try (cbn [String.length] in Hlen; lia).
  - change (PyStr.splitlines_from cur "")
      with (if PyStr.is_empty cur then [] else [cur]).
    rewrite from_lines_empty_cur.
    change ("" +:+ LF +:+ b) with (String (ascii_of_N 10) b).
    destruct b as [|c' b]; reflexivity.
  - change (PyStr.splitlines_from cur "")
      with (if PyStr.is_empty cur then [] else [cur]).
    rewrite from_lines_empty_cur.
    change ("" +:+ LF +:+ b) with (String (ascii_of_N 10) b).
    destruct b as [|c' b]; reflexivity.
  - cbn [String.length] in Hlen.
    change (String c s +:+ LF +:+ b) with (String c (s +:+ LF +:+ b)).
    cbn [PyStr.splitlines_from].
    destruct (PyStr.is_linebreak c) eqn:Hc; [|apply IH; lia].
    destruct s as [|c' s].
    + change ("" +:+ LF +:+ b) with (String (ascii_of_N 10) b).
      cbn [app].
      destruct ((PyStr.ord c =? 13)%N && _); [reflexivity|].
      apply from_lines_cons. destruct b as [|c'' b]; reflexivity.
    + change (String c' s +:+ LF +:+ b) with (String c' (s +:+ LF +:+ b)).
      cbn [String.length] in Hlen.
      cbv iota.
      destruct ((PyStr.ord c =? 13)%N && _); cbn [app]; apply from_lines_cons.
      * apply IH. lia.
      * apply (IH (String c' s)). cbn [String.length]. lia.
Qed.

(** X8.  Two NDJSON texts put together with a line feed between them read
    as the one and then the other: [from_ndjson(a + "\n" + b)] is
    [from_ndjson(a) + from_ndjson(b)], and it raises what the first failing
    one of the two raises.  Whether [a] ends in a line boundary of its own
    does not matter. *)
Theorem from_ndjson_concat (a b : string) :
  from_ndjson (a +:+ LF +:+ b)
  = match from_ndjson a with
    | Ok x =>
        match from_ndjson b with
        | Ok y => Ok (x ++ y)%list
        | Raise e => Raise e
        end
    | Raise e => Raise e
    end.
Proof.
  unfold from_ndjson, PyStr.splitlines.
  rewrite (from_lines_splitlines_LF b (String.length a) a (le_n _) "").
  apply from_lines_app.
Qed.

Lemma escape_char_not_lf (c : ascii) : all_chars not_lf (escape_char c) = true.
Proof. destruct c as [[] [] [] [] [] [] [] []]; reflexivity. Qed.

Lemma dumps_str_not_lf (s : string) : all_chars not_lf (dumps_str s) = true.
Proof.
  unfold dumps_str. cbn [all_chars]. rewrite all_chars_app.
  apply andb_true_intro; split; [reflexivity|].
  apply andb_true_intro; split; [|reflexivity].
  induction s as [|c s IH]; [reflexivity|].
  cbn [escape]. now rewrite all_chars_app, escape_char_not_lf, IH.
Qed.

(** [json.dumps] writes no line feed: those of the strings are escaped. *)
Lemma dumps_not_lf :
  (forall f : float, all_chars not_lf (float_repr f) = true) ->
  forall v : pyval, all_chars not_lf (dumps v) = true.
Proof.
  intros Hrepr. fix IH 1. intros [ | [|] | z | f | s | l | d];
    cbn [dumps]; try reflexivity.
  - apply all_chars_of_Z; [|reflexivity].
    intros c Hc. destruct c as [[] [] [] [] [] [] [] []]; try reflexivity; discriminate.
  - unfold dumps_float.
    destruct (is_nan f); [reflexivity|].
    destruct (f =? infinity)%float; [reflexivity|].
    destruct (f =? neg_infinity)%float; [reflexivity|]. apply Hrepr.
  - apply dumps_str_not_lf.
  - rewrite !all_chars_app.
    apply andb_true_intro; split; [reflexivity|].
    apply andb_true_intro; split; [|reflexivity].
    apply all_chars_join; [reflexivity|].
    induction l as [|x l IHl]; [reflexivity|].
    cbn [forallb map]. now rewrite (IH x), IHl.
  - rewrite !all_chars_app.
    apply andb_true_intro; split; [reflexivity|].
    apply andb_true_intro; split; [|reflexivity].
    apply all_chars_join; [reflexivity|].
    induction d as [|[k x] d IHd]; [reflexivity|].
    cbn [forallb map fst snd].
    now rewrite !all_chars_app, (dumps_str_not_lf k), (IH x), IHd.
Qed.

Lemma split_from_prefix (pre : string) :
  all_chars not_lf pre = true ->
  forall cur rest : string,
  PyStr.split_from cur (ascii_of_N 10) (pre +:+ rest)
  = PyStr.split_from (cur +:+ pre) (ascii_of_N 10) rest.
Proof.
  induction pre as [|c pre IH]; intros Hpre cur rest.
  - now rewrite append_empty_r.
  - cbn [all_chars] in Hpre. apply andb_prop in Hpre as [Hc Hpre].
    change (String c pre +:+ rest) with (String c (pre +:+ rest)).
    cbn [PyStr.split_from].
    replace (Ascii.eqb c (ascii_of_N 10)) with false.
    + rewrite (IH Hpre), append_assoc. reflexivity.
    + clear -Hc. destruct c as [[] [] [] [] [] [] [] []]; try reflexivity; discriminate.
Qed.

Lemma split_join (lines : list string) :
  forallb (all_chars not_lf) lines = true ->
  forall (x cur : string),
  all_chars not_lf x = true ->
  PyStr.split_from cur (ascii_of_N 10) (PyStr.join LF (x :: lines))
  = (cur +:+ x) :: lines.
Proof.
  induction lines as [|y rest IH]; intros Hall x cur Hx.
  - cbn [PyStr.join]. rewrite <- (append_empty_r x) at 1.
    now rewrite (split_from_prefix x Hx).
  - cbn [forallb] in Hall. apply andb_prop in Hall as [Hy Hrest].
    rewrite join_cons, (split_from_prefix x Hx).
    change (LF +:+ PyStr.join LF (y :: rest))
      with (String (ascii_of_N 10) (PyStr.join LF (y :: rest))).
    cbn [PyStr.split_from]. rewrite Ascii.eqb_refl.
    now rewrite (IH Hrest y "" Hy).
Qed.

(** X10.  [to_ndjson] writes one line for each message: no line feed
    stands inside the JSON text of a message, whatever its strings hold, so
    cutting the text at the line feeds gives back the JSON texts of the
    messages, one by one. *)
Theorem to_ndjson_one_line_each (m : dict) (rest : list dict) :
  (forall f : float, all_chars not_lf (float_repr f) = true) ->
  PyStr.split (ascii_of_N 10) (to_ndjson (m :: rest))
  = map (fun m => dumps (VDict m)) (m :: rest).
Proof.
  intros Hrepr. unfold PyStr.split, to_ndjson. cbn [map].
  rewrite split_join; [reflexivity| |now apply dumps_not_lf].
  induction rest as [|y rest IH]; [reflexivity|].
  cbn [map forallb]. now rewrite (dumps_not_lf Hrepr), IH.
Qed.

End NdjsonFraming.

(* ===================================================================== *)
(** * NDJSON over the whole of Unicode *)
(* ===================================================================== *)

(** The strings above stop at U+00FF.  That is enough to show where the
    round trip of [to_ndjson] and [from_ndjson] breaks (U+0085), not to say
    where it holds: beyond U+00FF Python has two more line boundaries,
    U+2028 and U+2029, which [json.dumps(..., ensure_ascii=False)] writes as
    they are.  Here the two functions are read again over texts that are
    lists of code points. *)
Notation ustr := (list N).

Module UStr.

(** The code points of a text of the narrower model. *)
Definition of_string (s : string) : ustr :=
  map N_of_ascii (list_ascii_of_string s).

(** The line boundaries of [str.splitlines]: LF, VT, FF, CR, FS, GS, RS,
    NEL, LINE SEPARATOR and PARAGRAPH SEPARATOR. *)
Definition is_linebreak (n : N) : bool :=
  ((10 <=? n) && (n <=? 13) || (28 <=? n) && (n <=? 30) || (n =? 133)
   || (n =? 8232) || (n =? 8233))%N.

(** [c.isspace()]: TAB..CR, FS..US, SPACE, NEL, NBSP, U+1680,
    U+2000..U+200A, U+2028, U+2029, U+202F, U+205F and U+3000. *)
Definition isspace (n : N) : bool :=
  ((9 <=? n) && (n <=? 13) || (28 <=? n) && (n <=? 32) || (n =? 133)
   || (n =? 160) || (n =? 5760) || (8192 <=? n) && (n <=? 8202)
   || (n =? 8232) || (n =? 8233) || (n =? 8239) || (n =? 8287)
   || (n =? 12288))%N.

Definition is_empty (s : ustr) : bool :=
  match s with [] => true | _ => false end.

(** [s.lstrip()], [s.rstrip()], [s.strip()] *)
Fixpoint lstrip (s : ustr) : ustr :=
  match s with
  | [] => []
  | c :: s' => if isspace c then lstrip s' else s
  end.

Fixpoint rstrip (s : ustr) : ustr :=
  match s with
  | [] => []
  | c :: s' =>
      let r := rstrip s' in
      if is_empty r && isspace c then [] else c :: r
  end.

Definition strip (s : ustr) : ustr := rstrip (lstrip s).

(** [sep.join(l)] *)
Fixpoint join (sep : ustr) (l : list ustr) : ustr :=
  match l with
  | [] => []
  | [x] => x
  | x :: rest => (x ++ sep ++ join sep rest)%list
  end.

(** [s.splitlines()]: [cur] is the line read so far; CR LF is one
    boundary, and a boundary at the very end opens no further line. *)
Fixpoint splitlines_from (cur : ustr) (s : ustr) : list ustr :=
  match s with
  | [] => if is_empty cur then [] else [cur]
  | c :: s' =>
      if is_linebreak c then
        match s' with
        | c' :: s'' =>
            if ((c =? 13) && (c' =? 10))%N
            then cur :: splitlines_from [] s''
            else cur :: splitlines_from [] s'
        | [] => [cur]
        end
      else splitlines_from (cur ++ [c])%list s'
  end.

Definition splitlines (s : ustr) : list ustr := splitlines_from [] s.

End UStr.

(** The JSON-shaped values with such texts. *)
Inductive uval : Type :=
| UNone
| UBool (b : bool)
| UInt (z : Z)
| UFloat (f : float)
| UStr (s : ustr)
| UList (l : list uval)
| UDict (d : list (ustr * uval)).

Notation udict := (list (ustr * uval)).

(** [json.loads] on such texts. *)
Class UJsonDecoder : Type := {
  ujson_loads : ustr -> option uval
}.

Module UJson.

(** One character of a string under [json.dumps(..., ensure_ascii=False)]:
    the double quote, the backslash and the controls below U+0020 are
    escaped, every other code point is written as it is. *)
Definition escape_char (n : N) : ustr :=
  if (n =? 34)%N then [92; 34]%N
  else if (n =? 92)%N then [92; 92]%N
  else if (n =? 10)%N then [92; 110]%N
  else if (n =? 13)%N then [92; 114]%N
  else if (n =? 9)%N then [92; 116]%N
  else if (n =? 8)%N then [92; 98]%N
  else if (n =? 12)%N then [92; 102]%N
  else if (n <? 32)%N then (92%N :: UStr.of_string ("u00" +:+ Py.hex2 n))
  else [n].

Fixpoint escape (s : ustr) : ustr :=
  match s with
  | [] => []
  | c :: s' => (escape_char c ++ escape s')%list
  end.

Definition dumps_str (s : ustr) : ustr := (34%N :: escape s ++ [34%N])%list.

Section WithHost.
Context {H : Host}.

(** [json.dumps(v, ensure_ascii=False)] *)
Fixpoint dumps (v : uval) : ustr :=
  match v with
  | UNone => UStr.of_string "null"
  | UBool true => UStr.of_string "true"
  | UBool false => UStr.of_string "false"
  | UInt z => UStr.of_string (PyStr.of_Z z)
  | UFloat f => UStr.of_string (Json.dumps_float f)
  | UStr s => dumps_str s
  | UList l =>
      (UStr.of_string "[" ++ UStr.join (UStr.of_string ", ") (map dumps l)
         ++ UStr.of_string "]")%list
  | UDict d =>
      (UStr.of_string "{"
         ++ UStr.join (UStr.of_string ", ")
              (map (fun kv => dumps_str (fst kv) ++ UStr.of_string ": "
                                ++ dumps (snd kv)) d)
         ++ UStr.of_string "}")%list
  end.

(** The line feed. *)
Definition LF : ustr := [10%N].

(** [to_ndjson(messages)] *)
Definition to_ndjson (messages : list udict) : ustr :=
  UStr.join LF (map (fun m => dumps (UDict m)) messages).

Context {D : UJsonDecoder}.

(** The loop of [from_ndjson] over the lines. *)
Fixpoint from_lines (lines : list ustr) : result (list uval) :=
  match lines with
  | [] => Ok []
  | line :: rest =>
      if UStr.is_empty (UStr.strip line) then from_lines rest
      else
        match ujson_loads line with
        | Some v =>
            match from_lines rest with
            | Ok out => Ok (v :: out)
            | Raise e => Raise e
            end
        | None => Raise JSONDecodeError
        end
  end.

(** [from_ndjson(text)] *)
Definition from_ndjson (text : ustr) : result (list uval) :=
  from_lines (UStr.splitlines text).

End WithHost.
End UJson.

(** No text in the value, key or not, holds one of the three line
    boundaries that [json.dumps] leaves as they are: U+0085, U+2028,
    U+2029. *)
Definition raw_boundary (n : N) : bool :=
  ((n =? 133) || (n =? 8232) || (n =? 8233))%N.

Fixpoint no_boundary (v : uval) : bool :=
  match v with
  | UStr s => forallb (fun n => negb (raw_boundary n)) s
  | UList l => forallb no_boundary l
  | UDict d =>
      forallb (fun kv => forallb (fun n => negb (raw_boundary n)) (fst kv)
                         && no_boundary (snd kv)) d
  | _ => true
  end.

(** No code point of the text is a line boundary. *)
Definition one_line (s : ustr) : bool :=
  forallb (fun n => negb (UStr.is_linebreak n)) s.

Section UnicodeNdjson.
Context {H : Host} {D : UJsonDecoder}.
Import UJson.

Lemma one_line_app (a b : ustr) :
  one_line (a ++ b)%list = one_line a && one_line b.
Proof. apply forallb_app. Qed.

Lemma one_line_join (sep : ustr) (l : list ustr) :
  one_line sep = true ->
  forallb one_line l = true ->
  one_line (UStr.join sep l) = true.
Proof.
  intros Hsep. induction l as [|x rest IH]; [reflexivity|].
  cbn [forallb]. intros [Hx Hrest]%andb_prop.
  destruct rest as [|y rest]; [exact Hx|].
  change (UStr.join sep (x :: y :: rest))
    with (x ++ sep ++ UStr.join sep (y :: rest))%list.
  rewrite !one_line_app, Hx, Hsep. now apply IH.
Qed.

(** A text of the narrower model is one line here if it is one there. *)
Lemma one_line_of_string (s : string) :
  one_line (UStr.of_string s) = no_linebreak s.
Proof.
  induction s as [|c s IH]; [reflexivity|].
  change (UStr.of_string (String c s)) with (N_of_ascii c :: UStr.of_string s).
  cbn [one_line forallb no_linebreak]. fold (one_line (UStr.of_string s)).
  rewrite IH. f_equal.
  destruct c as [[] [] [] [] [] [] [] []]; reflexivity.
Qed.

Lemma hex2_one_line (n : N) :
  (n <? 32)%N = true -> one_line (UStr.of_string ("u00" +:+ Py.hex2 n)) = true.
Proof.
  intros Hn.
  assert (Hall : forallb (fun k => one_line (UStr.of_string
                                               ("u00" +:+ Py.hex2 (N.of_nat k))))
                   (List.seq 0 32) = true) by (vm_compute; reflexivity).
  rewrite forallb_forall in Hall.
  specialize (Hall (N.to_nat n)). rewrite N2Nat.id in Hall.
  apply Hall, in_seq. apply N.ltb_lt in Hn. lia.
Qed.

(** An escaped code point brings a line boundary only if it is one of the
    three that are written as they are. *)
Lemma escape_char_one_line (n : N) :
  raw_boundary n = false -> one_line (escape_char n) = true.
Proof.
  intros Hn. unfold escape_char.
  repeat match goal with
         | |- one_line (if ?c then _ else _) = true =>
             destruct c eqn:?; [try reflexivity|]
         end.
  - cbn [one_line forallb]. fold (one_line (UStr.of_string ("u00" +:+ Py.hex2 n))).
    now rewrite hex2_one_line.
  - cbn [one_line forallb]. rewrite andb_true_r. apply negb_true_iff.
    unfold raw_boundary in Hn. unfold UStr.is_linebreak.
    repeat match goal with
           | E : (_ || _) = false |- _ => apply orb_false_elim in E as [? ?]
           end.
    repeat match goal with
           | E : (_ =? _)%N = false |- _ => apply N.eqb_neq in E
           | E : (_ <? _)%N = false |- _ => apply N.ltb_ge in E
           end.
    destruct (N.leb_spec 10 n), (N.leb_spec n 13), (N.leb_spec 28 n),
      (N.leb_spec n 30), (N.eqb_spec n 133), (N.eqb_spec n 8232),
      (N.eqb_spec n 8233); cbn; try reflexivity; lia.
Qed.

Lemma escape_one_line (s : ustr) :
  forallb (fun n => negb (raw_boundary n)) s = true -> one_line (escape s) = true.
Proof.
  induction s as [|c s IH]; [reflexivity|].
  cbn [forallb escape]. intros [Hc Hs]%andb_prop. apply negb_true_iff in Hc.
  now rewrite one_line_app, (escape_char_one_line c Hc), IH.
Qed.

Lemma dumps_str_one_line (s : ustr) :
  forallb (fun n => negb (raw_boundary n)) s = true ->
  one_line (dumps_str s) = true.
Proof.
  intros Hs. unfold dumps_str.
  change (one_line (34%N :: escape s ++ [34%N])%list)
    with (one_line ([34%N] ++ escape s ++ [34%N])%list).
  now rewrite !one_line_app, (escape_one_line s Hs).
Qed.

(** The serialized form of a value is one line, if none of its texts holds
    one of the three boundaries and no float is written with one. *)
Lemma dumps_one_line :
  (forall f : float, no_linebreak (float_repr f) = true) ->
  forall v : uval, no_boundary v = true -> one_line (dumps v) = true.
Proof.
  intros Hrepr. fix IH 1. intros [ | [|] | z | f | s | l | d] Hv;
    cbn [dumps]; try reflexivity.
  - rewrite one_line_of_string. apply of_Z_no_linebreak.
  - rewrite one_line_of_string. unfold Json.dumps_float.
    destruct (is_nan f); [reflexivity|].
    destruct (f =? infinity)%float; [reflexivity|].
    destruct (f =? neg_infinity)%float; [reflexivity|]. apply Hrepr.
  - now apply dumps_str_one_line.
  - rewrite !one_line_app.
    apply andb_true_intro; split; [reflexivity|].
    apply andb_true_intro; split; [|reflexivity].
    apply one_line_join; [reflexivity|].
    cbn [no_boundary] in Hv. induction l as [|x l IHl]; [reflexivity|].
    cbn [forallb map] in *. apply andb_prop in Hv as [Hx Hl].
    now rewrite (IH x Hx), IHl.
  - rewrite !one_line_app.
    apply andb_true_intro; split; [reflexivity|].
    apply andb_true_intro; split; [|reflexivity].
    apply one_line_join; [reflexivity|].
    cbn [no_boundary] in Hv. induction d as [|[k x] d IHd]; [reflexivity|].
    cbn [forallb map fst snd] in *. apply andb_prop in Hv as [Hkx Hd].
    apply andb_prop in Hkx as [Hk Hx].
    now rewrite !one_line_app, (dumps_str_one_line k Hk), (IH x Hx), IHd.
Qed.

Lemma usplitlines_from_prefix (pre : ustr) :
  one_line pre = true ->
  forall cur rest : ustr,
  UStr.splitlines_from cur (pre ++ rest)%list
  = UStr.splitlines_from (cur ++ pre)%list rest.
Proof.
  induction pre as [|c pre IH]; intros Hpre cur rest.
  - now rewrite app_nil_r.
  - cbn [one_line forallb] in Hpre. apply andb_prop in Hpre as [Hc Hpre].
    apply negb_true_iff in Hc.
    change ((c :: pre) ++ rest)%list with (c :: (pre ++ rest))%list.
    cbn [UStr.splitlines_from]. rewrite Hc, (IH Hpre), <- app_assoc. reflexivity.
Qed.

Lemma ufrom_lines_cons (l : ustr) (X Y : list ustr) :
  from_lines X = from_lines Y -> from_lines (l :: X) = from_lines (l :: Y).
Proof. intros E. cbn [from_lines]. now rewrite E. Qed.

Lemma ufrom_lines_empty_cur (cur : ustr) (X : list ustr) :
  from_lines ((if UStr.is_empty cur then [] else [cur]) ++ X)%list
  = from_lines (cur :: X).
Proof. destruct cur; reflexivity. Qed.

Lemma ufrom_lines_app (X Y : list ustr) :
  from_lines (X ++ Y)%list
  = match from_lines X with
    | Ok x =>
        match from_lines Y with
        | Ok y => Ok (x ++ y)%list
        | Raise e => Raise e
        end
    | Raise e => Raise e
    end.
Proof.
  induction X as [|l X IH]; cbn [from_lines app].
  - now destruct (from_lines Y).
  - destruct (UStr.is_empty (UStr.strip l)); [exact IH|].
    destruct (ujson_loads l); [|reflexivity].
    rewrite IH. destruct (from_lines X); [|reflexivity].
    now destruct (from_lines Y).
Qed.

(** A line feed between two texts: up to blank lines, the lines are those
    of the first text and then those of the second. *)
Lemma ufrom_lines_splitlines_LF (b : ustr) (n : nat) :
  forall s : ustr, (List.length s <= n)%nat ->
  forall cur : ustr,
  from_lines (UStr.splitlines_from cur (s ++ LF ++ b)%list)
  = from_lines (UStr.splitlines_from cur s ++ UStr.splitlines_from [] b)%list.
Proof.
  induction n as [|n IH]; intros [|c s] Hlen cur;
    try (cbn [List.length] in Hlen; lia).
  - change (UStr.splitlines_from cur [])
      with (if UStr.is_empty cur then [] else [cur]).
    rewrite ufrom_lines_empty_cur. destruct b as [|c' b]; reflexivity.
  - change (UStr.splitlines_from cur [])
      with (if UStr.is_empty cur then [] else [cur]).
    rewrite ufrom_lines_empty_cur. destruct b as [|c' b]; reflexivity.
  - cbn [List.length] in Hlen.
    change ((c :: s) ++ LF ++ b)%list with (c :: (s ++ LF ++ b))%list.
    cbn [UStr.splitlines_from].
    destruct (UStr.is_linebreak c) eqn:Hc; [|apply IH; lia].
    destruct s as [|c' s].
    + change ([] ++ LF ++ b)%list with (10%N :: b). cbn [app].
      destruct ((c =? 13)%N && _); [reflexivity|].
      apply ufrom_lines_cons. destruct b as [|c'' b]; reflexivity.
    + change ((c' :: s) ++ LF ++ b)%list with (c' :: (s ++ LF ++ b))%list.
      cbn [List.length] in Hlen. cbv iota.
      destruct ((c =? 13)%N && _); cbn [app]; apply ufrom_lines_cons.
      * apply IH. lia.
      * apply (IH (c' :: s)). cbn [List.length]. lia.
Qed.

Lemma usplitlines_join (lines : list ustr) :
  Forall (fun l => one_line l = true /\ UStr.is_empty l = false) lines ->
  UStr.splitlines (UStr.join LF lines) = lines.
Proof.
  unfold UStr.splitlines.
  induction 1 as [|x rest [Hnb Hne] Hrest IH]; [reflexivity|].
  destruct rest as [|y rest].
  - cbn [UStr.join]. rewrite <- (app_nil_r x) at 1.
    rewrite (usplitlines_from_prefix x Hnb). cbn [app UStr.splitlines_from].
    now rewrite Hne.
  - change (UStr.join LF (x :: y :: rest))
      with (x ++ LF ++ UStr.join LF (y :: rest))%list.
    rewrite (usplitlines_from_prefix x Hnb).
    change ([] ++ x)%list with x.
    assert (Hj : UStr.is_empty (UStr.join LF (y :: rest)) = false).
    { inversion Hrest as [|? ? [_ Hy] _]. destruct y; [discriminate|].
      destruct rest; reflexivity. }
    destruct (UStr.join LF (y :: rest)) as [|c j] eqn:Ej; [discriminate|].
    change (LF ++ c :: j)%list with (10%N :: c :: j).
    change (UStr.splitlines_from x (10%N :: c :: j))
      with (x :: UStr.splitlines_from [] (c :: j)).
    now rewrite IH.
Qed.

(** The serialized form of a message is no blank line. *)
Lemma dumps_nonblank (m : udict) :
  UStr.is_empty (UStr.strip (dumps (UDict m))) = false.
Proof.
  cbn [dumps]. change (UStr.of_string "{") with [123%N]. cbn [app].
  unfold UStr.strip. cbn [UStr.lstrip].
  change (UStr.isspace 123) with false. cbv iota. cbn [UStr.rstrip].
  change (UStr.isspace 123) with false. now rewrite andb_false_r.
Qed.

Lemma ufrom_ndjson_to_ndjson (messages : list udict) :
  Forall (fun m => one_line (dumps (UDict m)) = true
                   /\ ujson_loads (dumps (UDict m)) = Some (UDict m)) messages ->
  from_ndjson (to_ndjson messages) = Ok (map UDict messages).
Proof.
  intros Hall. unfold from_ndjson, to_ndjson.
  rewrite usplitlines_join.
  - induction Hall as [|m rest [_ Hm] _ IH]; [reflexivity|].
    cbn [map from_lines]. now rewrite dumps_nonblank, Hm, IH.
  - induction Hall as [|m rest [Hl _] _ IH]; constructor; [|exact IH].
    split; [exact Hl|]. pose proof (dumps_nonblank m) as Hn.
    destruct (dumps (UDict m)); [discriminate|reflexivity].
Qed.

(** X9.  The round trip of [to_ndjson] and [from_ndjson] over the whole of
    Unicode, also for a text that ends in a line feed and for a text to
    which further messages were appended after a line feed: for messages
    none of whose strings holds U+0085, U+2028 or U+2029, a [repr] of floats
    without line boundary and a decoder that inverts [json.dumps] on them,
    the messages come back in order. *)
Theorem ndjson_round_trip (messages more : list udict) :
  (forall f : float, no_linebreak (float_repr f) = true) ->
  Forall (fun m => no_boundary (UDict m) = true
                   /\ ujson_loads (dumps (UDict m)) = Some (UDict m))
         (messages ++ more)%list ->
  from_ndjson (to_ndjson messages) = Ok (map UDict messages)
  /\ from_ndjson (to_ndjson messages ++ LF)%list = Ok (map UDict messages)
  /\ from_ndjson (to_ndjson messages ++ LF ++ to_ndjson more)%list
     = Ok (map UDict (messages ++ more)%list).
Proof.
  intros Hrepr Hall.
  assert (Hall' : Forall (fun m => one_line (dumps (UDict m)) = true
                                   /\ ujson_loads (dumps (UDict m)) = Some (UDict m))
                    (messages ++ more)%list).
  { induction Hall as [|m rest [Hm Hl] _ IH]; constructor; [|exact IH].
    split; [now apply dumps_one_line | exact Hl]. }
  apply Forall_app in Hall' as [Hm Hmore].
  pose proof (ufrom_ndjson_to_ndjson messages Hm) as E1.
  pose proof (ufrom_ndjson_to_ndjson more Hmore) as E2.
  split; [exact E1|]. split.
  - unfold from_ndjson, UStr.splitlines in *.
    rewrite <- (app_nil_r LF).
    rewrite (ufrom_lines_splitlines_LF [] _ _ (le_n _) []).
    rewrite ufrom_lines_app, E1. cbn. now rewrite app_nil_r.
  - unfold from_ndjson, UStr.splitlines in *.
    rewrite (ufrom_lines_splitlines_LF _ _ _ (le_n _) []).
    now rewrite ufrom_lines_app, E1, E2, map_app.
Qed.

End UnicodeNdjson.

(* ===================================================================== *)
(** * More of the sessions *)
(* ===================================================================== *)

(** [int(id.split("-")[-1])] for an id whose last field is made of decimal
    digits: the sequence number that a message id carries. *)
Definition seq_of_id (id : string) : option Z :=
  let field := List.last (PyStr.split "-" id) "" in
  if PyStr.is_empty field then None
  else
    match NilEmpty.uint_of_string field with
    | Some d => Some (Z.of_uint d)
    | None => None
    end.

(** A host whose schema accepts no message, to run the error paths. *)
Definition rejecting_host : Host :=
  {| float_of_str := Reference.float_of_str;
     float_repr := Reference.float_repr;
     jsonschema_validate := fun _ => Some "rejected" |}.

Section StringFields.

Lemma split_from_no_sep (sep : ascii) (pre : string) :
  all_chars (fun c => negb (Ascii.eqb c sep)) pre = true ->
  forall cur rest : string,
  PyStr.split_from cur sep (pre +:+ rest) = PyStr.split_from (cur +:+ pre) sep rest.
Proof.
  induction pre as [|c pre IH]; intros Hpre cur rest.
  - now rewrite append_empty_r.
  - cbn [all_chars] in Hpre. apply andb_prop in Hpre as [Hc Hpre].
    change (String c pre +:+ rest) with (String c (pre +:+ rest)).
    cbn [PyStr.split_from]. apply negb_true_iff in Hc. rewrite Hc.
    rewrite (IH Hpre), append_assoc. reflexivity.
Qed.

Lemma split_from_cons (sep : ascii) (s : string) :
  forall cur : string, exists x l, PyStr.split_from cur sep s = x :: l.
Proof.
  induction s as [|c s IH]; intros cur; cbn [PyStr.split_from]; [now eauto|].
  destruct (Ascii.eqb c sep); [now eauto|apply IH].
Qed.

(** The last field of a text that ends in the separator and a text without
    it. *)
Lemma last_split_from (sep : ascii) (d : string) :
  all_chars (fun c => negb (Ascii.eqb c sep)) d = true ->
  forall (X cur dflt : string),
  List.last (PyStr.split_from cur sep (X +:+ String sep d)) dflt = d.
Proof.
  intros Hd. induction X as [|c X IH]; intros cur dflt.
  - change ("" +:+ String sep d) with (String sep d).
    cbn [PyStr.split_from]. rewrite Ascii.eqb_refl.
    rewrite <- (append_empty_r d) at 1.
    rewrite (split_from_no_sep sep d Hd). reflexivity.
  - change (String c X +:+ String sep d) with (String c (X +:+ String sep d)).
    cbn [PyStr.split_from]. destruct (Ascii.eqb c sep); [|apply IH].
    destruct (split_from_cons sep (X +:+ String sep d) "") as (x & l & E).
    specialize (IH "" dflt). rewrite E in *. exact IH.
Qed.

Lemma uint_of_string_digits (s : string) :
  forall d : Decimal.uint,
  NilEmpty.uint_of_string s = Some d ->
  all_chars Reference.is_digit s = true.
Proof.
  induction s as [|c s IH]; intros d; [reflexivity|].
  cbn [NilEmpty.uint_of_string all_chars].
  destruct (NilEmpty.uint_of_string s) as [d'|].
  - rewrite (IH d' eq_refl), andb_true_r.
    destruct c as [[] [] [] [] [] [] [] []]; intros E; try reflexivity; discriminate.
  - destruct c as [[] [] [] [] [] [] [] []]; discriminate.
Qed.

Lemma uint_of_zeros (k : nat) (s : string) (d : Decimal.uint) :
  NilEmpty.uint_of_string s = Some d ->
  exists d', NilEmpty.uint_of_string (PyStr.zeros k +:+ s) = Some d'
             /\ Z.of_uint d' = Z.of_uint d.
Proof.
  intros Hs. induction k as [|k (d' & E & V)]; [now exists d|].
  exists (Decimal.D0 d'). split; [|exact V].
  change (PyStr.zeros (S k) +:+ s) with (String "0" (PyStr.zeros k +:+ s)).
  cbn [NilEmpty.uint_of_string]. now rewrite E.
Qed.

Lemma uint_of_Z (n : Z) :
  0 <= n ->
  exists d, NilEmpty.uint_of_string (PyStr.of_Z n) = Some d /\ Z.of_uint d = n.
Proof.
  intros Hn. destruct n as [|p|p]; [now exists (Decimal.D0 Decimal.Nil)| |lia].
  unfold PyStr.of_Z, Z.to_int, NilZero.string_of_int, NilZero.string_of_uint.
  pose proof (DecimalPos.Unsigned.of_to p) as E.
  destruct (Pos.to_uint p) as [|u|u|u|u|u|u|u|u|u|u] eqn:Eu; [discriminate| ..];
    rewrite <- Eu in *; (eexists; split; [apply NilEmpty.usu|]);
    unfold Z.of_uint; now rewrite E.
Qed.

(** A number that is not negative, written with [f"{n:0{w}d}"], reads back
    as that number. *)
Lemma uint_of_format_0d (w : nat) (n : Z) :
  0 <= n ->
  exists d, NilEmpty.uint_of_string (PyStr.format_0d w n) = Some d
            /\ Z.of_uint d = n.
Proof.
  intros Hn. unfold PyStr.format_0d.
  replace (n <? 0) with false by (symmetry; apply Z.ltb_ge; lia).
  rewrite Z.abs_eq by exact Hn.
  destruct (uint_of_Z n Hn) as (d & E & V).
  destruct (uint_of_zeros (w - String.length (PyStr.of_Z n)) _ d E) as (d' & E' & V').
  exists d'. split; [exact E'|congruence].
Qed.

Lemma format_0d_nonempty (w : nat) (n : Z) :
  PyStr.is_empty (PyStr.format_0d w n) = false.
Proof.
  assert (Hz : forall z, PyStr.is_empty (PyStr.of_Z z) = false).
  { intros z. unfold PyStr.of_Z, NilZero.string_of_int, NilZero.string_of_uint.
    destruct (Z.to_int z) as [d|d]; destruct d; reflexivity. }
  unfold PyStr.format_0d. destruct (n <? 0); [reflexivity|].
  destruct (w - _)%nat; [|reflexivity].
  change (PyStr.zeros 0 +:+ PyStr.of_Z (Z.abs n)) with (PyStr.of_Z (Z.abs n)).
  apply Hz.
Qed.

(** The sequence number reads back from an id that ends in a hyphen and
    the number. *)
Lemma seq_of_id_format (X : string) (w : nat) (n : Z) :
  0 <= n -> seq_of_id (X +:+ String "-" (PyStr.format_0d w n)) = Some n.
Proof.
  intros Hn. destruct (uint_of_format_0d w n Hn) as (d & E & V).
  unfold seq_of_id, PyStr.split. rewrite last_split_from.
  - now rewrite format_0d_nonempty, E, V.
  - apply (all_chars_impl Reference.is_digit); [|exact (uint_of_string_digits _ _ E)].
    intros c Hc. destruct c as [[] [] [] [] [] [] [] []]; try reflexivity; discriminate.
Qed.

Lemma drop_app_length (a b : string) : PyStr.drop (String.length a) (a +:+ b) = b.
Proof. induction a as [|x a IH]; [now destruct b|exact IH]. Qed.

Lemma take_length (n : nat) :
  forall s : string, (n <= String.length s)%nat ->
  String.length (PyStr.take n s) = n.
Proof.
  induction n as [|n IH]; intros [|c s] Hs; cbn in *; try reflexivity; try lia.
  rewrite IH; [reflexivity|lia].
Qed.

Lemma last_n_app (a b : string) (n : nat) :
  String.length b = n -> PyStr.last_n n (a +:+ b) = b.
Proof.
  intros Hb. unfold PyStr.last_n. rewrite length_append, Hb.
  replace (String.length a + n - n)%nat with (String.length a) by lia.
  apply drop_app_length.
Qed.

Lemma replace_from_prefix (old1 : ascii) (old new pre : string) :
  all_chars (fun c => negb (Ascii.eqb old1 c)) pre = true ->
  forall rest : string,
  PyStr.replace_from 0 (String old1 old) new (pre +:+ rest)
  = pre +:+ PyStr.replace_from 0 (String old1 old) new rest.
Proof.
  induction pre as [|c pre IH]; intros Hpre rest; [reflexivity|].
  cbn [all_chars] in Hpre. apply andb_prop in Hpre as [Hc Hpre].
  change (String c pre +:+ rest) with (String c (pre +:+ rest)).
  cbn [PyStr.replace_from PyStr.startswith].
  apply negb_true_iff in Hc. rewrite Hc. cbn [andb].
  now rewrite (IH Hpre).
Qed.

End StringFields.

Section SessionRuns.
Context {H : Host}.
Import Runtime Sessions.

(** X11.  [start_session] makes a session object that was not there
    before, with the given name and number and the counter at zero, and
    registers it: [get_session] of its id gives this object.  Every other
    object and every other entry of the registry stay as they were, and the
    first number that the session hands out is 1. *)
Theorem start_session_registers (e : Env) (started : datetime)
    (name : string) (number : Z) (w : World) :
  exists (h : nat) (w' : World) (s : AgentSession),
    start_session e started name number w = (Ok h, w')
    /\ store w !! h = None
    /\ store w' !! h = Some s
    /\ agent_name s = name /\ agent_number s = number /\ seq s = 0
    /\ session_id s = _generate_session_id e name
    /\ get_session (session_id s) w' = (Ok (Some h), w')
    /\ (forall h' : nat, h' <> h -> store w' !! h' = store w !! h')
    /\ (forall sid : string,
          sid <> session_id s -> fst (get_session sid w') = fst (get_session sid w))
    /\ fst (next_seq h w') = Ok 1.
Proof.
  rewrite start_session_run. eexists _, _, _. split; [reflexivity|].
  split; [apply not_elem_of_dom, is_fresh|].
  split; [apply lookup_insert_eq|].
  do 4 (split; [reflexivity|]).
  split; [unfold get_session; cbn; now rewrite lookup_insert_eq|].
  split; [intros h' Hh'; cbn; now rewrite lookup_insert_ne|].
  split.
  - intros sid Hsid. unfold get_session. cbn. now rewrite lookup_insert_ne.
  - erewrite next_seq_run by (cbn; apply lookup_insert_eq). reflexivity.
Qed.

(** The id of a session ends in the six characters drawn from the uuid. *)
Lemma session_id_suffix (e : Env) (name : string) :
  (6 <= String.length (uuid_hex e))%nat ->
  PyStr.last_n 6 (_generate_session_id e name) = PyStr.take 6 (uuid_hex e).
Proof.
  intros Hu. unfold _generate_session_id.
  rewrite <- !append_assoc. apply last_n_app, take_length, Hu.
Qed.

(** X12.  The message ids of a new session: with a uuid of at least six
    characters, as [uuid4().hex] is, the first id is the prefix, the six
    characters of the uuid that end the session id, and [0001]; the second
    one ends in [0002]. *)
Theorem first_message_ids (e : Env) (started : datetime) (name : string)
    (number : Z) (w : World) (prefix prefix' : string) :
  (6 <= String.length (uuid_hex e))%nat ->
  exists (h : nat) (w1 w2 w3 : World),
    start_session e started name number w = (Ok h, w1)
    /\ message_id h prefix w1
       = (Ok (prefix +:+ "-" +:+ PyStr.take 6 (uuid_hex e) +:+ "-0001"), w2)
    /\ message_id h prefix' w2
       = (Ok (prefix' +:+ "-" +:+ PyStr.take 6 (uuid_hex e) +:+ "-0002"), w3).
Proof.
  intros Hu. rewrite start_session_run. eexists _, _, _, _.
  split; [reflexivity|]. split.
  - erewrite message_id_run by (cbn; apply lookup_insert_eq).
    cbn [session_id seq]. rewrite (session_id_suffix e name Hu). reflexivity.
  - erewrite message_id_run by apply store_put.
    cbn [session_id seq set_seq]. rewrite (session_id_suffix e name Hu). reflexivity.
Qed.

(** X13.  A message id carries the sequence number drawn for it: on a
    session whose counter is not negative, the last field of the id reads
    back as the new value of the counter.  So two ids drawn one after the
    other from one session differ, whatever their prefixes. *)
Theorem message_id_carries_seq (h : nat) (w : World) (s : AgentSession)
    (p1 p2 : string) :
  store w !! h = Some s ->
  0 <= seq s ->
  exists (id1 id2 : string) (w1 w2 : World),
    message_id h p1 w = (Ok id1, w1)
    /\ message_id h p2 w1 = (Ok id2, w2)
    /\ seq_of_id id1 = Some (seq s + 1)
    /\ seq_of_id id2 = Some (seq s + 2)
    /\ id1 <> id2.
Proof.
  intros Hs Hn.
  assert (E : forall (p : string) (s' : AgentSession), 0 <= seq s' ->
            seq_of_id (p +:+ "-" +:+ PyStr.last_n 6 (session_id s') +:+ "-"
                         +:+ PyStr.format_0d 4 (seq s' + 1)) = Some (seq s' + 1)).
  { intros p s' Hs'.
    replace (p +:+ "-" +:+ PyStr.last_n 6 (session_id s') +:+ "-"
               +:+ PyStr.format_0d 4 (seq s' + 1))
      with ((p +:+ "-" +:+ PyStr.last_n 6 (session_id s'))
              +:+ String "-" (PyStr.format_0d 4 (seq s' + 1)))
      by (rewrite !append_assoc; reflexivity).
    apply seq_of_id_format. lia. }
  eexists _, _, _, _.
  split; [apply (message_id_run h p1 w s Hs)|].
  split; [apply (message_id_run h p2 _ _ (store_put h _ w))|].
  pose proof (E p1 s Hn) as E1.
  pose proof (E p2 (set_seq (seq s + 1) s) ltac:(cbn; lia)) as E2.
  cbn [seq set_seq session_id] in E2.
  replace (seq s + 1 + 1) with (seq s + 2) in E2 by lia.
  split; [exact E1|]. split.
  - cbn [seq set_seq session_id]. replace (seq s + 1 + 1) with (seq s + 2) by lia.
    exact E2.
  - intros Heq. cbn [seq set_seq session_id] in Heq.
    replace (seq s + 1 + 1) with (seq s + 2) in Heq by lia.
    rewrite Heq, E2 in E1. injection E1. lia.
Qed.




(** X15.  [end_session] on a message that the schema refuses: the call
    raises the [ValueError] of [make_message] with the text of the schema.
    The two numbers are drawn all the same, and the session stays in the
    registry: the [pop] of line 121 is not reached. *)
Theorem end_session_rejected (e : Env) (ended : datetime) (h : nat)
    (summary : string) (w : World) (s : AgentSession) (err : string) :
  store w !! h = Some s ->
  jsonschema_validate (VDict (session_context_message e ended summary s)) = Some err ->
  exists w' : World,
    end_session e ended h summary w
    = (Raise (ValueError ("VLP validation failed: " +:+ err)), w')
    /\ seq <$> (store w' !! h) = Some (seq s + 2)
    /\ _sessions w' = _sessions w
    /\ (forall h' : nat, h' <> h -> store w' !! h' = store w !! h').
Proof.
  intros Hs Herr. rewrite (end_session_run e ended h summary w s Hs).
  unfold make_message, build_message.
  change (Py.float_ (Py.get_or (session_context_kw _ _ _ _) "confidence" (VFloat 1)))
    with (@Ok float 1%float).
  cbv iota. fold (session_context_message e ended summary s).
  unfold checked, validate_vlp. rewrite Herr.
  eexists. split; [reflexivity|].
  split; [now rewrite store_put|]. split; [reflexivity|].
  intros h' Hh'. cbn. now rewrite lookup_insert_ne.
Qed.

End SessionRuns.

Section Timestamps.
Import Runtime.

Lemma format_0d_no_plus (w : nat) (z : Z) :
  all_chars (fun c => negb (Ascii.eqb "+" c)) (PyStr.format_0d w z) = true.
Proof.
  apply all_chars_format_0d; [|reflexivity].
  intros c Hc. destruct c as [[] [] [] [] [] [] [] []]; try reflexivity; discriminate.
Qed.

(** X16.  [now_iso()] writes the clock to the second, in UTC with a [Z]:
    the date, [T], the time of day and [Z], whatever the microseconds of the
    clock are.  For a year of at most four digits and the other fields of
    at most two, as a date of the calendar has them, these are twenty
    characters. *)
Theorem now_iso_shape (e : Env) :
  0 <= year (clock e) <= 9999 ->
  0 <= month (clock e) <= 99 /\ 0 <= day (clock e) <= 99 ->
  0 <= hour (clock e) <= 99 /\ 0 <= minute (clock e) <= 99
  /\ 0 <= second (clock e) <= 99 ->
  now_iso e
  = Clock.strftime_Ymd (clock e) +:+ "T" +:+ PyStr.format_0d 2 (hour (clock e))
      +:+ ":" +:+ PyStr.format_0d 2 (minute (clock e))
      +:+ ":" +:+ PyStr.format_0d 2 (second (clock e)) +:+ "Z"
  /\ String.length (now_iso e) = 20%nat.
Proof.
  intros Hy [Hm Hd] (Hh & Hmi & Hs).
  assert (E : now_iso e
              = Clock.strftime_Ymd (clock e) +:+ "T"
                  +:+ PyStr.format_0d 2 (hour (clock e))
                  +:+ ":" +:+ PyStr.format_0d 2 (minute (clock e))
                  +:+ ":" +:+ PyStr.format_0d 2 (second (clock e)) +:+ "Z").
  { unfold now_iso, Clock.iso_z, Clock.isoformat, Clock.replace_microsecond_0,
      PyStr.replace, Clock.strftime_Ymd.
    cbn [year month day hour minute second microsecond PyStr.is_empty Z.eqb].
    rewrite !append_assoc.
    repeat (rewrite replace_from_prefix
              by first [apply format_0d_no_plus | reflexivity]).
    reflexivity. }
  split; [exact E|]. rewrite E. unfold Clock.strftime_Ymd.
  rewrite !length_append, (format_0d_4_length _ Hy),
    !format_0d_2_length by assumption.
  reflexivity.
Qed.

End Timestamps.

(* ===================================================================== *)
(** * Concrete runs of the sessions and of the NDJSON framing *)
(* ===================================================================== *)

(** A note whose content holds a line feed. *)
Definition two_line_note : dict :=
  [("type", VStr "notice"); ("content", VStr ("a" +:+ Json.LF +:+ "b"));
   ("confidence", VFloat 0.5)].

(** ** A decoder for the witness *)

(** UTF-8: a text as the bytes it is stored with, and back. *)
Module Utf8.

Definition encode_char (n : N) : option (list N) :=
  (if n <? 128 then Some [n]
   else if n <? 2048 then Some [192 + n / 64; 128 + n mod 64]
   else if n <? 65536
        then Some [224 + n / 4096; 128 + (n / 64) mod 64; 128 + n mod 64]
   else if n <? 1114112
        then Some [240 + n / 262144; 128 + (n / 4096) mod 64;
                   128 + (n / 64) mod 64; 128 + n mod 64]
   else None)%N.

Fixpoint encode_list (s : ustr) : option (list N) :=
  match s with
  | [] => Some []
  | c :: s' =>
      match encode_char c, encode_list s' with
      | Some b, Some r => Some (b ++ r)%list
      | _, _ => None
      end
  end.

Definition encode (s : ustr) : option string :=
  match encode_list s with
  | Some b => Some (string_of_list_ascii (map ascii_of_N b))
  | None => None
  end.

(** The code points that the bytes start with, by the first byte alone. *)
Fixpoint decode_list (b : list N) : ustr :=
  match b with
  | [] => []
  | b0 :: r =>
      (if b0 <? 128 then b0 :: decode_list r
       else if b0 <? 224 then
         match r with
         | b1 :: r' => ((b0 - 192) * 64 + (b1 - 128)) :: decode_list r'
         | _ => []
         end
       else if b0 <? 240 then
         match r with
         | b1 :: b2 :: r' =>
             ((b0 - 224) * 4096 + (b1 - 128) * 64 + (b2 - 128)) :: decode_list r'
         | _ => []
         end
       else
         match r with
         | b1 :: b2 :: b3 :: r' =>
             ((b0 - 240) * 262144 + (b1 - 128) * 4096 + (b2 - 128) * 64
              + (b3 - 128)) :: decode_list r'
         | _ => []
         end)%N
  end.

(** The text that is stored with these bytes, if there is one. *)
Definition decode (s : string) : option ustr :=
  let u := decode_list (map N_of_ascii (list_ascii_of_string s)) in
  match encode u with
  | Some s' => if String.eqb s s' then Some u else None
  | None => None
  end.

End Utf8.

(** A value read from the bytes, as the value over Unicode. *)
Fixpoint uval_of_bytes (v : pyval) : option uval :=
  match v with
  | VNone => Some UNone
  | VBool b => Some (UBool b)
  | VInt z => Some (UInt z)
  | VFloat f => Some (UFloat f)
  | VStr s => match Utf8.decode s with Some u => Some (UStr u) | None => None end
  | VList l =>
      match (fix items (l : list pyval) : option (list uval) :=
               match l with
               | [] => Some []
               | x :: r =>
                   match uval_of_bytes x, items r with
                   | Some y, Some ys => Some (y :: ys)
                   | _, _ => None
                   end
               end) l with
      | Some ys => Some (UList ys)
      | None => None
      end
  | VDict d =>
      match (fix items (d : list (string * pyval)) : option udict :=
               match d with
               | [] => Some []
               | (k, x) :: r =>
                   match Utf8.decode k, uval_of_bytes x, items r with
                   | Some k', Some y, Some ys => Some ((k', y) :: ys)
                   | _, _, _ => None
                   end
               end) d with
      | Some ys => Some (UDict ys)
      | None => None
      end
  end.

(** An escape [\uXXXX] other than [\u0000] .. [\u007f] somewhere in the
    text (also where the backslash is itself escaped). *)
Fixpoint has_high_escape (s : ustr) : bool :=
  match s with
  | [] => false
  | c :: r =>
      match r with
      | u :: h1 :: h2 :: h3 :: _ =>
          ((c =? 92) && (u =? 117)
           && negb ((h1 =? 48) && (h2 =? 48) && (48 <=? h3) && (h3 <=? 55)))%N
      | _ => false
      end
      || has_high_escape r
  end.

(** A decoder for a part of JSON that holds all that [json.dumps(...,
    ensure_ascii=False)] writes: the text is read through its UTF-8 bytes by
    the decoder above; a text with an escape above U+007F is left unread. *)
Definition reference_unicode_decoder : UJsonDecoder :=
  {| ujson_loads := fun s =>
       if has_high_escape s then None
       else match Utf8.encode s with
            | Some b =>
                match ReferenceJson.loads b with
                | Some v => uval_of_bytes v
                | None => None
                end
            | None => None
            end |}.

(** A value of the narrower model, over Unicode. *)
Fixpoint unicode_of (v : pyval) : uval :=
  match v with
  | VNone => UNone
  | VBool b => UBool b
  | VInt z => UInt z
  | VFloat f => UFloat f
  | VStr s => UStr (UStr.of_string s)
  | VList l => UList (map unicode_of l)
  | VDict d => UDict (map (fun kv => (UStr.of_string (fst kv), unicode_of (snd kv))) d)
  end.

Definition unicode_dict (d : dict) : udict :=
  map (fun kv => (UStr.of_string (fst kv), unicode_of (snd kv))) d.

(** A note in Chinese with an ellipsis (U+2026), a line feed, a tabulator,
    a quote and a no-break space (U+00A0) in its content. *)
Definition unicode_note : udict :=
  [(UStr.of_string "type", UStr (UStr.of_string "notice"));
   (UStr.of_string "content",
    UStr [20013; 25991; 8230; 10; 9; 34; 160; 128512]%N);
   (UStr.of_string "confidence", UFloat 0.5)].

(** X9 on the Chinese note and the escalated claim of C1, followed by the
    evidence message of C2, with the reference [repr] and the decoder
    through UTF-8. *)
Lemma ndjson_round_trip_witness :
  @UJson.from_ndjson reference_unicode_decoder
    (@UJson.to_ndjson reference_host [unicode_note; unicode_dict escalated_claim])
  = Ok (map UDict [unicode_note; unicode_dict escalated_claim])
  /\ @UJson.from_ndjson reference_unicode_decoder
       (@UJson.to_ndjson reference_host [unicode_note; unicode_dict escalated_claim]
          ++ UJson.LF)%list
     = Ok (map UDict [unicode_note; unicode_dict escalated_claim])
  /\ @UJson.from_ndjson reference_unicode_decoder
       (@UJson.to_ndjson reference_host [unicode_note; unicode_dict escalated_claim]
          ++ UJson.LF
          ++ @UJson.to_ndjson reference_host [unicode_dict unearned_evidence])%list
     = Ok (map UDict ([unicode_note; unicode_dict escalated_claim]
                        ++ [unicode_dict unearned_evidence])%list).
Proof.
  apply (@ndjson_round_trip reference_host reference_unicode_decoder
           [unicode_note; unicode_dict escalated_claim]
           [unicode_dict unearned_evidence] reference_repr_no_linebreak).
  repeat constructor; vm_compute; reflexivity.
Defined.

Module UnicodeNdjsonTests.

(** U+2028 in a content: one message is written, the text is cut in two
    and neither half is read. *)
Example line_separator_breaks :
  let m : udict := [(UStr.of_string "content", UStr [97; 8232; 98]%N)] in
  List.length (UStr.splitlines (@UJson.to_ndjson reference_host [m])) = 2%nat
  /\ @UJson.from_ndjson reference_unicode_decoder (@UJson.to_ndjson reference_host [m])
     = Raise JSONDecodeError.
Proof. vm_compute. split; reflexivity. Qed.

Example utf8_round_trip :
  Utf8.decode (string_of_list_ascii (map ascii_of_N [228; 184; 173; 226; 128; 166]%N))
  = Some [20013; 8230]%N.
Proof. vm_compute. reflexivity. Qed.

End UnicodeNdjsonTests.

(** X10 on a note with a line feed in its content and the escalated claim:
    two lines. *)
Lemma to_ndjson_one_line_each_witness :
  PyStr.split (ascii_of_N 10)
    (@Json.to_ndjson reference_host (two_line_note :: [escalated_claim]))
  = map (fun m => @Json.dumps reference_host (VDict m))
      (two_line_note :: [escalated_claim]).
Proof.
  exact (@to_ndjson_one_line_each reference_host two_line_note [escalated_claim]
           reference_repr_not_lf).
Defined.

(** X12 on a new registry, with the uuid of [env0]. *)
Lemma first_message_ids_witness :
  exists (h : nat) (w1 w2 w3 : World),
    Sessions.start_session env0 noon "The Observer" 4 empty_world = (Ok h, w1)
    /\ Sessions.message_id h "CLM" w1
       = (Ok ("CLM" +:+ "-" +:+ PyStr.take 6 (uuid_hex env0) +:+ "-0001"), w2)
    /\ Sessions.message_id h "CTX" w2
       = (Ok ("CTX" +:+ "-" +:+ PyStr.take 6 (uuid_hex env0) +:+ "-0002"), w3).
Proof.
  apply (first_message_ids env0 noon "The Observer" 4 empty_world "CLM" "CTX").
  cbn. lia.
Defined.

(** X13 on the session of [observer_started]. *)
Lemma message_id_carries_seq_witness :
  exists (id1 id2 : string) (w1 w2 : World),
    Sessions.message_id 0%nat "CLM" observer_started = (Ok id1, w1)
    /\ Sessions.message_id 0%nat "CLM" w1 = (Ok id2, w2)
    /\ seq_of_id id1 = Some (seq (observer 0) + 1)
    /\ seq_of_id id2 = Some (seq (observer 0) + 2)
    /\ id1 <> id2.
Proof.
  apply (message_id_carries_seq 0%nat observer_started (observer 0) "CLM" "CLM");
    [reflexivity | cbn; lia].
Defined.


(** X15 on the observer, under a schema that refuses every message. *)
Lemma end_session_rejected_witness :
  exists w' : World,
    @Sessions.end_session rejecting_host env0 noon 0%nat "Done" observer_started
    = (Raise (ValueError ("VLP validation failed: " +:+ "rejected")), w')
    /\ seq <$> (store w' !! 0%nat) = Some (seq (observer 0) + 2)
    /\ _sessions w' = _sessions observer_started
    /\ (forall h' : nat, h' <> 0%nat -> store w' !! h' = store observer_started !! h').
Proof.
  apply (@end_session_rejected rejecting_host env0 noon 0%nat "Done"
           observer_started (observer 0) "rejected"); reflexivity.
Defined.

(** X16 on the clock of [env0]. *)
Lemma now_iso_shape_witness :
  Runtime.now_iso env0
  = Clock.strftime_Ymd (clock env0) +:+ "T" +:+ PyStr.format_0d 2 (hour (clock env0))
      +:+ ":" +:+ PyStr.format_0d 2 (minute (clock env0))
      +:+ ":" +:+ PyStr.format_0d 2 (second (clock env0)) +:+ "Z"
  /\ String.length (Runtime.now_iso env0) = 20%nat.
Proof.
  apply (now_iso_shape env0); cbn; lia.
Defined.

(** The NDJSON tests of [tests/test_runtime.py] that read a text, with the
    reference decoder. *)
Module NdjsonTests.
Import Runtime Json.

Example test_from_ndjson :
  @from_ndjson reference_decoder
    ("{" +:+ dumps_str "id" +:+ ": " +:+ dumps_str "MSG001" +:+ "}" +:+ LF
     +:+ "{" +:+ dumps_str "id" +:+ ": " +:+ dumps_str "MSG002" +:+ "}" +:+ LF)
  = Ok [VDict [("id", VStr "MSG001")]; VDict [("id", VStr "MSG002")]].
Proof. vm_compute. reflexivity. Qed.

Example test_roundtrip :
  exists m1 m2 : dict,
    @make_message reference_host env0 (VStr "claim") (VStr "Agent1") (VStr "Test1")
      [("confidence", VFloat 0.5)] = Ok m1
    /\ @make_message reference_host env0 (VStr "claim") (VStr "Agent2") (VStr "Test2")
         [("confidence", VFloat 0.6)] = Ok m2
    /\ exists p1 p2 : dict,
         @from_ndjson reference_decoder (@to_ndjson reference_host [m1; m2])
         = Ok [VDict p1; VDict p2]
         /\ Py.get p1 "sender" = VStr "Agent1"
         /\ Py.get p2 "sender" = VStr "Agent2".
Proof.
  eexists _, _. split; [vm_compute; reflexivity|].
  split; [vm_compute; reflexivity|].
  eexists _, _. split; [vm_compute; reflexivity|]. split; reflexivity.
Qed.

End NdjsonTests.

Section SessionLife.
Context {H : Host}.
Import Runtime Sessions.

(** The session object that [start_session] makes. *)
Definition started_session (e : Env) (started : datetime) (name : string)
    (number : Z) : AgentSession :=
  {| agent_name := name; agent_number := number;
     session_id := _generate_session_id e name;
     started_at := Clock.iso_z started; seq := 0 |}.

(** X17.  A session that is started and ended at once, under an id that
    the registry did not hold: the registry is as it was before; the
    session context message belongs to the session, its sender is the
    agent, and it reports two messages, the two numbers that [end_session]
    drew itself. *)
Theorem start_then_end_session (e e' : Env) (started ended : datetime)
    (name summary : string) (number : Z) (w : World) :
  _sessions w !! _generate_session_id e name = None ->
  jsonschema_validate
    (VDict (session_context_message e' ended summary
              (started_session e started name number))) = None ->
  exists (h : nat) (w1 w2 : World) (msg payload : dict),
    start_session e started name number w = (Ok h, w1)
    /\ end_session e' ended h summary w1 = (Ok msg, w2)
    /\ _sessions w2 = _sessions w
    /\ Py.get msg "session_id" = VStr (_generate_session_id e name)
    /\ Py.get msg "sender" = VStr name
    /\ Py.get msg "seq" = VInt 2
    /\ Py.get msg "payload" = VDict payload
    /\ Py.get payload "total_messages" = VInt 2
    /\ Py.get payload "started_at" = VStr (Clock.iso_z started)
    /\ Py.get payload "ended_at" = VStr (Clock.iso_z ended).
Proof.
  intros Hnew Hok. rewrite start_session_run.
  eexists _, _, _, _, _. split; [reflexivity|].
  split.
  - apply (end_session_accepted e' ended _ summary _
             (started_session e started name number)); [|exact Hok].
    cbn. apply lookup_insert_eq.
  - split; [cbn; now rewrite delete_insert_id|].
    repeat split; reflexivity.
Qed.

End SessionLife.

(** X17 on the observer in a new registry. *)
Lemma start_then_end_session_witness :
  exists (h : nat) (w1 w2 : World) (msg payload : dict),
    Sessions.start_session env0 noon "The Observer" 4 empty_world = (Ok h, w1)
    /\ @Sessions.end_session reference_host env0 noon h "" w1 = (Ok msg, w2)
    /\ _sessions w2 = _sessions empty_world
    /\ Py.get msg "session_id" = VStr (Sessions._generate_session_id env0 "The Observer")
    /\ Py.get msg "sender" = VStr "The Observer"
    /\ Py.get msg "seq" = VInt 2
    /\ Py.get msg "payload" = VDict payload
    /\ Py.get payload "total_messages" = VInt 2
    /\ Py.get payload "started_at" = VStr (Clock.iso_z noon)
    /\ Py.get payload "ended_at" = VStr (Clock.iso_z noon).
Proof.
  apply (@start_then_end_session reference_host env0 env0 noon noon
           "The Observer" "" 4 empty_world); reflexivity.
Defined.
